(** * Cryostat monitor: instrument protocol and heater controllers

    A shallow embedding of [devices/devices.py] and [devices/utils.py]:
    the message helpers of [MessageBasedDevice], the guarded I/O of a
    session, resource discovery, and the two heater controllers driven by
    [TemperatureController] and [ColdHeadHeaterOnPressureStabilization].

    Conventions of the embedding.
    - Python [str] values are ASCII strings (pyvisa decodes instrument
      replies as ASCII); a character is an [ascii].
    - Python [int] is [Z].  A Python [float] is a [pyfloat]: an exact
      rational, a signed infinity or NaN.  Rounding and overflow of IEEE
      doubles are not represented.
    - A call that may raise returns a [result]; code that also talks to
      the instrument runs in the monad [M], which keeps the state reached
      when an exception is raised (a write done before the exception stays
      done). *)

From Stdlib Require Import ZArith QArith Qround Lia Lqa Bool List.
From Stdlib Require Import Ascii String DecimalString.
Import ListNotations.

Local Open Scope string_scope.
Local Open Scope Z_scope.

(** ** Exceptions and results *)

Inductive exn : Type :=
| ValueError (msg : string)
| KeyError (key : string)
| IndexError
| TypeError
| AttributeError (msg : string)
| VisaIOError.

Inductive result (A : Type) : Type :=
| Ok (a : A)
| Raise (e : exn).
Arguments Ok {A} a.
Arguments Raise {A} e.

Definition is_ok {A} (r : result A) : bool :=
  match r with Ok _ => true | Raise _ => false end.

(** ** Python floats *)

Module PyFloat.

Inductive pyfloat : Type :=
| Fin (q : Q)
| Inf (negative : bool)
| NaN.

Definition of_Z (z : Z) : pyfloat := Fin (inject_Z z).

Definition Qlt_bool (a b : Q) : bool := negb (Qle_bool b a).

(** [a < b]; every comparison with NaN is false. *)
Definition lt (a b : pyfloat) : bool :=
  match a, b with
  | Fin x, Fin y => Qlt_bool x y
  | Fin _, Inf n => negb n
  | Inf n, Fin _ => n
  | Inf n, Inf m => n && negb m
  | _, _ => false
  end.

Definition gt (a b : pyfloat) : bool := lt b a.

(** [a <= b] as a proposition, used to state bounds. *)
Definition le (a b : pyfloat) : Prop :=
  match a, b with
  | Fin x, Fin y => (x <= y)%Q
  | Fin _, Inf n => n = false
  | Inf n, Fin _ => n = true
  | Inf n, Inf m => n = true \/ m = false
  | _, _ => False
  end.

(** Same number: rationals are compared by value. *)
Definition feq (a b : pyfloat) : Prop :=
  match a, b with
  | Fin x, Fin y => (x == y)%Q
  | Inf n, Inf m => n = m
  | NaN, NaN => True
  | _, _ => False
  end.

Definition neg (a : pyfloat) : pyfloat :=
  match a with
  | Fin x => Fin (Qred (- x))
  | Inf n => Inf (negb n)
  | NaN => NaN
  end.

Definition add (a b : pyfloat) : pyfloat :=
  match a, b with
  | Fin x, Fin y => Fin (Qred (x + y))
  | Fin _, Inf n => Inf n
  | Inf n, Fin _ => Inf n
  | Inf n, Inf m => if Bool.eqb n m then Inf n else NaN
  | _, _ => NaN
  end.

Definition sub (a b : pyfloat) : pyfloat := add a (neg b).

(** Division by a positive rational constant. *)
Definition div_pos (a : pyfloat) (c : Q) : pyfloat :=
  match a with
  | Fin x => Fin (Qred (x / c))
  | other => other
  end.

(** The builtin [max(a, b)]: [a] unless [b > a]. *)
Definition max (a b : pyfloat) : pyfloat := if gt b a then b else a.

(** The builtin [min(a, b)]: [a] unless [b < a]. *)
Definition min (a b : pyfloat) : pyfloat := if lt b a then b else a.

(** [numpy.diff]. *)
Fixpoint diff (l : list pyfloat) : list pyfloat :=
  match l with
  | a :: (b :: _) as tl => sub b a :: diff tl
  | _ => []
  end.

Definition sum (l : list pyfloat) : pyfloat :=
  fold_left add l (Fin 0).

(** [numpy.mean]: NaN on an empty array. *)
Definition mean (l : list pyfloat) : pyfloat :=
  match l with
  | [] => NaN
  | _ => div_pos (sum l) (inject_Z (Z.of_nat (List.length l)))
  end.

(** Round half to even, the rule of [numpy.rint]. *)
Definition rint (q : Q) : Z :=
  let f := Qfloor q in
  let r := (q - inject_Z f)%Q in
  if Qlt_bool r (1 # 2) then f
  else if Qlt_bool (1 # 2) r then f + 1
  else if Z.even f then f else f + 1.

(** [round(x, 1)] on a numpy float. *)
Definition round1 (a : pyfloat) : pyfloat :=
  match a with
  | Fin x => Fin (Qred (inject_Z (rint (x * 10)) / 10))
  | other => other
  end.

End PyFloat.
Import PyFloat.

(** ** Python string builtins used by the source *)

Module PyStr.

Definition code (c : ascii) : N := N_of_ascii c.

(** [str.isspace] on one ASCII character. *)
Definition is_space (c : ascii) : bool :=
  let n := code c in
  ((9 <=? n) && (n <=? 13) || (28 <=? n) && (n <=? 32))%N.

Definition is_digit (c : ascii) : bool :=
  let n := code c in ((48 <=? n) && (n <=? 57))%N.

Definition digit_value (c : ascii) : Z := Z.of_N (code c) - 48.

Fixpoint lstrip (s : string) : string :=
  match s with
  | String c s' => if is_space c then lstrip s' else s
  | EmptyString => EmptyString
  end.

Fixpoint rstrip (s : string) : string :=
  match s with
  | String c s' =>
      match rstrip s' with
      | EmptyString => if is_space c then EmptyString else String c EmptyString
      | r => String c r
      end
  | EmptyString => EmptyString
  end.

(** [s.strip()] *)
Definition strip (s : string) : string := rstrip (lstrip s).

(** [s.split(sep)] for a one-character separator: never an empty list. *)
Fixpoint split (sep : ascii) (s : string) : list string :=
  match s with
  | EmptyString => [EmptyString]
  | String c s' =>
      if Ascii.eqb c sep then EmptyString :: split sep s'
      else match split sep s' with
           | t :: ts => String c t :: ts
           | [] => [String c EmptyString]
           end
  end.


Fixpoint all_chars (p : ascii -> bool) (s : string) : bool :=
  match s with
  | EmptyString => true
  | String c s' => p c && all_chars p s'
  end.

(** [s.isdigit()]: at least one character, all of them digits. *)
Definition isdigit (s : string) : bool :=
  match s with
  | EmptyString => false
  | _ => all_chars is_digit s
  end.

Fixpoint digits_value (acc : Z) (s : list ascii) : Z :=
  match s with
  | [] => acc
  | c :: s' => digits_value (10 * acc + digit_value c) s'
  end.

(** [int(s)] on a string of digits. *)
Definition int_of_digits (s : string) : Z :=
  digits_value 0 (list_ascii_of_string s).

Definition to_lower (c : ascii) : ascii :=
  let n := code c in
  if ((65 <=? n) && (n <=? 90))%N then ascii_of_N (n + 32) else c.

Definition to_upper (c : ascii) : ascii :=
  let n := code c in
  if ((97 <=? n) && (n <=? 122))%N then ascii_of_N (n - 32) else c.

Definition is_alpha (c : ascii) : bool :=
  let n := code c in
  ((65 <=? n) && (n <=? 90) || (97 <=? n) && (n <=? 122))%N.

Fixpoint map_chars (f : ascii -> ascii) (s : string) : string :=
  match s with
  | EmptyString => EmptyString
  | String c s' => String (f c) (map_chars f s')
  end.

(** [s.upper()] and [s.lower()] *)
Definition upper : string -> string := map_chars to_upper.
Definition lower : string -> string := map_chars to_lower.

(** [s.title()]: a letter is upper-cased when the character before it is
    not a letter, lower-cased otherwise. *)
Fixpoint title_from (prev_alpha : bool) (s : string) : string :=
  match s with
  | EmptyString => EmptyString
  | String c s' =>
      String (if prev_alpha then to_lower c else to_upper c)
             (title_from (is_alpha c) s')
  end.
Definition title : string -> string := title_from false.

Fixpoint last_char (s : string) : option ascii :=
  match s with
  | EmptyString => None
  | String c EmptyString => Some c
  | String _ s' => last_char s'
  end.

(** [str(n)] for an [int]. *)
Definition str_of_int (n : Z) : string :=
  NilZero.string_of_int (Z.to_int n).

(** ** [float(s)]

    The grammar of the builtin: optional sign, then [inf], [infinity] or
    [nan] in any letter case, or a decimal number
    [digitpart [. [digitpart]] | . digitpart] with an optional exponent,
    where a [digitpart] is digits separated by single underscores.
    Surrounding white space is ignored. *)

(** Reads the rest of a [digitpart] after its first digit; returns the
    digits read, most recent first, and what follows. *)
Fixpoint digitpart_rest (l : list ascii) (acc : list ascii)
  : list ascii * list ascii :=
  match l with
  | c :: l' =>
      if is_digit c then digitpart_rest l' (c :: acc)
      else if Ascii.eqb c "_" then
        match l' with
        | d :: l'' =>
            if is_digit d then digitpart_rest l'' (d :: acc) else (acc, l)
        | [] => (acc, l)
        end
      else (acc, l)
  | [] => (acc, l)
  end.

(** A [digitpart]: its digits in order, and the rest of the input. *)
Definition digitpart (l : list ascii) : option (list ascii * list ascii) :=
  match l with
  | c :: l' =>
      if is_digit c then
        let '(acc, rest) := digitpart_rest l' [c] in Some (rev acc, rest)
      else None
  | [] => None
  end.

Definition sign_of (l : list ascii) : bool * list ascii :=
  match l with
  | c :: l' =>
      if Ascii.eqb c "-" then (true, l')
      else if Ascii.eqb c "+" then (false, l')
      else (false, l)
  | [] => (false, l)
  end.

(** The optional exponent; [None] when the input is not an exponent
    followed by the end of the string. *)
Definition exponent (l : list ascii) : option Z :=
  match l with
  | [] => Some 0
  | c :: l' =>
      if Ascii.eqb (to_lower c) "e" then
        let '(neg_e, l'') := sign_of l' in
        match digitpart l'' with
        | Some (ds, []) =>
            let e := digits_value 0 ds in Some (if neg_e then - e else e)
        | _ => None
        end
      else None
  end.

(** [m * 10^e] as a reduced rational. *)
Definition scale10 (m e : Z) : Q :=
  if 0 <=? e then inject_Z (m * 10 ^ e)
  else Qred (m # Z.to_pos (10 ^ (- e))).

Definition decimal_number (l : list ascii) : option Q :=
  let finish (ip fp rest : list ascii) :=
    match exponent rest with
    | Some e =>
        Some (scale10 (digits_value 0 (ip ++ fp))
                      (e - Z.of_nat (List.length fp)))
    | None => None
    end in
  match digitpart l with
  | Some (ip, rest) =>
      match rest with
      | c :: rest' =>
          if Ascii.eqb c "." then
            match digitpart rest' with
            | Some (fp, rest'') => finish ip fp rest''
            | None => finish ip [] rest'
            end
          else finish ip [] rest
      | [] => finish ip [] rest
      end
  | None =>
      match l with
      | c :: rest' =>
          if Ascii.eqb c "." then
            match digitpart rest' with
            | Some (fp, rest'') => finish [] fp rest''
            | None => None
            end
          else None
      | [] => None
      end
  end.

(** [float(s)]; [None] stands for the [ValueError] it raises. *)
Definition float_of_string (s : string) : option pyfloat :=
  let '(negative, body) := sign_of (list_ascii_of_string (strip s)) in
  let word := string_of_list_ascii (List.map to_lower body) in
  if String.eqb word "inf" || String.eqb word "infinity" then
    Some (Inf negative)
  else if String.eqb word "nan" then Some NaN
  else match decimal_number body with
       | Some q => Some (Fin (if negative then Qred (- q) else q))
       | None => None
       end.

End PyStr.
Import PyStr.

(** ** [devices/utils.py]: string coercion *)

(** What a token of a reply is coerced to. *)
Inductive value : Type :=
| VInt (n : Z)
| VFloat (f : pyfloat)
| VStr (s : string).


(** [_convert_str] *)
Definition _convert_str (s : string) : value :=
  if isdigit s then VInt (int_of_digits s)
  else match float_of_string s with
       | Some f => VFloat f
       | None => VStr s
       end.

(** ** [MessageBasedDevice]: message helpers *)

(** The [channel] argument: an [int], a [str] or [None] (as [option]). *)
Inductive channel_arg : Type :=
| ChInt (n : Z)
| ChStr (s : string).

(** How an f-string renders the channel. *)
Definition format_channel (c : channel_arg) : string :=
  match c with
  | ChInt n => str_of_int n
  | ChStr s => s
  end.

(** [form_message] *)
Definition form_message (primary_command : string) (is_query : bool)
    (channel : option channel_arg) : string :=
  let message := primary_command in
  let message := if is_query then message ++ "?" else message in
  let message :=
    match channel with
    | Some c => message ++ " " ++ format_channel c
    | None => message
    end in
  message.

(** The two shapes [parse_response] returns. *)
Inductive parsed : Type :=
| Single (v : value)
| Many (l : list value).

(** [parse_response]; [response_list[0]] raises [IndexError] on an empty
    list. *)
Definition parse_response (response : string) : result parsed :=
  let response := strip response in
  let response_list := split "," response in
  let response_list :=
    List.map (fun r => _convert_str (strip r)) response_list in
  if 1 <? Z.of_nat (List.length response_list) then Ok (Many response_list)
  else match response_list with
       | v :: _ => Ok (Single v)
       | [] => Raise IndexError
       end.


(** ** Stateful code that may raise

    Calls of [time.sleep] have no effect on the state and are left out
    everywhere. *)

(** A computation on a state [S]: a result and the state reached.  The
    state is kept when the computation raises. *)
Definition M (S A : Type) : Type := S -> result A * S.

Definition ret {S A} (a : A) : M S A := fun s => (Ok a, s).

Definition bind {S A B} (c : M S A) (k : A -> M S B) : M S B :=
  fun s =>
    match c s with
    | (Ok a, s') => k a s'
    | (Raise e, s') => (Raise e, s')
    end.

Definition raise {S A} (e : exn) : M S A := fun s => (Raise e, s).

Definition lift {S A} (r : result A) : M S A := fun s => (r, s).

Definition gets {S A} (f : S -> A) : M S A := fun s => (Ok (f s), s).

Definition modify {S} (f : S -> S) : M S unit := fun s => (Ok tt, f s).

(** [try: c except Exception: pass] *)
Definition try_except {S} (c : M S unit) : M S unit :=
  fun s => (Ok tt, snd (c s)).

Declare Scope monad_scope.
Delimit Scope monad_scope with monad.
Notation "x <- c ;; k" := (bind c (fun x => k))
  (at level 61, c at next level, right associativity) : monad_scope.
Notation "c ;; k" := (bind c (fun _ => k))
  (at level 61, right associativity) : monad_scope.
Local Open Scope monad_scope.

(** ** The communication channel of a device ([pyvisa] resource) *)

Module Session.

(** What happened on the channel, latest first. *)
Inductive io_event : Type :=
| Opened
| Closed
| Cleared
| Wrote (message : string)
| ReadReply (reply : string).

(** A resource as the code sees it.  [inbox] holds the replies the
    instrument has sent and the code has not read yet; a message written
    to the instrument adds its replies to [inbox]; reading with an empty
    [inbox] times out. *)
Record Mediator : Type := {
  resource_name : string;
  class_name : string;
  message_based : bool;        (* isinstance(resource, MessageBasedResource) *)
  opens : bool;                (* open() succeeds; otherwise VisaIOError *)
  native_clear : bool;         (* clear() succeeds; otherwise VisaIOError *)
  has_bytes_in_buffer : bool;  (* hasattr(resource, 'bytes_in_buffer') *)
  visa_attribute_value : string -> option string;
                               (* get_visa_attribute; None: VisaIOError *)
  read_termination : string;
  respond : string -> list string;
                               (* the replies the instrument sends to a message *)
  _session : option nat;       (* None: no open session *)
  inbox : list string;
  io_log : list io_event
}.

Definition with_session (m : Mediator) (v : option nat) : Mediator :=
  {| resource_name := resource_name m; class_name := class_name m;
     message_based := message_based m; opens := opens m;
     native_clear := native_clear m;
     has_bytes_in_buffer := has_bytes_in_buffer m;
     visa_attribute_value := visa_attribute_value m;
     read_termination := read_termination m; respond := respond m;
     _session := v; inbox := inbox m; io_log := io_log m |}.

Definition with_inbox (m : Mediator) (v : list string) : Mediator :=
  {| resource_name := resource_name m; class_name := class_name m;
     message_based := message_based m; opens := opens m;
     native_clear := native_clear m;
     has_bytes_in_buffer := has_bytes_in_buffer m;
     visa_attribute_value := visa_attribute_value m;
     read_termination := read_termination m; respond := respond m;
     _session := _session m; inbox := v; io_log := io_log m |}.

Definition with_read_termination (m : Mediator) (v : string) : Mediator :=
  {| resource_name := resource_name m; class_name := class_name m;
     message_based := message_based m; opens := opens m;
     native_clear := native_clear m;
     has_bytes_in_buffer := has_bytes_in_buffer m;
     visa_attribute_value := visa_attribute_value m;
     read_termination := v; respond := respond m;
     _session := _session m; inbox := inbox m; io_log := io_log m |}.

Definition logged (e : io_event) (m : Mediator) : Mediator :=
  {| resource_name := resource_name m; class_name := class_name m;
     message_based := message_based m; opens := opens m;
     native_clear := native_clear m;
     has_bytes_in_buffer := has_bytes_in_buffer m;
     visa_attribute_value := visa_attribute_value m;
     read_termination := read_termination m; respond := respond m;
     _session := _session m; inbox := inbox m; io_log := e :: io_log m |}.

(** *** The operations of the resource itself *)

Definition mediator_open : M Mediator unit :=
  fun m => if opens m then (Ok tt, logged Opened (with_session m (Some 1%nat)))
           else (Raise VisaIOError, m).

Definition mediator_close : M Mediator unit :=
  fun m => (Ok tt, logged Closed (with_session m None)).

Definition mediator_clear : M Mediator unit :=
  fun m => if native_clear m then (Ok tt, logged Cleared m)
           else (Raise VisaIOError, m).

Definition mediator_write (message : string)
    (termination encoding : option string) : M Mediator unit :=
  fun m => (Ok tt, logged (Wrote message)
                          (with_inbox m (inbox m ++ respond m message))).

Definition mediator_read (termination encoding : option string)
  : M Mediator string :=
  fun m =>
    match inbox m with
    | reply :: rest => (Ok reply, logged (ReadReply reply) (with_inbox m rest))
    | [] => (Raise VisaIOError, m)
    end.

Definition mediator_query (message : string) (delay : option Q)
  : M Mediator string :=
  mediator_write message None None ;; mediator_read None None.

(** Each pending reply occupies its characters and a terminator. *)
Definition bytes_in_buffer (m : Mediator) : Z :=
  fold_right (fun r n => Z.of_nat (String.length r) + 1 + n) 0 (inbox m).

(** [while mediator.bytes_in_buffer > 0: response += mediator.read()];
    [pending] bounds the iterations by the replies waiting at the start. *)
Fixpoint drain (pending : list string) (response : string) : M Mediator string :=
  match pending with
  | [] => ret response
  | _ :: pending' =>
      fun m =>
        if 0 <? bytes_in_buffer m then
          (more <- mediator_read None None ;;
           drain pending' (response ++ more)) m
        else (Ok response, m)
  end.

Definition drain_buffer (response : string) : M Mediator string :=
  fun m => drain (inbox m) response m.

(** *** [MessageBasedDevice]: guarded operations

    The re-entrant lock is always free for the one thread of this model,
    so [with self._lock] is not represented. *)

(** [is_connected] *)
Definition is_connected (m : Mediator) : bool :=
  match _session m with Some _ => true | None => false end.

(** [safe_query] *)
Definition safe_query (message : string) (delay : option Q)
    (until_buffer_empty : bool) : M Mediator string :=
  fun m =>
    if negb (is_connected m) then (Ok "", m)
    else (response <- mediator_query message delay ;;
          if until_buffer_empty then drain_buffer response
          else ret response) m.

(** [safe_write]; the unit result stands for [None]. *)
Definition safe_write (message : string)
    (termination encoding : option string) : M Mediator unit :=
  fun m =>
    if negb (is_connected m) then (Ok tt, m)
    else mediator_write message termination encoding m.

(** [safe_read] *)
Definition safe_read (termination encoding : option string)
    (check_buffer_before until_buffer_empty : bool) : M Mediator string :=
  fun m =>
    if negb (is_connected m) then (Ok "", m)
    else if check_buffer_before && (bytes_in_buffer m =? 0) then (Ok "", m)
    else (response <- mediator_read termination encoding ;;
          if until_buffer_empty then drain_buffer response
          else ret response) m.

(** [clear] without [force] *)
Definition clear : M Mediator unit :=
  fun m =>
    if negb (is_connected m) then (Ok tt, m)
    else (Ok tt, snd (mediator_clear m)).

(** [connect] *)
Definition connect : M Mediator unit :=
  fun m =>
    if is_connected m then (Ok tt, m)
    else (mediator_open ;; clear) m.

(** [disconnect] *)
Definition disconnect : M Mediator unit :=
  fun m =>
    if negb (is_connected m) then (Ok tt, m)
    else (clear ;; mediator_close) m.

(** [TemperatureController.quick_query] on the channel: the reply as a
    float, NaN when it is not one. *)
Definition quick_query (command : string) (channel : option channel_arg)
  : M Mediator pyfloat :=
  let message := form_message command true channel in
  response <- safe_query message None false ;;
  match float_of_string response with
  | Some f => ret f
  | None => ret NaN
  end.

End Session.

(** ** Resource discovery ([devices/utils.py] and the class methods) *)

Module Discovery.
Import Session.

Definition LF : ascii := "010"%char.
Definition CR : ascii := "013"%char.

(** [needle in hay] *)
Fixpoint contains (needle hay : string) : bool :=
  String.prefix needle hay ||
  match hay with
  | EmptyString => false
  | String _ hay' => contains needle hay'
  end.

(** [s.endswith(c)] for a one-character [c] *)
Definition endswith (s : string) (c : ascii) : bool :=
  match last_char s with
  | Some d => Ascii.eqb d c
  | None => false
  end.

(** [s[:-1]] *)
Fixpoint drop_last (s : string) : string :=
  match s with
  | EmptyString => EmptyString
  | String _ EmptyString => EmptyString
  | String c s' => String c (drop_last s')
  end.

(** [value.replace(term, '')]: [skip] characters of a match found earlier
    are still to be dropped. *)
Fixpoint remove_all_from (skip : nat) (term value : string) : string :=
  match value with
  | EmptyString => EmptyString
  | String c value' =>
      match skip with
      | S k => remove_all_from k term value'
      | O =>
          match term with
          | EmptyString => String c (remove_all_from O term value')
          | String _ term' =>
              if String.prefix term value
              then remove_all_from (String.length term') term value'
              else String c (remove_all_from O term value')
          end
      end
  end.
Definition remove_all : string -> string -> string := remove_all_from O.

Fixpoint mem_char (c : ascii) (s : string) : bool :=
  match s with
  | EmptyString => false
  | String d s' => Ascii.eqb c d || mem_char c s'
  end.

(** [len(set(string)) == len(string)] *)
Fixpoint all_chars_unique (s : string) : bool :=
  match s with
  | EmptyString => true
  | String c s' => negb (mem_char c s') && all_chars_unique s'
  end.

Definition found_valid_termination (term value : string) : bool :=
  let cleaned_value := remove_all term value in
  negb (mem_char CR cleaned_value || mem_char LF cleaned_value).

(** The part of [auto_detect_read_termination] after the reply is known:
    the termination found and the reply without it. *)
Definition detect_termination (read_termination read_value : string)
  : string * string :=
  let original_read_value := read_value in
  let '(read_value, read_termination) :=
    if endswith read_value LF
    then (drop_last read_value, String LF read_termination)
    else (read_value, read_termination) in
  let '(read_value, read_termination) :=
    if endswith read_value CR
    then (drop_last read_value, String CR read_termination)
    else (read_value, read_termination) in
  if negb (all_chars_unique read_termination)
     || negb (found_valid_termination read_termination read_value)
  then (EmptyString, original_read_value)
  else (read_termination, read_value).

(** The identity query with the rest of the buffer appended. *)
Definition query_idn : M Mediator string :=
  idn <- mediator_query "*IDN?" None ;;
  fun m => if has_bytes_in_buffer m then drain_buffer idn m else (Ok idn, m).

(** [auto_detect_read_termination(resource)] *)
Definition auto_detect_read_termination : M Mediator string :=
  read_value <- query_idn ;;
  fun m => (Ok (fst (detect_termination (read_termination m) read_value)), m).

(** [force_clear_message_based_resource]: every pending reply is read. *)
Fixpoint read_all (pending : list string) : M Mediator unit :=
  match pending with
  | [] => ret tt
  | _ :: pending' => mediator_read None None ;; read_all pending'
  end.
Definition force_clear_message_based_resource : M Mediator unit :=
  fun m => read_all (inbox m) m.

(** [rm.open_resource(name, read_termination=...)] *)
Definition open_resource (rm_read_termination : string) : M Mediator unit :=
  fun m => mediator_open (with_read_termination m rm_read_termination).

Definition match_condition (is_partial : bool) (desired actual : string) : bool :=
  if is_partial then contains desired actual else String.eqb actual desired.

(** One iteration of the loop of [find_available_resources_by_idn]: the
    resource to append, if any.  A [VisaIOError] skips the resource. *)
Definition idn_candidate (desired_idn : string) (is_partial : bool)
    (correct_read_termination : bool) (rm_read_termination : string)
    (resource0 : Mediator) : option Mediator :=
  match open_resource rm_read_termination resource0 with
  | (Raise _, _) => None
  | (Ok _, resource) =>
      if message_based resource then
        let body : M Mediator bool :=
          (fun m => match mediator_clear m with
                    | (Ok _, m') => (Ok tt, m')
                    | (Raise _, m') => force_clear_message_based_resource m'
                    end) ;;
          idn <- query_idn ;;
          idn <- (if correct_read_termination
                  then fun m =>
                         let '(t, v) := detect_termination (read_termination m) idn in
                         (Ok v, with_read_termination m t)
                  else ret idn) ;;
          mediator_close ;;
          ret (match_condition is_partial desired_idn idn) in
        match body resource with
        | (Ok true, resource') => Some resource'
        | _ => None
        end
      else None
  end.

(** One iteration of the loop of
    [find_available_resources_by_visa_attribute]. *)
Definition attribute_candidate (visa_attribute : string)
    (desired_attr_value : string) (is_partial : bool) (correct_read_termination : bool)
    (rm_read_termination : string) (resource0 : Mediator) : option Mediator :=
  let body : M Mediator bool :=
    open_resource rm_read_termination ;;
    (fun m => (Ok tt, snd (mediator_clear m))) ;;
    (fun m => if message_based m && correct_read_termination
              then match auto_detect_read_termination m with
                   | (Ok t, m') => (Ok tt, with_read_termination m' t)
                   | (Raise e, m') => (Raise e, m')
                   end
              else (Ok tt, m)) ;;
    resource_attr_value <-
      (fun m => match visa_attribute_value m visa_attribute with
                | Some v => (Ok v, m)
                | None => (Raise VisaIOError, m)
                end) ;;
    mediator_close ;;
    ret (match_condition is_partial desired_attr_value resource_attr_value) in
  match body resource0 with
  | (Ok true, resource') => Some resource'
  | _ => None
  end.

(** The loop over [rm.list_resources()], appending the matches. *)
Fixpoint collect (candidate : Mediator -> option Mediator)
    (connected_resources : list Mediator) (matching : list Mediator)
  : list Mediator :=
  match connected_resources with
  | [] => matching
  | resource :: rest =>
      collect candidate rest
        match candidate resource with
        | Some r => (matching ++ [r])%list
        | None => matching
        end
  end.

(** The resources a scan finds, in the order of the scan. *)
Definition matching_resources (candidate : Mediator -> option Mediator)
    (connected_resources : list Mediator) : list Mediator :=
  flat_map (fun r => match candidate r with Some r' => [r'] | None => [] end)
           connected_resources.

Definition find_available_resources_by_idn (rm : list Mediator)
    (desired_idn : string) (is_partial correct_read_termination : bool)
    (rm_read_termination : string) : list Mediator :=
  collect (idn_candidate desired_idn is_partial correct_read_termination
             rm_read_termination) rm [].

Definition find_available_resources_by_visa_attribute (rm : list Mediator)
    (visa_attribute : string) (desired_attr_value : string)
    (is_partial correct_read_termination : bool)
    (rm_read_termination : string) : list Mediator :=
  collect (attribute_candidate visa_attribute desired_attr_value is_partial
             correct_read_termination rm_read_termination) rm [].

(** The class constants a constructor uses. *)
Record DeviceClass : Type := {
  INSTRUMENT_NAME : string;
  READ_TERMINATION : string
}.

Record Device : Type := {
  mediator : Mediator;
  instrument_repr_name : string
}.

(** [cls(resource)], that is [MessageBasedDevice.__init__] *)
Definition new_device (cls : DeviceClass) (resource : Mediator) : result Device :=
  match (connect ;; disconnect) resource with
  | (Ok _, m) =>
      Ok {| mediator := m;
            instrument_repr_name :=
              INSTRUMENT_NAME cls ++ " (" ++ resource_name m ++ ")" |}
  | (Raise e, _) => Raise e
  end.

(** [str(resource)] *)
Definition resource_str (m : Mediator) : string :=
  class_name m ++ " at " ++ resource_name m.

(** [from_idn]; [connection_time_delay] only sets how long the scan
    sleeps and is left out. *)
Definition from_idn (cls : DeviceClass) (rm : list Mediator) (idn : string)
    (is_partial correct_read_termination : bool) : result Device :=
  let resource_list :=
    find_available_resources_by_idn rm idn is_partial
      correct_read_termination (READ_TERMINATION cls) in
  if (List.length resource_list =? 0)%nat then
    Raise (ValueError ("No resource found with idn " ++ idn ++ "."))
  else if (1 <? List.length resource_list)%nat then
    Raise (ValueError ("Multiple resources found with idn " ++ idn ++ "."))
  else match resource_list with
       | resource :: _ => new_device cls resource
       | [] => Raise IndexError
       end.


(** What stays of a resource whatever is done on its channel. *)
Definition same_resource (m m' : Mediator) : Prop :=
  resource_name m' = resource_name m /\ class_name m' = class_name m
  /\ message_based m' = message_based m /\ opens m' = opens m
  /\ native_clear m' = native_clear m.

Definition keeps_resource {A} (c : M Mediator A) : Prop :=
  forall m, same_resource m (snd (c m)).

End Discovery.

(** ** [TemperatureController]: heater ranges *)

Inductive HeaterRangeValues : Type := OFF | LOW | MEDIUM | HIGH.

(** [member.value] *)
Definition range_value (r : HeaterRangeValues) : Z :=
  match r with OFF => 0 | LOW => 1 | MEDIUM => 2 | HIGH => 3 end.

(** [member.name] *)
Definition range_name (r : HeaterRangeValues) : string :=
  match r with
  | OFF => "OFF" | LOW => "LOW" | MEDIUM => "MEDIUM" | HIGH => "HIGH"
  end.

Definition range_eqb (a b : HeaterRangeValues) : bool :=
  range_value a =? range_value b.

(** [HeaterRangeValues[name]] *)
Definition HeaterRangeValues_item (name : string) : result HeaterRangeValues :=
  if String.eqb name "OFF" then Ok OFF
  else if String.eqb name "LOW" then Ok LOW
  else if String.eqb name "MEDIUM" then Ok MEDIUM
  else if String.eqb name "HIGH" then Ok HIGH
  else Raise (KeyError name).

(** [HeaterRangeValues(value)]: the member with that value; a float
    equal to a member's integer finds that member. *)
Definition HeaterRangeValues_call (value : pyfloat) : result HeaterRangeValues :=
  match value with
  | Fin q =>
      if Qeq_bool q 0 then Ok OFF
      else if Qeq_bool q 1 then Ok LOW
      else if Qeq_bool q 2 then Ok MEDIUM
      else if Qeq_bool q 3 then Ok HIGH
      else Raise (ValueError "not a valid HeaterRangeValues")
  | _ => Raise (ValueError "not a valid HeaterRangeValues")
  end.

(** [HeaterMaxPercent[member.name].value] *)
Definition HeaterMaxPercent (r : HeaterRangeValues) : Z :=
  match r with OFF => 100 | LOW => 80 | MEDIUM => 80 | HIGH => 50 end.

Definition STARTING_HEATER_MIN_PERCENT : Z := 10.

(** ** The temperature controller as the code reads and writes it *)

Inductive output_channel : Type :=
| COLD_HEAD_OUT_CHANNEL      (* 1 *)
| SAMPLE_SPACE_OUT_CHANNEL.  (* 2 *)

(** A write that reached the instrument.  A manual-output write records
    the heater range of that output at the moment of the write. *)
Inductive write_event : Type :=
| WroteManualOutput (channel : output_channel) (value : pyfloat)
                    (active : HeaterRangeValues)
| WroteHeaterRange (channel : output_channel) (range : HeaterRangeValues).

(** The instrument: whether its session is open, the readings it reports
    and the settings it holds.  A setting reads back as last written.
    [written] lists the writes received, latest first. *)
Record Instrument : Type := {
  connected : bool;
  sample_space_temperature : pyfloat;      (* KRDG? B *)
  cold_head_heater_percentage : pyfloat;   (* HTR? 1 *)
  cold_head_manual_output : pyfloat;       (* MOUT? 1 *)
  cold_head_heater_range : HeaterRangeValues;      (* RANGE? 1 *)
  sample_space_manual_output : pyfloat;    (* MOUT? 2 *)
  sample_space_heater_range : HeaterRangeValues;   (* RANGE? 2 *)
  written : list write_event
}.

Definition manual_output (channel : output_channel) (s : Instrument) : pyfloat :=
  match channel with
  | COLD_HEAD_OUT_CHANNEL => cold_head_manual_output s
  | SAMPLE_SPACE_OUT_CHANNEL => sample_space_manual_output s
  end.

Definition heater_range (channel : output_channel) (s : Instrument)
  : HeaterRangeValues :=
  match channel with
  | COLD_HEAD_OUT_CHANNEL => cold_head_heater_range s
  | SAMPLE_SPACE_OUT_CHANNEL => sample_space_heater_range s
  end.

Definition with_connected (s : Instrument) (b : bool) : Instrument :=
  {| connected := b;
     sample_space_temperature := sample_space_temperature s;
     cold_head_heater_percentage := cold_head_heater_percentage s;
     cold_head_manual_output := cold_head_manual_output s;
     cold_head_heater_range := cold_head_heater_range s;
     sample_space_manual_output := sample_space_manual_output s;
     sample_space_heater_range := sample_space_heater_range s;
     written := written s |}.

(** The environment changes a reading. *)
Definition with_sample_space_temperature (s : Instrument) (t : pyfloat)
  : Instrument :=
  {| connected := connected s;
     sample_space_temperature := t;
     cold_head_heater_percentage := cold_head_heater_percentage s;
     cold_head_manual_output := cold_head_manual_output s;
     cold_head_heater_range := cold_head_heater_range s;
     sample_space_manual_output := sample_space_manual_output s;
     sample_space_heater_range := sample_space_heater_range s;
     written := written s |}.

Definition with_cold_head_heater_percentage (s : Instrument) (p : pyfloat)
  : Instrument :=
  {| connected := connected s;
     sample_space_temperature := sample_space_temperature s;
     cold_head_heater_percentage := p;
     cold_head_manual_output := cold_head_manual_output s;
     cold_head_heater_range := cold_head_heater_range s;
     sample_space_manual_output := sample_space_manual_output s;
     sample_space_heater_range := sample_space_heater_range s;
     written := written s |}.

(** The instrument receives [MOUT channel,value]. *)
Definition receive_manual_output (channel : output_channel) (value : pyfloat)
    (s : Instrument) : Instrument :=
  let e := WroteManualOutput channel value (heater_range channel s) in
  match channel with
  | COLD_HEAD_OUT_CHANNEL =>
      {| connected := connected s;
         sample_space_temperature := sample_space_temperature s;
         cold_head_heater_percentage := cold_head_heater_percentage s;
         cold_head_manual_output := value;
         cold_head_heater_range := cold_head_heater_range s;
         sample_space_manual_output := sample_space_manual_output s;
         sample_space_heater_range := sample_space_heater_range s;
         written := e :: written s |}
  | SAMPLE_SPACE_OUT_CHANNEL =>
      {| connected := connected s;
         sample_space_temperature := sample_space_temperature s;
         cold_head_heater_percentage := cold_head_heater_percentage s;
         cold_head_manual_output := cold_head_manual_output s;
         cold_head_heater_range := cold_head_heater_range s;
         sample_space_manual_output := value;
         sample_space_heater_range := sample_space_heater_range s;
         written := e :: written s |}
  end.

(** The instrument receives [RANGE channel,value]. *)
Definition receive_heater_range (channel : output_channel)
    (range : HeaterRangeValues) (s : Instrument) : Instrument :=
  let e := WroteHeaterRange channel range in
  match channel with
  | COLD_HEAD_OUT_CHANNEL =>
      {| connected := connected s;
         sample_space_temperature := sample_space_temperature s;
         cold_head_heater_percentage := cold_head_heater_percentage s;
         cold_head_manual_output := cold_head_manual_output s;
         cold_head_heater_range := range;
         sample_space_manual_output := sample_space_manual_output s;
         sample_space_heater_range := sample_space_heater_range s;
         written := e :: written s |}
  | SAMPLE_SPACE_OUT_CHANNEL =>
      {| connected := connected s;
         sample_space_temperature := sample_space_temperature s;
         cold_head_heater_percentage := cold_head_heater_percentage s;
         cold_head_manual_output := cold_head_manual_output s;
         cold_head_heater_range := cold_head_heater_range s;
         sample_space_manual_output := sample_space_manual_output s;
         sample_space_heater_range := range;
         written := e :: written s |}
  end.

Module TemperatureController.

(** [quick_query]: [safe_query] returns the empty string on a closed
    session, which is not a float, so the answer is NaN. *)
Definition quick_query (reading : Instrument -> pyfloat) : M Instrument pyfloat :=
  fun s => (Ok (if connected s then reading s else NaN), s).

(** [quick_write] of a manual output: [safe_write] does nothing on a
    closed session. *)
Definition quick_write_manual_output (value : pyfloat)
    (channel : output_channel) : M Instrument unit :=
  fun s => (Ok tt, if connected s then receive_manual_output channel value s
                   else s).

(** [quick_write] of a heater range given by its integer value; the
    instrument ignores a value that names no range. *)
Definition quick_write_heater_range (value : Z) (channel : output_channel)
  : M Instrument unit :=
  fun s =>
    (Ok tt,
     if connected s then
       match HeaterRangeValues_call (of_Z value) with
       | Ok r => receive_heater_range channel r s
       | Raise _ => s
       end
     else s).

Definition get_sample_space_temperature : M Instrument pyfloat :=
  quick_query sample_space_temperature.

Definition get_cold_head_heater_percentage : M Instrument pyfloat :=
  quick_query cold_head_heater_percentage.

Definition get_sample_space_manual_output : M Instrument pyfloat :=
  quick_query sample_space_manual_output.

Definition get_cold_head_manual_output : M Instrument pyfloat :=
  quick_query cold_head_manual_output.

(** [get_sample_space_heater_range]: the range as a title-styled name *)
Definition get_sample_space_heater_range : M Instrument string :=
  response <- quick_query
                (fun s => of_Z (range_value (sample_space_heater_range s))) ;;
  r <- lift (HeaterRangeValues_call response) ;;
  ret (title (range_name r)).

Definition get_cold_head_heater_range : M Instrument string :=
  response <- quick_query
                (fun s => of_Z (range_value (cold_head_heater_range s))) ;;
  r <- lift (HeaterRangeValues_call response) ;;
  ret (title (range_name r)).

Definition set_sample_space_manual_output (value : pyfloat) : M Instrument unit :=
  quick_write_manual_output value SAMPLE_SPACE_OUT_CHANNEL.

Definition set_cold_head_manual_output (value : pyfloat) : M Instrument unit :=
  quick_write_manual_output value COLD_HEAD_OUT_CHANNEL.

(** The argument of [set_heater_range]: a name, an integer or a member. *)
Inductive range_arg : Type :=
| RangeName (s : string)
| RangeInt (n : Z)
| RangeMember (r : HeaterRangeValues).

(** [set_heater_range] *)
Definition set_heater_range (value : range_arg) (channel : output_channel)
  : M Instrument unit :=
  value <- match value with
           | RangeName s =>
               r <- lift (HeaterRangeValues_item (upper s)) ;;
               ret (range_value r)
           | RangeMember r => ret (range_value r)
           | RangeInt n => ret n
           end ;;
  quick_write_heater_range value channel.

Definition set_sample_space_heater_range (value : range_arg) : M Instrument unit :=
  set_heater_range value SAMPLE_SPACE_OUT_CHANNEL.

Definition set_cold_head_heater_range (value : range_arg) : M Instrument unit :=
  set_heater_range value COLD_HEAD_OUT_CHANNEL.

(** [connect] and [disconnect] as the instrument sees them. *)
Definition connect : M Instrument unit :=
  fun s => (Ok tt, with_connected s true).
Definition disconnect : M Instrument unit :=
  fun s => (Ok tt, with_connected s false).

(** [self._warmup_interval], seconds *)
Definition warmup_interval : Z := 20.

(** [array[-1]] *)
Definition last_item (a : list pyfloat) : result pyfloat :=
  match rev a with
  | x :: _ => Ok x
  | [] => Raise IndexError
  end.

(** The rate computed at the head of [check_warmup_heater_status]. *)
Definition mean_temp_diff_per_minute (temperature_data : list pyfloat)
  : pyfloat :=
  let temperature_diffs := List.map neg (diff temperature_data) in
  div_pos (mean temperature_diffs) (inject_Z warmup_interval / 60).

(** [check_warmup_heater_status]; [target_temperature] is
    [self.sample_space_warmup_target_temperature]. *)
Definition check_warmup_heater_status (target_temperature : pyfloat)
    (temperature_data : list pyfloat) : M Instrument unit :=
  let mean_temp_diff_per_minute :=
    mean_temp_diff_per_minute temperature_data in
  name <- get_sample_space_heater_range ;;
  heater_range <- lift (HeaterRangeValues_item (upper name)) ;;
  heater_manual_output <- get_sample_space_manual_output ;;
  latest <- lift (last_item temperature_data) ;;
  if gt latest (sub target_temperature (of_Z 2)) then
    if gt mean_temp_diff_per_minute (Fin (1 # 2))
       || gt latest (add target_temperature (of_Z 2)) then
      set_sample_space_manual_output
        (max (sub heater_manual_output (of_Z 10)) (of_Z 0)) ;;
      if negb (range_eqb heater_range HIGH)
      then set_sample_space_heater_range (RangeName "High")
      else ret tt
    else if lt mean_temp_diff_per_minute (Fin (- (1 # 2))) then
      set_sample_space_manual_output
        (min (add heater_manual_output (of_Z 2)) (of_Z 50)) ;;
      if negb (range_eqb heater_range HIGH)
      then set_sample_space_heater_range (RangeName "High")
      else ret tt
    else ret tt
  else if lt mean_temp_diff_per_minute (of_Z 1) then
    if range_eqb heater_range OFF then
      set_sample_space_manual_output (of_Z STARTING_HEATER_MIN_PERCENT) ;;
      set_sample_space_heater_range (RangeName "Low")
    else
      let max_heater_value := of_Z (HeaterMaxPercent heater_range) in
      if lt heater_manual_output max_heater_value then
        set_sample_space_manual_output
          (min (add heater_manual_output (of_Z 5)) max_heater_value)
      else
        set_sample_space_manual_output (of_Z STARTING_HEATER_MIN_PERCENT) ;;
        higher_heater_range <-
          lift (HeaterRangeValues_call (of_Z (range_value heater_range + 1))) ;;
        set_sample_space_heater_range (RangeMember higher_heater_range)
  else if gt mean_temp_diff_per_minute (of_Z 3) then
    if range_eqb heater_range OFF then ret tt
    else if gt heater_manual_output (of_Z STARTING_HEATER_MIN_PERCENT) then
      set_sample_space_manual_output
        (max (sub heater_manual_output (of_Z 5))
             (of_Z STARTING_HEATER_MIN_PERCENT))
    else
      lower_heater_range <-
        lift (HeaterRangeValues_call (of_Z (range_value heater_range - 1))) ;;
      let max_lower_heater_value := of_Z (HeaterMaxPercent lower_heater_range) in
      set_sample_space_heater_range (RangeMember lower_heater_range) ;;
      set_sample_space_manual_output max_lower_heater_value
  else ret tt.

(** [numpy.roll(a, -1)] *)
Definition roll_left (a : list pyfloat) : list pyfloat :=
  match a with
  | [] => []
  | x :: rest => (rest ++ [x])%list
  end.

(** [a[-1] = v]; [IndexError] on an empty array. *)
Definition set_last (a : list pyfloat) (v : pyfloat) : result (list pyfloat) :=
  match rev a with
  | _ :: front => Ok (rev front ++ [v])%list
  | [] => Raise IndexError
  end.

(** The update of the rolling window in both control loops. *)
Definition push_sample (max_size : nat) (data : list pyfloat)
    (new_data : pyfloat) : result (list pyfloat) :=
  if (List.length data <? max_size)%nat then Ok (data ++ [new_data])%list
  else set_last (firstn max_size (roll_left data)) new_data.

(** One iteration of the [while] loop of [warmup_loop], the stop event
    not being set: the window it leaves and its effect on the instrument.
    The assignment to [sample_space_data] comes before the call of
    [check_warmup_heater_status], so it stands when that call raises. *)
Definition warmup_iteration (target_temperature : pyfloat)
    (sample_space_data : list pyfloat) (s : Instrument)
  : list pyfloat * Instrument :=
  match get_sample_space_temperature s with
  | (Raise _, s1) => (sample_space_data, s1)
  | (Ok new_data, s1) =>
      match push_sample 5 sample_space_data new_data with
      | Raise _ => (sample_space_data, s1)
      | Ok data' =>
          (data', snd (try_except
                         (check_warmup_heater_status target_temperature data')
                         s1))
      end
  end.

(** The iterations of [warmup_loop] while the sample space shows the
    given temperatures, one per iteration. *)
Fixpoint warmup_iterations (target_temperature : pyfloat)
    (temperatures : list pyfloat) (sample_space_data : list pyfloat)
    (s : Instrument) : list pyfloat * Instrument :=
  match temperatures with
  | [] => (sample_space_data, s)
  | t :: rest =>
      let '(data', s') :=
        warmup_iteration target_temperature sample_space_data
          (with_sample_space_temperature s t) in
      warmup_iterations target_temperature rest data' s'
  end.

(** [warmup_loop]: a first reading, then one iteration per further
    temperature until the stop event is set. *)
Definition warmup_loop (target_temperature : pyfloat)
    (first : pyfloat) (temperatures : list pyfloat) (s : Instrument)
  : list pyfloat * Instrument :=
  match get_sample_space_temperature (with_sample_space_temperature s first) with
  | (Ok t, s0) => warmup_iterations target_temperature temperatures [t] s0
  | (Raise _, s0) => ([], s0)
  end.

End TemperatureController.

(** ** [ColdHeadHeaterOnPressureStabilization] *)

Module Stabilization.
Import TemperatureController.

(** [attempt_stabilization_by_pressure]; [target_pressure] is what
    [self.get_target_pressure()] returns. *)
Definition attempt_stabilization_by_pressure (target_pressure : pyfloat)
    (pressure_data : list pyfloat) : M Instrument unit :=
  let manual_output_step := of_Z 5 in
  let mean_pressure := mean pressure_data in
  if lt mean_pressure target_pressure then
    cold_head_manual_output <- get_cold_head_manual_output ;;
    let new_cold_head_manual_output :=
      max (sub cold_head_manual_output manual_output_step) (of_Z 0) in
    set_cold_head_manual_output new_cold_head_manual_output
  else
    cold_head_manual_output <- get_cold_head_manual_output ;;
    let new_cold_head_manual_output :=
      min (sub cold_head_manual_output manual_output_step) (of_Z 80) in
    set_cold_head_manual_output new_cold_head_manual_output.

(** The ten readings of the heater percentage at the start of
    [stabilization_loop], the instrument showing [percentages] in turn. *)
Fixpoint sample_heater_percentage (percentages : list pyfloat)
    (cold_head_heater_percentage_data : list pyfloat)
  : M Instrument (list pyfloat) :=
  match percentages with
  | [] => ret cold_head_heater_percentage_data
  | p :: rest =>
      (fun s => (Ok tt, with_cold_head_heater_percentage s p)) ;;
      connect ;;
      v <- get_cold_head_heater_percentage ;;
      disconnect ;;
      sample_heater_percentage rest
        (cold_head_heater_percentage_data ++ [v])%list
  end.

(** The block that sets the manual output with the heater switched off,
    at the start of the loop and again at its end. *)
Definition write_baseline (mean_heater_percentage : pyfloat)
    (heater_range : string) : M Instrument unit :=
  set_cold_head_heater_range (RangeName "off") ;;
  set_cold_head_manual_output mean_heater_percentage ;;
  set_cold_head_heater_range (RangeName heater_range).

(** One iteration of the [while] loop of [stabilization_loop]. *)
Definition stabilization_iteration (pressure_data : list pyfloat)
    (new_data target_pressure : pyfloat) (s : Instrument)
  : list pyfloat * Instrument :=
  match push_sample 5 pressure_data new_data with
  | Raise _ => (pressure_data, s)
  | Ok data' =>
      (data', snd (try_except
                     (attempt_stabilization_by_pressure target_pressure data')
                     s))
  end.

Fixpoint stabilization_iterations (readings : list (pyfloat * pyfloat))
    (pressure_data : list pyfloat) (s : Instrument)
  : list pyfloat * Instrument :=
  match readings with
  | [] => (pressure_data, s)
  | (new_data, target_pressure) :: rest =>
      let '(data', s') :=
        stabilization_iteration pressure_data new_data target_pressure s in
      stabilization_iterations rest data' s'
  end.

(** [stabilization_loop]: [percentages] are the heater percentages the
    instrument shows during the ten first readings, [first_pressure] the
    pressure read before the loop, [readings] the pressure read and the
    target in force at each iteration until the stop event is set.  The
    sleeps between readings and the [stabilization_is_on] flag, which only
    [start_pressure_stabilization] looks at, are left out. *)
Definition stabilization_loop (percentages : list pyfloat)
    (first_pressure : pyfloat) (readings : list (pyfloat * pyfloat))
  : M Instrument unit :=
  cold_head_heater_percentage_data <-
    sample_heater_percentage
      (List.map (fun i => nth i percentages NaN) (seq 0 10)) [] ;;
  let mean_heater_percentage :=
    round1 (mean cold_head_heater_percentage_data) in
  connect ;;
  heater_range <- get_cold_head_heater_range ;;
  write_baseline mean_heater_percentage heater_range ;;
  disconnect ;;
  let pressure_data := [first_pressure] in
  (fun s => (Ok tt, snd (stabilization_iterations readings pressure_data s))) ;;
  connect ;;
  write_baseline mean_heater_percentage heater_range ;;
  disconnect.

End Stabilization.

(** ** Starting and stopping the control threads *)

Module Threads.
Import TemperatureController.

(** A thread started by the code and the stop event it was given. *)
Inductive thread : Type :=
| WarmupThread (stop_event : nat)
| StabilizationThread (stop_event : nat).

(** The objects the start and stop methods work on.  An event is named
    by its position in [events], which holds its flag.  The threads
    started are recorded, not run. *)
Record World : Type := {
  instrument : Instrument;
  events : list bool;
  stop_warmup_event : option nat;          (* None, or an Event *)
  stop_stabilization_event : option nat;   (* None, or an Event *)
  stabilization_is_on : nat;
  started : list thread
}.

(** Both objects just constructed: [stabilization_is_on] is the one
    event there is, and it is clear. *)
Definition fresh (s : Instrument) : World :=
  {| instrument := s; events := [false];
     stop_warmup_event := None; stop_stabilization_event := None;
     stabilization_is_on := 0%nat; started := [] |}.

Fixpoint set_nth (n : nat) (l : list bool) : list bool :=
  match l, n with
  | [], _ => []
  | _ :: l', O => true :: l'
  | b :: l', S n' => b :: set_nth n' l'
  end.

(** [event.is_set()] and [event.set()]; on [None] they raise. *)
Definition is_set (event : option nat) (attr : string) : M World bool :=
  fun w =>
    match event with
    | Some e => (Ok (nth e (events w) false), w)
    | None => (Raise (AttributeError attr), w)
    end.

Definition event_set (event : option nat) : M World unit :=
  fun w =>
    match event with
    | Some e =>
        (Ok tt,
         {| instrument := instrument w; events := set_nth e (events w);
            stop_warmup_event := stop_warmup_event w;
            stop_stabilization_event := stop_stabilization_event w;
            stabilization_is_on := stabilization_is_on w;
            started := started w |})
    | None => (Raise (AttributeError "set"), w)
    end.

(** [threading.Event()]: a new event, clear. *)
Definition new_event : M World nat :=
  fun w =>
    (Ok (List.length (events w)),
     {| instrument := instrument w; events := (events w ++ [false])%list;
        stop_warmup_event := stop_warmup_event w;
        stop_stabilization_event := stop_stabilization_event w;
        stabilization_is_on := stabilization_is_on w;
        started := started w |}).

Definition thread_start (t : thread) : M World unit :=
  fun w =>
    (Ok tt,
     {| instrument := instrument w; events := events w;
        stop_warmup_event := stop_warmup_event w;
        stop_stabilization_event := stop_stabilization_event w;
        stabilization_is_on := stabilization_is_on w;
        started := t :: started w |}).

Definition on_instrument {A} (c : M Instrument A) : M World A :=
  fun w =>
    let '(r, s) := c (instrument w) in
    (r,
     {| instrument := s; events := events w;
        stop_warmup_event := stop_warmup_event w;
        stop_stabilization_event := stop_stabilization_event w;
        stabilization_is_on := stabilization_is_on w;
        started := started w |}).

(** [start_sample_space_warmup] *)
Definition start_sample_space_warmup : M World unit :=
  e <- new_event ;;
  (fun w =>
     (Ok tt,
      {| instrument := instrument w; events := events w;
         stop_warmup_event := Some e;
         stop_stabilization_event := stop_stabilization_event w;
         stabilization_is_on := stabilization_is_on w;
         started := started w |})) ;;
  thread_start (WarmupThread e).

(** [stop_sample_space_warmup] *)
Definition stop_sample_space_warmup : M World unit :=
  e <- gets stop_warmup_event ;;
  event_set e ;;
  on_instrument (set_sample_space_manual_output (of_Z 0)) ;;
  on_instrument (set_sample_space_heater_range (RangeName "off")).

(** The wait at the start of [start_pressure_stabilization]: nothing
    clears the event while this thread sleeps, so the loop runs until
    the counter reaches 60 or finds the event clear at once. *)
Fixpoint wait_while_on (fuel : nat) (counter : Z) : M World Z :=
  match fuel with
  | O => ret counter
  | S fuel' =>
      on <- (fun w => is_set (Some (stabilization_is_on w)) "is_set" w) ;;
      if on && (counter <? 60) then wait_while_on fuel' (counter + 1)
      else ret counter
  end.

(** [start_pressure_stabilization] *)
Definition start_pressure_stabilization : M World unit :=
  e <- gets stop_stabilization_event ;;
  stopped <- is_set e "is_set" ;;
  if negb stopped then ret tt
  else
    wait_while_on 61 0 ;;
    e' <- new_event ;;
    (fun w =>
       (Ok tt,
        {| instrument := instrument w; events := events w;
           stop_warmup_event := stop_warmup_event w;
           stop_stabilization_event := Some e';
           stabilization_is_on := stabilization_is_on w;
           started := started w |})) ;;
    thread_start (StabilizationThread e').

(** [stop_pressure_stabilization] *)
Definition stop_pressure_stabilization : M World unit :=
  e <- gets stop_stabilization_event ;;
  event_set e.

End Threads.

(** ** Values used in examples *)

Module Examples.
Import Session Discovery TemperatureController.

(** A closed message-based channel whose instrument answers the identity
    query with [idn] and has the model name [model]. *)
Definition channel (name idn model : string) : Mediator :=
  {| resource_name := name; class_name := "GPIBInstrument";
     message_based := true; opens := true; native_clear := true;
     has_bytes_in_buffer := false;
     visa_attribute_value := fun _ => Some model;
     read_termination := ""; respond := fun _ => [idn];
     _session := None; inbox := []; io_log := [] |}.


Definition lakeshore_class : DeviceClass :=
  {| INSTRUMENT_NAME := "Lakeshore 335"; READ_TERMINATION := String LF "" |}.

(** A temperature controller with its session open. *)
Definition controller (ch_range : HeaterRangeValues) (ch_output : Q)
    (ss_range : HeaterRangeValues) (ss_output : Q) : Instrument :=
  {| connected := true;
     sample_space_temperature := NaN;
     cold_head_heater_percentage := Fin 36;
     cold_head_manual_output := Fin ch_output;
     cold_head_heater_range := ch_range;
     sample_space_manual_output := Fin ss_output;
     sample_space_heater_range := ss_range;
     written := [] |}.

End Examples.

(** ** Bounds on what is written *)

(** A manual-output write is within the ceiling of the range that was
    active when it was made. *)
Definition within_ceiling (e : write_event) : Prop :=
  match e with
  | WroteManualOutput _ value active => le value (of_Z (HeaterMaxPercent active))
  | WroteHeaterRange _ _ => True
  end.


(** A reading that is a number, at most [bound]. *)
Definition number_at_most (bound : Q) (p : pyfloat) : Prop :=
  exists x, p = Fin x /\ (x <= bound)%Q.

(** ** Sequences of calls of the start and stop methods *)

Module Calls.
Import Threads.

Inductive call : Type :=
| StartWarmup
| StopWarmup
| StartStabilization
| StopStabilization.

Definition perform (c : call) : M World unit :=
  match c with
  | StartWarmup => start_sample_space_warmup
  | StopWarmup => stop_sample_space_warmup
  | StartStabilization => start_pressure_stabilization
  | StopStabilization => stop_pressure_stabilization
  end.

(** The calls made one after the other, an exception being caught by the
    caller: the result of each and the objects at the end. *)
Fixpoint perform_all (calls : list call) (w : World)
  : list (result unit) * World :=
  match calls with
  | [] => ([], w)
  | c :: rest =>
      let '(r, w') := perform c w in
      let '(rs, w'') := perform_all rest w' in
      (r :: rs, w'')
  end.

Definition on_stabilization (c : call) : bool :=
  match c with
  | StartStabilization | StopStabilization => true
  | _ => false
  end.

End Calls.

(** ** What a step leaves alone *)

Definition event_channel (e : write_event) : output_channel :=
  match e with
  | WroteManualOutput channel _ _ => channel
  | WroteHeaterRange channel _ => channel
  end.

Definition channel_eqb (a b : output_channel) : bool :=
  match a, b with
  | COLD_HEAD_OUT_CHANNEL, COLD_HEAD_OUT_CHANNEL => true
  | SAMPLE_SPACE_OUT_CHANNEL, SAMPLE_SPACE_OUT_CHANNEL => true
  | _, _ => false
  end.

Definition is_manual_output_write (e : write_event) : bool :=
  match e with
  | WroteManualOutput _ _ _ => true
  | WroteHeaterRange _ _ => false
  end.

(** [s'] differs from [s] at most in the settings of the sample-space
    heater, and the writes made in between all went to that output. *)
Definition sample_space_only (s s' : Instrument) : Prop :=
  connected s' = connected s
  /\ sample_space_temperature s' = sample_space_temperature s
  /\ cold_head_heater_percentage s' = cold_head_heater_percentage s
  /\ cold_head_manual_output s' = cold_head_manual_output s
  /\ cold_head_heater_range s' = cold_head_heater_range s
  /\ exists new,
      written s' = (new ++ written s)%list
      /\ Forall (fun e => event_channel e = SAMPLE_SPACE_OUT_CHANNEL) new.

(** [s'] differs from [s] at most in the manual output of the cold-head
    heater, and the writes made in between are manual-output writes to
    that output. *)
Definition cold_head_output_only (s s' : Instrument) : Prop :=
  connected s' = connected s
  /\ sample_space_temperature s' = sample_space_temperature s
  /\ cold_head_heater_percentage s' = cold_head_heater_percentage s
  /\ cold_head_heater_range s' = cold_head_heater_range s
  /\ sample_space_manual_output s' = sample_space_manual_output s
  /\ sample_space_heater_range s' = sample_space_heater_range s
  /\ exists new,
      written s' = (new ++ written s)%list
      /\ Forall (fun e => event_channel e = COLD_HEAD_OUT_CHANNEL
                          /\ is_manual_output_write e = true) new.

(** A manual-output write of a number between [low] and [high]. *)
Definition manual_output_between (low high : Q) (e : write_event) : Prop :=
  match e with
  | WroteManualOutput _ value _ =>
      exists v, value = Fin v /\ (low <= v <= high)%Q
  | WroteHeaterRange _ _ => True
  end.

(** The sample-space manual output of [s'] is a number between [low] and
    [high], as is every manual output written since [s]. *)
Definition sample_space_output_between (low high : Q) (s s' : Instrument)
  : Prop :=
  (exists v, sample_space_manual_output s' = Fin v /\ (low <= v <= high)%Q)
  /\ connected s' = connected s
  /\ exists new,
      written s' = (new ++ written s)%list
      /\ Forall (manual_output_between low high) new.

(** The last [n] items of a list. *)
Definition last_n {A} (n : nat) (l : list A) : list A :=
  skipn (List.length l - n) l.

(** A computation that changes the sample-space settings at most. *)
Definition keeps_to_sample_space {A} (c : M Instrument A) : Prop :=
  forall s, sample_space_only s (snd (c s)).

(** What [quick_query] makes of a reading [t] of the instrument [s]. *)
Definition as_read (s : Instrument) (t : pyfloat) : pyfloat :=
  if connected s then t else NaN.

(** ** More of [TemperatureController] *)

Module TemperatureControllerMore.
Import TemperatureController.

(** [reset_cold_head_heater_output] called without a set point, or with
    one that is 0: [if set_point:] skips the write of the set point. *)
Definition reset_cold_head_heater_output : M Instrument unit :=
  set_cold_head_heater_range (RangeName "off") ;;
  set_cold_head_manual_output (Fin 0) ;;
  set_cold_head_heater_range (RangeName "medium").

End TemperatureControllerMore.

Module ThreadsMore.
Import TemperatureController Threads.

(** [TemperatureController.__del__]: the warm-up is stopped unless its
    stop event is set, then [MessageBasedDevice.__del__] disconnects. *)
Definition del_temperature_controller : M World unit :=
  e <- gets stop_warmup_event ;;
  stopped <- is_set e "is_set" ;;
  (if negb stopped then stop_sample_space_warmup else ret tt) ;;
  on_instrument disconnect.

End ThreadsMore.

(** ** More of [MessageBasedDevice] and the devices built on it *)

Module SessionMore.
Import Session Discovery.

(** [clear(force)]: the native clear, its [VisaIOError] ignored; when
    forced, the clear command is written as well and every pending reply
    is read. *)
Definition clear_with (force : bool) (CLEAR : string) : M Mediator unit :=
  fun m =>
    if negb (is_connected m) then (Ok tt, m)
    else ((fun m => (Ok tt, snd (mediator_clear m))) ;;
          if force then
            safe_write CLEAR None None ;;
            force_clear_message_based_resource
          else ret tt) m.

(** The wrapper [wrap_single_action] makes of [method]. *)
Definition wrap_single_action {A} (method : M Mediator A) : M Mediator A :=
  connect ;;
  result <- method ;;
  disconnect ;;
  ret result.

(** [ArduinoForPressureAndRefill.read_pressure]; the mediator of a
    constructed device is never [None]. *)
Definition read_pressure : M Mediator pyfloat :=
  let message := form_message "PRESSURE" true None in
  response <- safe_query message None false ;;
  match float_of_string response with
  | Some f => ret f
  | None => ret NaN
  end.

(** [s.split(sep)] for a separator of two characters [a], [b]. *)
Fixpoint split2 (a b : ascii) (s : string) : list string :=
  match s with
  | EmptyString => [EmptyString]
  | String c s' =>
      match s' with
      | String d s'' =>
          if Ascii.eqb c a && Ascii.eqb d b
          then EmptyString :: split2 a b s''
          else match split2 a b s' with
               | t :: ts => String c t :: ts
               | [] => [String c EmptyString]
               end
      | EmptyString => [String c EmptyString]
      end
  end.

(** [s[:-3]] *)
Definition drop_last3 (s : string) : string :=
  drop_last (drop_last (drop_last s)).

Module CryogenLevelSensor.

Definition MEASURE : string := "MEAS".
Definition CLEAR : string := "*CLR".
Definition HELIUM_CHANNEL : Z := 1.
Definition NITROGEN_CHANNEL : Z := 2.

(** [CryogenLevelSensor.parse_response]: the second line of the reply,
    the first being the echo of the message. *)
Definition parse_response (response : string) : result parsed :=
  match split2 CR LF response with
  | _ :: second :: _ => parse_response second
  | _ => Raise IndexError
  end.

(** [CryogenLevelSensor.quick_query] *)
Definition quick_query (command : string) (channel : Z) (delay : option Q)
  : M Mediator string :=
  let message := form_message command true (Some (ChInt channel)) in
  safe_query message delay true.

(** [get_processed_response] of [quick_level_query]: a number has no
    slice [[:-3]], and [float] of a list raises [TypeError] too. *)
Definition get_processed_response (channel : Z) (delay : option Q)
  : M Mediator pyfloat :=
  response <- quick_query MEASURE channel delay ;;
  parsed_response <- lift (parse_response response) ;;
  match parsed_response with
  | Single (VStr text) =>
      match float_of_string (drop_last3 text) with
      | Some f => ret f
      | None => ret NaN
      end
  | _ => raise TypeError
  end.

Definition isnan (f : pyfloat) : bool :=
  match f with NaN => true | _ => false end.

(** [quick_level_query] *)
Definition quick_level_query (channel : Z) : M Mediator pyfloat :=
  processed_response <- get_processed_response channel None ;;
  if isnan processed_response then
    clear_with true CLEAR ;;
    get_processed_response channel (Some 1%Q)
  else ret processed_response.

(** [read_helium_level] and [read_nitrogen_level] *)
Definition read_level (channel : Z) : M Mediator pyfloat :=
  clear_with true CLEAR ;;
  response <- quick_level_query channel ;;
  clear_with true CLEAR ;;
  ret response.

Definition read_helium_level : M Mediator pyfloat := read_level HELIUM_CHANNEL.
Definition read_nitrogen_level : M Mediator pyfloat :=
  read_level NITROGEN_CHANNEL.

End CryogenLevelSensor.

End SessionMore.

Module DiscoveryMore.
Import Session Discovery.

(** [from_resource_port]: [resource] is what the port names; the result
    and the state the resource is left in. *)
Definition from_resource_port (cls : DeviceClass) (resource_port : string)
    (resource : Mediator) : result Device * Mediator :=
  match open_resource (READ_TERMINATION cls) resource with
  | (Raise e, resource) => (Raise e, resource)
  | (Ok _, resource) =>
      if negb (message_based resource) then
        (Raise (ValueError
                  ("Resource " ++ resource_str resource
                     ++ " with resource_port " ++ resource_port
                     ++ " is not a MessageBasedResource.")),
         resource)
      else match (connect ;; disconnect) resource with
           | (Ok _, m) =>
               (Ok {| mediator := m;
                      instrument_repr_name :=
                        INSTRUMENT_NAME cls ++ " (" ++ resource_name m ++ ")" |},
                m)
           | (Raise e, m) => (Raise e, m)
           end
  end.

End DiscoveryMore.

(** ** Callers: the cryostat window and the measurement *)


Module CryostatWindow.
Import TemperatureController.



End CryostatWindow.

Module Measurement.
Import Session SessionMore.

(** [ArduinoForPressureAndRefill.read_refill_status] *)
Definition read_refill_status : M Mediator pyfloat :=
  let message := form_message "REFILL" true None in
  response <- safe_query message None false ;;
  match float_of_string response with
  | Some f => ret f
  | None => ret NaN
  end.

(** The part of [single_acquisition] that reads the Arduino, when no DAQ
    sensor is given: the pressure and the refill status. *)
Definition single_acquisition_arduino : M Mediator (pyfloat * pyfloat) :=
  connect ;;
  pressure <- read_pressure ;;
  refill_status <- read_refill_status ;;
  disconnect ;;
  ret (pressure, refill_status).

(** [float(response) if _str_is_float(response) else np.nan] *)
Definition float_or_nan (response : string) : pyfloat :=
  match float_of_string response with
  | Some f => f
  | None => NaN
  end.

End Measurement.

Module ExamplesMore.
Import Session Discovery.

Definition CRLF : string := String CR (String LF EmptyString).

(** A level sensor that echoes every message but the clear command and
    answers it with the line [level]; it has no native clear. *)
Definition level_sensor (session : option nat) (pending : list string)
    (level : string) : Mediator :=
  {| resource_name := "ASRL4::INSTR"; class_name := "SerialInstrument";
     message_based := true; opens := true; native_clear := false;
     has_bytes_in_buffer := true;
     visa_attribute_value := fun _ => None;
     read_termination := "";
     respond := fun message =>
                  if String.eqb message "*CLR" then []
                  else [message ++ CRLF ++ level ++ CRLF];
     _session := session; inbox := pending; io_log := [] |}.

(** A closed Arduino that answers the pressure query with
    [pressure_lines] and the refill query with one line. *)
Definition arduino (pressure_lines : list string) : Mediator :=
  {| resource_name := "ASRL3::INSTR"; class_name := "SerialInstrument";
     message_based := true; opens := true; native_clear := true;
     has_bytes_in_buffer := true;
     visa_attribute_value := fun _ => None;
     read_termination := CRLF;
     respond := fun message =>
                  if String.eqb message "PRESSURE?" then pressure_lines
                  else if String.eqb message "REFILL?" then ["0"]
                  else [];
     _session := None; inbox := []; io_log := [] |}.

End ExamplesMore.
(** ** Facts about the string builtins *)

Section StringFacts.

Lemma split_nonempty (sep : ascii) (s : string) : split sep s <> [].
Proof.
  induction s as [|c s IH]; simpl; [discriminate|].
  destruct (Ascii.eqb c sep); [discriminate|].
  destruct (split sep s); [contradiction | discriminate].
Qed.



(** One field exactly when the separator does not occur. *)
Lemma split_single (sep : ascii) (s : string) :
  List.length (split sep s) = 1%nat <->
  all_chars (fun c => negb (Ascii.eqb c sep)) s = true.
Proof.
  induction s as [|c s IH]; simpl; [tauto|].
  pose proof (split_nonempty sep s) as Hn.
  destruct (Ascii.eqb c sep) eqn:E; simpl.
  - destruct (split sep s); [contradiction|]. simpl. split; [lia | discriminate].
  - destruct (split sep s) as [|t ts]; [contradiction|]. simpl in *. exact IH.
Qed.

Lemma lstrip_decomp (s : string) :
  exists l, s = l ++ lstrip s /\ all_chars is_space l = true.
Proof.
  induction s as [|c s [l [H1 H2]]]; simpl.
  - now exists EmptyString.
  - destruct (is_space c) eqn:E.
    + exists (String c l). simpl. rewrite E, H2. now rewrite <- H1.
    + now exists EmptyString.
Qed.

Lemma rstrip_decomp (s : string) :
  exists r, s = rstrip s ++ r /\ all_chars is_space r = true.
Proof.
  induction s as [|c s [r [H1 H2]]]; simpl.
  - now exists EmptyString.
  - destruct (rstrip s) as [|d t] eqn:E.
    + destruct (is_space c) eqn:Ec.
      * exists (String c r). simpl in *. rewrite Ec, H2.
        split; [congruence | reflexivity].
      * exists r. simpl in *. split; [congruence | assumption].
    + exists r. simpl in *. split; [congruence | assumption].
Qed.

(** [strip] removes a run of white space at each end and nothing else. *)
Lemma strip_decomp (s : string) :
  exists l r, s = l ++ strip s ++ r /\
              all_chars is_space l = true /\ all_chars is_space r = true.
Proof.
  destruct (lstrip_decomp s) as [l [H1 H2]].
  destruct (rstrip_decomp (lstrip s)) as [r [H3 H4]].
  exists l, r. unfold strip. now rewrite <- H3, <- H1.
Qed.

Lemma lstrip_head (s : string) :
  match lstrip s with
  | String c _ => is_space c = false
  | EmptyString => True
  end.
Proof.
  induction s as [|c s IH]; simpl; [exact I|].
  destruct (is_space c) eqn:E; [exact IH | exact E].
Qed.

Lemma rstrip_head (s : string) :
  match s, rstrip s with
  | String c _, String d _ => c = d
  | _, _ => True
  end.
Proof.
  destruct s as [|c s]; simpl; [exact I|].
  destruct (rstrip s); [destruct (is_space c)|]; auto.
Qed.

Lemma rstrip_last (s : string) :
  match last_char (rstrip s) with
  | Some c => is_space c = false
  | None => True
  end.
Proof.
  induction s as [|c s IH]; simpl; [exact I|].
  destruct (rstrip s) as [|d t] eqn:E.
  - destruct (is_space c) eqn:Ec; simpl; auto.
  - simpl in *. exact IH.
Qed.

(** The stripped string neither starts nor ends with white space. *)
Lemma strip_ends (s : string) :
  match strip s with
  | String c _ => is_space c = false
  | EmptyString => True
  end /\
  match last_char (strip s) with
  | Some c => is_space c = false
  | None => True
  end.
Proof.
  unfold strip. split; [|apply rstrip_last].
  pose proof (lstrip_head s) as H. pose proof (rstrip_head (lstrip s)) as H'.
  destruct (lstrip s) as [|c t]; simpl in *; [exact I|].
  destruct (rstrip t); [destruct (is_space c) eqn:E; [exact I | exact E]|].
  exact H.
Qed.

End StringFacts.

(** The value of a digit string is positional. *)
Lemma digits_value_snoc (s : list ascii) (c : ascii) (acc : Z) :
  digits_value acc (s ++ [c]) = 10 * digits_value acc s + digit_value c.
Proof.
  revert acc. induction s as [|d s IH]; intros acc; simpl; [reflexivity|].
  apply IH.
Qed.

Lemma append_empty_r (s : string) : s ++ "" = s.
Proof. induction s; simpl; congruence. Qed.

(** What the string builtins do on a few inputs. *)
Example strip_split_examples :
  strip "  KRDG? B
" = "KRDG? B"
  /\ split "," "a,,b" = ["a"; ""; "b"]
  /\ split "," "" = [""]
  /\ title "MEDIUM" = "Medium" /\ upper "off" = "OFF".
Proof. vm_compute. repeat split. Qed.

(** What [float] accepts and what it rejects. *)
Example float_of_string_examples :
  List.map float_of_string
    ["4.5"; "12"; "-5"; "+.5e-1"; "5."; "1_0.2_5"; "1E3"; " 7 "; "inf";
     "-Infinity"; "NaN"]
    = [Some (Fin (9 # 2)); Some (Fin 12); Some (Fin (-5)); Some (Fin (1 # 20));
       Some (Fin 5); Some (Fin (41 # 4)); Some (Fin 1000); Some (Fin 7);
       Some (Inf false); Some (Inf true); Some NaN]
  /\ List.map float_of_string
       [""; "."; "OFF"; "1_"; "_1"; "1__0"; "e5"; "1e"; "0x10"; "1 2"; "--1";
        "1.2.3"; "infi"]
     = repeat None 13.
Proof. vm_compute. split; reflexivity. Qed.

(** ** The message helpers *)

(** C8. [form_message] returns the command, followed by [?] exactly when
    the query flag is set, followed by a space and the channel exactly
    when a channel is given; the two examples of the documentation. *)
Theorem form_message_spec (primary_command : string) (is_query : bool)
    (channel : option channel_arg) :
  form_message primary_command is_query channel =
    primary_command
      ++ (if is_query then "?" else "")
      ++ match channel with
         | Some c => " " ++ format_channel c
         | None => ""
         end
  /\ form_message "SETP" true (Some (ChStr "B")) = "SETP? B"
  /\ form_message "CLR" false None = "CLR"
  /\ form_message "HTR" true (Some (ChInt 1)) = "HTR? 1".
Proof.
  split; [|repeat split; reflexivity].
  unfold form_message.
  destruct is_query, channel as [c|]; simpl;
    rewrite ?append_empty_r; try reflexivity.
  induction primary_command as [|a p IH]; simpl; [reflexivity|].
  now rewrite IH.
Qed.



(** ** Guarded I/O on a closed session *)

Section ClosedSession.
Import Session.

(** On an open session a write does reach the channel. *)
Lemma safe_write_open (m : Mediator) (message : string)
    (termination encoding : option string) :
  is_connected m = true ->
  io_log (snd (safe_write message termination encoding m))
    = Wrote message :: io_log m.
Proof. intros H. unfold safe_write. now rewrite H. Qed.

(** C6. On a session that is not open, [safe_write], [safe_read] and
    [safe_query] return at once, the reads with the empty string, without
    raising and leaving the channel as it was: nothing is written, nothing
    is read, the log of the channel is unchanged. *)
Theorem closed_session_returns_empty (m : Mediator) (message : string)
    (delay : option Q) (termination encoding : option string)
    (check_buffer_before until_buffer_empty : bool) :
  is_connected m = false ->
  safe_write message termination encoding m = (Ok tt, m)
  /\ safe_read termination encoding check_buffer_before until_buffer_empty m
       = (Ok "", m)
  /\ safe_query message delay until_buffer_empty m = (Ok "", m).
Proof.
  intros H. unfold safe_write, safe_read, safe_query. rewrite H. simpl.
  repeat split.
Qed.

(** With the session closed [quick_query] answers NaN. *)
Lemma quick_query_closed (m : Mediator) (command : string)
    (channel : option channel_arg) :
  is_connected m = false -> quick_query command channel m = (Ok NaN, m).
Proof.
  intros H. unfold quick_query, bind, safe_query. rewrite H. reflexivity.
Qed.

End ClosedSession.

(** ** Discovery *)

Section DiscoveryFacts.
Import Session Discovery.

(** The loop of a scan computes [matching_resources]. *)
Lemma collect_matching (candidate : Mediator -> option Mediator)
    (connected_resources matching : list Mediator) :
  collect candidate connected_resources matching
    = (matching ++ matching_resources candidate connected_resources)%list.
Proof.
  revert matching.
  induction connected_resources as [|r rest IH]; intros matching; simpl.
  - now rewrite app_nil_r.
  - rewrite IH. destruct (candidate r); simpl; [|reflexivity].
    now rewrite <- app_assoc.
Qed.

Lemma same_resource_refl (m : Mediator) : same_resource m m.
Proof. repeat split. Qed.

Lemma same_resource_trans (a b c : Mediator) :
  same_resource a b -> same_resource b c -> same_resource a c.
Proof.
  unfold same_resource. intros (?&?&?&?&?) (?&?&?&?&?).
  repeat split; congruence.
Qed.

Lemma keeps_ret {A} (a : A) : keeps_resource (ret a).
Proof. intros m. apply same_resource_refl. Qed.

Lemma keeps_bind {A B} (c : M Mediator A) (k : A -> M Mediator B) :
  keeps_resource c -> (forall a, keeps_resource (k a)) ->
  keeps_resource (bind c k).
Proof.
  intros Hc Hk m. unfold bind. specialize (Hc m).
  destruct (c m) as [[a|e] m1]; simpl in *; [|exact Hc].
  eapply same_resource_trans; [exact Hc | apply Hk].
Qed.

Lemma keeps_open : keeps_resource mediator_open.
Proof. intros m. unfold mediator_open. destruct (opens m); repeat split. Qed.

Lemma keeps_close : keeps_resource mediator_close.
Proof. intros m. repeat split. Qed.

Lemma keeps_clear : keeps_resource mediator_clear.
Proof.
  intros m. unfold mediator_clear. destruct (native_clear m); repeat split.
Qed.

Lemma keeps_write (message : string) (t e : option string) :
  keeps_resource (mediator_write message t e).
Proof. intros m. repeat split. Qed.

Lemma keeps_read (t e : option string) : keeps_resource (mediator_read t e).
Proof. intros m. unfold mediator_read. destruct (inbox m); repeat split. Qed.

Lemma keeps_query (message : string) (d : option Q) :
  keeps_resource (mediator_query message d).
Proof.
  apply keeps_bind; [apply keeps_write | intros; apply keeps_read].
Qed.

Lemma keeps_drain (pending : list string) :
  forall response, keeps_resource (drain pending response).
Proof.
  induction pending as [|p pending IH]; intros response; simpl.
  - apply keeps_ret.
  - intros m. destruct (0 <? bytes_in_buffer m); [|apply same_resource_refl].
    apply (keeps_bind (mediator_read None None)); [apply keeps_read|].
    intros a. apply IH.
Qed.

Lemma keeps_drain_buffer (response : string) :
  keeps_resource (drain_buffer response).
Proof. intros m. unfold drain_buffer. apply keeps_drain. Qed.

Lemma keeps_read_all (pending : list string) : keeps_resource (read_all pending).
Proof.
  induction pending as [|p pending IH]; simpl; [apply keeps_ret|].
  apply keeps_bind; [apply keeps_read | intros; exact IH].
Qed.

Lemma keeps_query_idn : keeps_resource query_idn.
Proof.
  apply keeps_bind; [apply keeps_query|]. intros idn m.
  destruct (has_bytes_in_buffer m);
    [apply keeps_drain_buffer | apply same_resource_refl].
Qed.

Lemma keeps_clear_session : keeps_resource clear.
Proof.
  intros m. unfold clear. destruct (negb (is_connected m)); simpl;
    [apply same_resource_refl | apply keeps_clear].
Qed.

(** A resource a scan by identity appends is message based, can be
    opened, is closed again, and is the resource scanned. *)
Lemma idn_candidate_sound (desired : string) (is_partial correct : bool)
    (term : string) (r0 r : Mediator) :
  idn_candidate desired is_partial correct term r0 = Some r ->
  same_resource r0 r /\ opens r0 = true /\ message_based r0 = true
  /\ _session r = None.
Proof.
  unfold idn_candidate, open_resource, mediator_open. simpl.
  destruct (opens r0) eqn:Hopen; [|discriminate].
  cbn [message_based with_session with_read_termination logged].
  destruct (message_based r0) eqn:Hmb; [|discriminate].
  set (m0 := logged Opened _).
  assert (H0 : same_resource r0 m0) by (repeat split).
  unfold bind.
  destruct (mediator_clear m0) as [[u|e] m1] eqn:E1.
  - pose proof (keeps_clear m0) as K1. rewrite E1 in K1. simpl in K1.
    pose proof (keeps_query_idn m1) as K2.
    destruct (query_idn m1) as [[idn|e] m2]; [|discriminate]. simpl in K2.
    destruct correct.
    + destruct (detect_termination (read_termination m2) idn) as [t v].
      unfold mediator_close, ret.
      destruct (match_condition is_partial desired v); [|discriminate].
      intros [= <-]. repeat split; simpl;
        destruct H0 as (?&?&?&?&?), K1 as (?&?&?&?&?), K2 as (?&?&?&?&?);
        congruence.
    + unfold ret, mediator_close.
      destruct (match_condition is_partial desired idn); [|discriminate].
      intros [= <-]. repeat split; simpl;
        destruct H0 as (?&?&?&?&?), K1 as (?&?&?&?&?), K2 as (?&?&?&?&?);
        congruence.
  - pose proof (keeps_clear m0) as K1. rewrite E1 in K1. simpl in K1.
    pose proof (keeps_read_all (inbox m1) m1) as K1'.
    unfold force_clear_message_based_resource.
    destruct (read_all (inbox m1) m1) as [[u|e'] m1']; [|discriminate].
    simpl in K1'.
    pose proof (keeps_query_idn m1') as K2.
    destruct (query_idn m1') as [[idn|e''] m2]; [|discriminate]. simpl in K2.
    destruct correct.
    + destruct (detect_termination (read_termination m2) idn) as [t v].
      unfold mediator_close, ret.
      destruct (match_condition is_partial desired v); [|discriminate].
      intros [= <-]. repeat split; simpl;
        destruct H0 as (?&?&?&?&?), K1 as (?&?&?&?&?), K1' as (?&?&?&?&?),
                 K2 as (?&?&?&?&?); congruence.
    + unfold ret, mediator_close.
      destruct (match_condition is_partial desired idn); [|discriminate].
      intros [= <-]. repeat split; simpl;
        destruct H0 as (?&?&?&?&?), K1 as (?&?&?&?&?), K1' as (?&?&?&?&?),
                 K2 as (?&?&?&?&?); congruence.
Qed.

(** The same for a scan by attribute, except that the resource need not
    be message based. *)
Lemma attribute_candidate_sound (visa_attribute desired : string)
    (is_partial correct : bool) (term : string) (r0 r : Mediator) :
  attribute_candidate visa_attribute desired is_partial correct term r0
    = Some r ->
  same_resource r0 r /\ opens r0 = true /\ _session r = None.
Proof.
  unfold attribute_candidate, open_resource, mediator_open, bind. simpl.
  destruct (opens r0) eqn:Hopen; [|discriminate].
  set (m0 := logged Opened _).
  assert (H0 : same_resource r0 m0) by (repeat split).
  pose proof (keeps_clear m0) as K1.
  set (m1 := snd (mediator_clear m0)) in *.
  assert (Hstep : forall m2 : Mediator, same_resource m1 m2 ->
            match
              (match visa_attribute_value m2 visa_attribute with
               | Some v => (Ok v, m2)
               | None => (Raise VisaIOError, m2)
               end)
            with
            | (Ok a, s') =>
                let (r1, s'0) := mediator_close s' in
                match r1 with
                | Ok _ => ret (match_condition is_partial desired a) s'0
                | Raise e => (Raise e, s'0)
                end
            | (Raise e, s') => (Raise e, s')
            end = (Ok true, r) ->
            same_resource r0 r /\ true = true /\ _session r = None).
  { intros m2 K2.
    destruct (visa_attribute_value m2 visa_attribute); [|discriminate].
    unfold mediator_close, ret.
    destruct (match_condition is_partial desired s); [|discriminate].
    intros [= <-]. repeat split; simpl;
      destruct H0 as (?&?&?&?&?), K1 as (?&?&?&?&?), K2 as (?&?&?&?&?);
      congruence. }
  destruct (message_based m1 && correct).
  - pose proof (keeps_bind _ (fun v m => (Ok (fst (detect_termination (read_termination m) v)), m))
                  keeps_query_idn (fun v m => same_resource_refl m) m1) as K2.
    fold auto_detect_read_termination in K2.
    destruct (auto_detect_read_termination m1) as [[t|e] m2]; simpl in K2.
    + intros H. destruct (_ : result bool * Mediator) as [[[|]|] r'] eqn:E in H;
        try discriminate.
      injection H as <-. apply (Hstep (with_read_termination m2 t)); [|exact E].
      destruct K2 as (?&?&?&?&?). repeat split; assumption.
    + discriminate.
  - intros H. destruct (_ : result bool * Mediator) as [[[|]|] r'] eqn:E in H;
      try discriminate.
    injection H as <-. apply (Hstep m1); [apply same_resource_refl | exact E].
Qed.





(** The three-channel example of the documentation: one channel reports
    the identity asked for and the device is built from it. *)
Lemma from_idn_three_channels :
  let rm := [Examples.channel "GPIB0::11::INSTR" "Model-W" "w";
             Examples.channel "GPIB0::12::INSTR" "Model-X" "x";
             Examples.channel "ASRL4::INSTR" "Model-Y" "y"] in
  match from_idn Examples.lakeshore_class rm "Model-X" false false with
  | Ok d => resource_name (mediator d) = "GPIB0::12::INSTR"
            /\ instrument_repr_name d = "Lakeshore 335 (GPIB0::12::INSTR)"
  | Raise _ => False
  end.
Proof. vm_compute. split; reflexivity. Qed.

End DiscoveryFacts.

(** ** Arithmetic of the float model *)

Lemma Qlt_bool_true (a b : Q) : Qlt_bool a b = true <-> (a < b)%Q.
Proof.
  unfold Qlt_bool. rewrite negb_true_iff. split; intros H.
  - apply Qnot_le_lt. intros Hle. apply Qle_bool_iff in Hle. congruence.
  - destruct (Qle_bool b a) eqn:E; [|reflexivity].
    apply Qle_bool_iff in E. exfalso. apply (Qlt_not_le _ _ H E).
Qed.

Lemma Qlt_bool_false (a b : Q) : Qlt_bool a b = false <-> (b <= a)%Q.
Proof.
  unfold Qlt_bool. rewrite negb_false_iff. apply Qle_bool_iff.
Qed.

(** Turns the comparisons of the goal and of the hypotheses into
    statements on rationals and drops the reductions to lowest terms. *)
Ltac float_arith :=
  repeat match goal with
         | H : Qlt_bool _ _ = true |- _ => apply Qlt_bool_true in H
         | H : Qlt_bool _ _ = false |- _ => apply Qlt_bool_false in H
         end;
  unfold of_Z, inject_Z in *;
  repeat rewrite Qred_correct in *;
  try lra.

(** ** The pressure-stabilization step *)

Section StabilizationFacts.
Import TemperatureController Stabilization.

(** What one step writes on an open session with a finite manual
    output [x]: [x - 5] in both branches, raised to 0 below the target and
    lowered to 80 otherwise. *)
Lemma attempt_stabilization_connected (s : Instrument)
    (target_pressure : pyfloat) (pressure_data : list pyfloat) (x : Q) :
  connected s = true -> cold_head_manual_output s = Fin x ->
  exists v,
    attempt_stabilization_by_pressure target_pressure pressure_data s
      = (Ok tt, receive_manual_output COLD_HEAD_OUT_CHANNEL (Fin v) s)
    /\ if lt (mean pressure_data) target_pressure
       then (v == x - 5 /\ 0 <= x - 5)%Q \/ (v == 0 /\ x - 5 < 0)%Q
       else (v == x - 5 /\ x - 5 <= 80)%Q \/ (v == 80 /\ 80 < x - 5)%Q.
Proof.
  intros Hc Hx. unfold attempt_stabilization_by_pressure.
  destruct (lt (mean pressure_data) target_pressure);
    unfold bind, get_cold_head_manual_output, quick_query,
      set_cold_head_manual_output, quick_write_manual_output;
    rewrite Hc, Hx; unfold max, min, gt, lt, sub, add, neg, of_Z.
  - destruct (Qlt_bool _ _) eqn:E; eexists; (split; [reflexivity|]).
    + right. float_arith.
    + left. float_arith.
  - destruct (Qlt_bool _ _) eqn:E; eexists; (split; [reflexivity|]).
    + right. float_arith.
    + left. float_arith.
Qed.

(** On a closed session the step reads NaN and its write is dropped. *)
Lemma attempt_stabilization_closed (s : Instrument)
    (target_pressure : pyfloat) (pressure_data : list pyfloat) :
  connected s = false ->
  attempt_stabilization_by_pressure target_pressure pressure_data s
    = (Ok tt, s).
Proof.
  intros Hc. unfold attempt_stabilization_by_pressure.
  destruct (lt (mean pressure_data) target_pressure);
    unfold bind, get_cold_head_manual_output, quick_query,
      set_cold_head_manual_output, quick_write_manual_output;
    now rewrite Hc.
Qed.




(** C2, where the code departs from it: with the mean pressure at or
    above the target and the manual output at 40, the step writes 35, not
    45; from 3 it writes -2, outside [0, 80]. *)
Theorem stabilization_step_above_target_lowers_output :
  let s40 := Examples.controller MEDIUM 40 OFF 0 in
  let s3 := Examples.controller MEDIUM 3 OFF 0 in
  lt (mean [of_Z 2]) (Fin (17 # 10)) = false
  /\ written (snd (attempt_stabilization_by_pressure (Fin (17 # 10))
                     [of_Z 2] s40))
     = [WroteManualOutput COLD_HEAD_OUT_CHANNEL (Fin 35) MEDIUM]
  /\ cold_head_manual_output
       (snd (attempt_stabilization_by_pressure (Fin (17 # 10)) [of_Z 2] s40))
     = Fin 35
  /\ written (snd (attempt_stabilization_by_pressure (Fin (17 # 10))
                     [of_Z 2] s3))
     = [WroteManualOutput COLD_HEAD_OUT_CHANNEL (Fin (-2)) MEDIUM].
Proof. vm_compute. repeat split. Qed.

End StabilizationFacts.

(** ** The warm-up step *)

Section WarmupFacts.
Import TemperatureController.

Lemma range_roundtrip (r : HeaterRangeValues) :
  HeaterRangeValues_call (of_Z (range_value r)) = Ok r
  /\ HeaterRangeValues_item (upper (title (range_name r))) = Ok r.
Proof. destruct r; split; vm_compute; reflexivity. Qed.

Lemma get_range_connected (s : Instrument) :
  connected s = true ->
  get_sample_space_heater_range s
    = (Ok (title (range_name (sample_space_heater_range s))), s).
Proof.
  intros Hc. unfold get_sample_space_heater_range, bind, quick_query, lift.
  rewrite Hc. now rewrite (proj1 (range_roundtrip _)).
Qed.

Lemma get_range_closed (s : Instrument) :
  connected s = false ->
  get_sample_space_heater_range s
    = (Raise (ValueError "not a valid HeaterRangeValues"), s).
Proof.
  intros Hc. unfold get_sample_space_heater_range, bind, quick_query, lift.
  now rewrite Hc.
Qed.

Lemma get_output_connected (s : Instrument) :
  connected s = true ->
  get_sample_space_manual_output s = (Ok (sample_space_manual_output s), s).
Proof.
  intros Hc. unfold get_sample_space_manual_output, quick_query.
  now rewrite Hc.
Qed.

Lemma set_output_connected (v : pyfloat) (s : Instrument) :
  connected s = true ->
  set_sample_space_manual_output v s
    = (Ok tt, receive_manual_output SAMPLE_SPACE_OUT_CHANNEL v s).
Proof.
  intros Hc. unfold set_sample_space_manual_output, quick_write_manual_output.
  now rewrite Hc.
Qed.

Lemma set_range_member_connected (r : HeaterRangeValues) (s : Instrument) :
  connected s = true ->
  set_sample_space_heater_range (RangeMember r) s
    = (Ok tt, receive_heater_range SAMPLE_SPACE_OUT_CHANNEL r s).
Proof.
  intros Hc.
  unfold set_sample_space_heater_range, set_heater_range, bind, ret,
    quick_write_heater_range.
  rewrite Hc. now rewrite (proj1 (range_roundtrip r)).
Qed.

Lemma set_range_name_connected (name : string) (r : HeaterRangeValues)
    (s : Instrument) :
  connected s = true -> HeaterRangeValues_item (upper name) = Ok r ->
  set_sample_space_heater_range (RangeName name) s
    = (Ok tt, receive_heater_range SAMPLE_SPACE_OUT_CHANNEL r s).
Proof.
  intros Hc Hn.
  unfold set_sample_space_heater_range, set_heater_range, bind, ret, lift,
    quick_write_heater_range.
  rewrite Hn, Hc. now rewrite (proj1 (range_roundtrip r)).
Qed.

Lemma item_high : HeaterRangeValues_item (upper "High") = Ok HIGH.
Proof. vm_compute. reflexivity. Qed.
Lemma item_low : HeaterRangeValues_item (upper "Low") = Ok LOW.
Proof. vm_compute. reflexivity. Qed.
Lemma item_off : HeaterRangeValues_item (upper "off") = Ok OFF.
Proof. vm_compute. reflexivity. Qed.

Lemma connected_receive_output (ch : output_channel) (v : pyfloat)
    (s : Instrument) :
  connected (receive_manual_output ch v s) = connected s.
Proof. now destruct ch. Qed.

Lemma connected_receive_range (ch : output_channel) (r : HeaterRangeValues)
    (s : Instrument) :
  connected (receive_heater_range ch r s) = connected s.
Proof. now destruct ch. Qed.

Lemma written_receive_output (ch : output_channel) (v : pyfloat)
    (s : Instrument) :
  written (receive_manual_output ch v s)
    = WroteManualOutput ch v (heater_range ch s) :: written s.
Proof. now destruct ch. Qed.

Lemma written_receive_range (ch : output_channel) (r : HeaterRangeValues)
    (s : Instrument) :
  written (receive_heater_range ch r s) = WroteHeaterRange ch r :: written s.
Proof. now destruct ch. Qed.

Lemma range_receive_range (r : HeaterRangeValues) (s : Instrument) :
  sample_space_heater_range
    (receive_heater_range SAMPLE_SPACE_OUT_CHANNEL r s) = r.
Proof. reflexivity. Qed.

Lemma range_receive_output (v : pyfloat) (s : Instrument) :
  sample_space_heater_range
    (receive_manual_output SAMPLE_SPACE_OUT_CHANNEL v s)
    = sample_space_heater_range s.
Proof. reflexivity. Qed.

Lemma output_receive_output (v : pyfloat) (s : Instrument) :
  sample_space_manual_output
    (receive_manual_output SAMPLE_SPACE_OUT_CHANNEL v s) = v.
Proof. reflexivity. Qed.

Lemma output_receive_range (r : HeaterRangeValues) (s : Instrument) :
  sample_space_manual_output
    (receive_heater_range SAMPLE_SPACE_OUT_CHANNEL r s)
    = sample_space_manual_output s.
Proof. reflexivity. Qed.

(** Runs the writes of a step on an open session. *)
Ltac still_connected :=
  rewrite ?connected_receive_output, ?connected_receive_range; assumption.

Ltac run_writes :=
  repeat first
    [ rewrite set_output_connected by still_connected
    | rewrite (set_range_name_connected "High" HIGH) by
        (first [still_connected | exact item_high])
    | rewrite (set_range_name_connected "Low" LOW) by
        (first [still_connected | exact item_low])
    | rewrite set_range_member_connected by still_connected
    | progress cbv beta iota ];
  cbn [snd fst heater_range];
  repeat first
    [ rewrite written_receive_output | rewrite written_receive_range
    | rewrite range_receive_range | rewrite range_receive_output
    | rewrite output_receive_output | rewrite output_receive_range ];
  cbn [heater_range].

(** The step on an open session, after its two reads. *)
Ltac read_phase Hc Hr Hq :=
  unfold check_warmup_heater_status;
  unfold bind at 1; rewrite (get_range_connected _ Hc); cbv beta iota;
  unfold bind at 1; unfold lift at 1; rewrite Hr;
  rewrite (proj2 (range_roundtrip _)); cbv beta iota;
  unfold bind at 1; rewrite (get_output_connected _ Hc), Hq; cbv beta iota;
  unfold bind at 1; unfold lift at 1.

Ltac give_new :=
  match goal with
  | |- exists new, (?a :: ?b :: ?w) = (new ++ ?w)%list /\ _ => exists [a; b]
  | |- exists new, (?a :: ?w) = (new ++ ?w)%list /\ _ => exists [a]
  | |- exists new, ?w = (new ++ ?w)%list /\ _ => exists []
  end.

Ltac float_le :=
  unfold within_ceiling, heater_range, le, max, min, gt, lt, sub, add, neg,
    of_Z, STARTING_HEATER_MIN_PERCENT, HeaterMaxPercent in *;
  repeat match goal with
         | |- context [Qlt_bool ?a ?b] => destruct (Qlt_bool a b) eqn:?
         end;
  float_arith.

(** A step that starts with the manual output within the ceiling of the
    active range writes no manual output above the ceiling of the range
    active at the write. *)
Lemma check_warmup_within_ceiling (s : Instrument) (target : pyfloat)
    (data : list pyfloat) (q : Q) :
  sample_space_manual_output s = Fin q ->
  (q <= inject_Z (HeaterMaxPercent (sample_space_heater_range s)))%Q ->
  exists new,
    written (snd (check_warmup_heater_status target data s))
      = (new ++ written s)%list
    /\ Forall within_ceiling new.
Proof.
  intros Hq Hle. destruct (connected s) eqn:Hc.
  2:{ unfold check_warmup_heater_status. unfold bind at 1.
      rewrite (get_range_closed _ Hc). exists []. split; [reflexivity|constructor]. }
  destruct (sample_space_heater_range s) eqn:Hr.
  all: read_phase Hc Hr Hq.
  all: destruct (last_item data) as [latest|e];
    [|exists []; split; [reflexivity | constructor]].
  all: cbv beta iota.
  all: generalize (mean_temp_diff_per_minute data) as rate; intros rate.
  all: destruct (gt latest (sub target (of_Z 2)));
    [ destruct (gt rate (Fin (1 # 2)) || gt latest (add target (of_Z 2)));
      [| destruct (lt rate (Fin (- (1 # 2))))]
    | destruct (lt rate (of_Z 1)); [| destruct (gt rate (of_Z 3))] ].
  all: cbn [range_eqb range_value Z.eqb Pos.eqb negb].
  all: repeat match goal with
              | |- context [HeaterRangeValues_call ?x] =>
                  let v := eval vm_compute in (HeaterRangeValues_call x) in
                  change (HeaterRangeValues_call x) with v
              end.
  all: repeat match goal with
              | |- context [if lt ?a ?b then _ else _] =>
                  destruct (lt a b) eqn:?
              | |- context [if gt ?a ?b then _ else _] =>
                  destruct (gt a b) eqn:?
              end.
  all: unfold bind, lift, ret; run_writes;
    rewrite ?range_receive_range, ?range_receive_output, ?Hr.
  all: give_new; (split; [reflexivity|]); repeat constructor.
  all: float_le.
Qed.



(** *** Far below the target and too slow *)

Section FarBelowTooSlow.

Variable s : Instrument.
Variable data : list pyfloat.
Variables t T m q : Q.
Hypothesis Hc : connected s = true.
Hypothesis Hlast : last_item data = Ok (Fin t).
Hypothesis Hfar : (t < T - 2)%Q.
Hypothesis Hrate : mean_temp_diff_per_minute data = Fin m.
Hypothesis Hslow : (m < 1)%Q.
Hypothesis Hq : sample_space_manual_output s = Fin q.





End FarBelowTooSlow.



(** A step that fails while reading, the session being closed, leaves
    the instrument as it was. *)
Lemma warmup_iteration_closed (target : pyfloat) (data : list pyfloat)
    (s : Instrument) :
  connected s = false ->
  snd (warmup_iteration target data s) = s.
Proof.
  intros Hc. unfold warmup_iteration, get_sample_space_temperature, quick_query.
  rewrite Hc. destruct (push_sample 5 data NaN); [|reflexivity].
  unfold try_except, check_warmup_heater_status. unfold bind at 1.
  now rewrite (get_range_closed _ Hc).
Qed.

(** C3, where the code departs from it: at HIGH with the output at 50,
    far below the target and not warming, the iteration of the loop sets
    the output to 10, then fails to find a range above HIGH; the error is
    swallowed and the output stays at 10 instead of 50.  The state is
    reached from OFF and 0 by the loop itself, the temperature standing at
    100 K. *)
Theorem warmup_iteration_partial_write :
  let s := with_sample_space_temperature
             (Examples.controller MEDIUM 40 HIGH 50) (of_Z 100) in
  let s' := snd (warmup_iteration (of_Z 255) [of_Z 100] s) in
  fst (check_warmup_heater_status (of_Z 255) [of_Z 100; of_Z 100] s)
    = Raise (ValueError "not a valid HeaterRangeValues")
  /\ sample_space_manual_output s = Fin 50
  /\ sample_space_manual_output s' = Fin 10
  /\ sample_space_heater_range s' = HIGH
  /\ written s' = [WroteManualOutput SAMPLE_SPACE_OUT_CHANNEL (Fin 10) HIGH]
  /\ (let s39 := snd (warmup_loop (of_Z 255) (of_Z 100)
                        (repeat (of_Z 100) 39)
                        (Examples.controller MEDIUM 40 OFF 0)) in
      let s40 := snd (warmup_loop (of_Z 255) (of_Z 100)
                        (repeat (of_Z 100) 40)
                        (Examples.controller MEDIUM 40 OFF 0)) in
      (sample_space_heater_range s39, sample_space_manual_output s39)
        = (HIGH, Fin 50)
      /\ (sample_space_heater_range s40, sample_space_manual_output s40)
        = (HIGH, Fin 10)).
Proof. vm_compute. repeat split. Qed.

(** C1 as stated fails: the warm-up loop started at OFF and 0 climbs to
    LOW and 80 while the sample space stays at 100 K; when the temperature
    then reads 258 K, above the target 255 K, the loop writes 70 and
    switches to HIGH, and at the next reading writes 60 with HIGH active,
    above the ceiling 50 of HIGH. *)
Lemma warmup_loop_writes_above_ceiling :
  let s0 := Examples.controller MEDIUM 40 OFF 0 in
  let temperatures := (repeat (of_Z 100) 15 ++ [of_Z 258; of_Z 258])%list in
  let s' := snd (warmup_loop (of_Z 255) (of_Z 100) temperatures s0) in
  firstn 3 (written s')
    = [WroteManualOutput SAMPLE_SPACE_OUT_CHANNEL (Fin 60) HIGH;
       WroteHeaterRange SAMPLE_SPACE_OUT_CHANNEL HIGH;
       WroteManualOutput SAMPLE_SPACE_OUT_CHANNEL (Fin 70) LOW]
  /\ ~ Forall within_ceiling (written s').
Proof.
  cbv zeta.
  set (w := written _).
  assert (E : exists rest,
             w = WroteManualOutput SAMPLE_SPACE_OUT_CHANNEL (Fin 60) HIGH
                 :: WroteHeaterRange SAMPLE_SPACE_OUT_CHANNEL HIGH
                 :: WroteManualOutput SAMPLE_SPACE_OUT_CHANNEL (Fin 70) LOW
                 :: rest).
  { subst w. vm_compute. eexists. reflexivity. }
  destruct E as [rest ->]. split; [reflexivity|].
  intros H. apply Forall_inv in H. vm_compute in H. apply H. reflexivity.
Qed.

(** The rolling window of both loops: seven samples pushed into it
    leave the last five, oldest first. *)
Example push_sample_seven :
  fold_left (fun data x =>
               match push_sample 5 data (of_Z x) with
               | Ok data' => data'
               | Raise _ => data
               end) [1; 2; 3; 4; 5; 6; 7] []
    = [of_Z 3; of_Z 4; of_Z 5; of_Z 6; of_Z 7].
Proof. vm_compute. reflexivity. Qed.

(** The stabilization does not look at the range at all: the first block
    restores HIGH with a baseline of 70 in place, and a step on the open
    session then writes 65 with HIGH active. *)
Lemma stabilization_writes_above_ceiling :
  let s := Examples.controller HIGH 0 OFF 0 in
  let s1 := snd (Stabilization.write_baseline (of_Z 70) "High" s) in
  let s2 := snd (Stabilization.attempt_stabilization_by_pressure
                   (Fin (17 # 10)) [of_Z 2] s1) in
  written s2
    = [WroteManualOutput COLD_HEAD_OUT_CHANNEL (Fin 65) HIGH;
       WroteHeaterRange COLD_HEAD_OUT_CHANNEL HIGH;
       WroteManualOutput COLD_HEAD_OUT_CHANNEL (Fin 70) OFF;
       WroteHeaterRange COLD_HEAD_OUT_CHANNEL OFF]
  /\ ~ Forall within_ceiling (written s2).
Proof.
  cbv zeta. set (w := written _).
  assert (E : w = [WroteManualOutput COLD_HEAD_OUT_CHANNEL (Fin 65) HIGH;
                   WroteHeaterRange COLD_HEAD_OUT_CHANNEL HIGH;
                   WroteManualOutput COLD_HEAD_OUT_CHANNEL (Fin 70) OFF;
                   WroteHeaterRange COLD_HEAD_OUT_CHANNEL OFF])
    by (subst w; vm_compute; reflexivity).
  rewrite E. split; [reflexivity|].
  intros H. apply Forall_inv in H. vm_compute in H. apply H. reflexivity.
Qed.

(** *** The baseline average of the stabilization loop *)

Lemma inject_Z_succ (n : nat) :
  (inject_Z (Z.of_nat (S n)) == inject_Z (Z.of_nat n) + 1)%Q.
Proof. rewrite Nat2Z.inj_succ, <- Z.add_1_r, inject_Z_plus. reflexivity. Qed.

Lemma sum_at_most (l : list pyfloat) :
  forall a : Q,
    Forall (number_at_most 100) l ->
    exists y, fold_left add l (Fin a) = Fin y
              /\ (y <= a + 100 * inject_Z (Z.of_nat (List.length l)))%Q.
Proof.
  induction l as [|p l IH]; intros a H.
  - exists a. split; [reflexivity|].
    change (inject_Z (Z.of_nat (@List.length pyfloat []))) with 0%Q. lra.
  - inversion H as [|? ? [x [-> Hx]] Hl]; subst.
    cbn [fold_left add].
    destruct (IH (Qred (a + x)) Hl) as [y [E Hy]].
    exists y. split; [exact E|].
    rewrite Qred_correct in Hy.
    change (List.length (Fin x :: l)) with (S (List.length l)).
    rewrite inject_Z_succ. lra.
Qed.

Lemma mean_at_most (l : list pyfloat) :
  l <> [] -> Forall (number_at_most 100) l -> number_at_most 100 (mean l).
Proof.
  intros Hne H. destruct l as [|p l]; [contradiction|].
  unfold mean, sum.
  destruct (sum_at_most (p :: l) 0 H) as [y [E Hy]]. rewrite E.
  unfold div_pos. eexists. split; [reflexivity|].
  rewrite Qred_correct.
  set (n := inject_Z (Z.of_nat (List.length (p :: l)))) in *.
  assert (Hn : (0 < n)%Q).
  { subst n. change 0%Q with (inject_Z 0). rewrite <- Zlt_Qlt.
    simpl. lia. }
  apply Qle_shift_div_r; [exact Hn | lra].
Qed.

Lemma rint_at_most (q : Q) (k : Z) : (q <= inject_Z k)%Q -> (rint q <= k)%Z.
Proof.
  intros H. unfold rint.
  assert (Hf : (Qfloor q <= k)%Z).
  { rewrite <- (Qfloor_Z k). now apply Qfloor_resp_le. }
  destruct (Qlt_bool (q - inject_Z (Qfloor q)) (1 # 2)) eqn:E1; [exact Hf|].
  apply Qlt_bool_false in E1.
  assert (Hlt : (Qfloor q < k)%Z).
  { rewrite Zlt_Qlt. lra. }
  destruct (Qlt_bool _ _); [lia|]. destruct (Z.even _); lia.
Qed.

Lemma round1_at_most (p : pyfloat) :
  number_at_most 100 p -> number_at_most 100 (round1 p).
Proof.
  intros [x [-> Hx]]. unfold round1. eexists. split; [reflexivity|].
  rewrite Qred_correct.
  assert (H : (rint (x * 10) <= 1000)%Z).
  { apply rint_at_most. change (inject_Z 1000) with 1000%Q. lra. }
  rewrite Zle_Qle in H. change (inject_Z 1000) with 1000%Q in H.
  apply Qle_shift_div_r; lra.
Qed.

(** *** The blocks of the stabilization loop *)

Import Stabilization.

Lemma set_heater_range_name_connected (ch : output_channel) (name : string)
    (r : HeaterRangeValues) (s : Instrument) :
  connected s = true -> HeaterRangeValues_item (upper name) = Ok r ->
  set_heater_range (RangeName name) ch s = (Ok tt, receive_heater_range ch r s).
Proof.
  intros Hc Hn.
  unfold set_heater_range, bind, ret, lift, quick_write_heater_range.
  rewrite Hn, Hc. now rewrite (proj1 (range_roundtrip r)).
Qed.

Lemma set_heater_range_closed (ch : output_channel) (v : range_arg)
    (s : Instrument) :
  connected s = false -> snd (set_heater_range v ch s) = s.
Proof.
  intros Hc. unfold set_heater_range, bind, ret, lift, quick_write_heater_range.
  destruct v as [name|n|r]; [destruct (HeaterRangeValues_item (upper name))| |];
    cbn [snd]; now rewrite ?Hc.
Qed.

Lemma set_heater_range_result (ch : output_channel) (name : string)
    (s : Instrument) :
  fst (set_heater_range (RangeName name) ch s)
    = match HeaterRangeValues_item (upper name) with
      | Ok _ => Ok tt
      | Raise e => Raise e
      end.
Proof.
  unfold set_heater_range, bind, ret, lift, quick_write_heater_range.
  now destruct (HeaterRangeValues_item (upper name)).
Qed.

(** The block writes the baseline with the range OFF, then restores the
    range when its name is one. *)
Lemma write_baseline_connected (baseline : pyfloat) (name : string)
    (s : Instrument) :
  connected s = true ->
  write_baseline baseline name s
    = let s2 := receive_manual_output COLD_HEAD_OUT_CHANNEL baseline
                  (receive_heater_range COLD_HEAD_OUT_CHANNEL OFF s) in
      match HeaterRangeValues_item (upper name) with
      | Ok r => (Ok tt, receive_heater_range COLD_HEAD_OUT_CHANNEL r s2)
      | Raise e => (Raise e, s2)
      end.
Proof.
  intros Hc. unfold write_baseline, set_cold_head_heater_range,
    set_cold_head_manual_output.
  unfold bind at 1.
  rewrite (set_heater_range_name_connected _ "off" OFF s Hc item_off).
  cbv beta iota. unfold bind, quick_write_manual_output.
  rewrite connected_receive_range, Hc. cbv beta iota zeta.
  destruct (HeaterRangeValues_item (upper name)) as [r|e] eqn:E.
  - apply set_heater_range_name_connected; [|exact E].
    now rewrite connected_receive_output, connected_receive_range.
  - unfold set_heater_range, bind, lift. now rewrite E.
Qed.

Lemma write_baseline_closed (baseline : pyfloat) (name : string)
    (s : Instrument) :
  connected s = false -> snd (write_baseline baseline name s) = s.
Proof.
  intros Hc. unfold write_baseline, set_cold_head_heater_range,
    set_cold_head_manual_output, bind.
  pose proof (set_heater_range_closed COLD_HEAD_OUT_CHANNEL (RangeName "off")
                s Hc) as H1.
  destruct (set_heater_range (RangeName "off") COLD_HEAD_OUT_CHANNEL s)
    as [[u|e] s1]; cbn [snd] in H1; subst s1; [|reflexivity].
  unfold quick_write_manual_output. rewrite Hc.
  apply set_heater_range_closed. exact Hc.
Qed.

Lemma write_baseline_within_ceiling (baseline : pyfloat) (name : string)
    (s : Instrument) :
  le baseline (of_Z 100) ->
  exists new,
    written (snd (write_baseline baseline name s)) = (new ++ written s)%list
    /\ Forall within_ceiling new.
Proof.
  intros Hb. destruct (connected s) eqn:Hc.
  - rewrite (write_baseline_connected baseline name s Hc). cbv zeta.
    destruct (HeaterRangeValues_item (upper name)) as [r|e]; cbn [snd];
      repeat first [rewrite written_receive_output | rewrite written_receive_range];
      cbn [heater_range receive_heater_range cold_head_heater_range].
    + exists [WroteHeaterRange COLD_HEAD_OUT_CHANNEL r;
              WroteManualOutput COLD_HEAD_OUT_CHANNEL baseline OFF;
              WroteHeaterRange COLD_HEAD_OUT_CHANNEL OFF].
      split; [reflexivity|]. repeat constructor. exact Hb.
    + exists [WroteManualOutput COLD_HEAD_OUT_CHANNEL baseline OFF;
              WroteHeaterRange COLD_HEAD_OUT_CHANNEL OFF].
      split; [reflexivity|]. repeat constructor. exact Hb.
  - rewrite (write_baseline_closed baseline name s Hc).
    exists []. split; [reflexivity | constructor].
Qed.

(** A step of the stabilization that starts with the manual output
    within the ceiling of the active range writes within that ceiling. *)
Lemma attempt_stabilization_within_ceiling (s : Instrument)
    (target_pressure : pyfloat) (pressure_data : list pyfloat) (x : Q) :
  cold_head_manual_output s = Fin x ->
  (x <= inject_Z (HeaterMaxPercent (cold_head_heater_range s)))%Q ->
  exists new,
    written (snd (attempt_stabilization_by_pressure target_pressure
                    pressure_data s)) = (new ++ written s)%list
    /\ Forall within_ceiling new.
Proof.
  intros Hx Hle. destruct (connected s) eqn:Hc.
  - destruct (attempt_stabilization_connected s target_pressure
                pressure_data x Hc Hx) as [v [-> Hv]].
    cbn [snd]. rewrite written_receive_output.
    exists [WroteManualOutput COLD_HEAD_OUT_CHANNEL (Fin v)
              (heater_range COLD_HEAD_OUT_CHANNEL s)].
    split; [reflexivity|]. repeat constructor.
    cbn [within_ceiling heater_range le of_Z].
    assert (H0 : (0 <= inject_Z (HeaterMaxPercent (cold_head_heater_range s)))%Q).
    { destruct (cold_head_heater_range s); vm_compute; discriminate. }
    destruct (lt (mean pressure_data) target_pressure);
      destruct Hv as [[Hv ?]|[Hv ?]]; rewrite Hv; lra.
  - rewrite attempt_stabilization_closed by assumption.
    exists []. split; [reflexivity | constructor].
Qed.

(** The iterations of the stabilization loop on a closed session change
    nothing: each reads NaN and its write is dropped. *)
Lemma stabilization_iterations_closed (readings : list (pyfloat * pyfloat)) :
  forall (pressure_data : list pyfloat) (s : Instrument),
    connected s = false ->
    snd (stabilization_iterations readings pressure_data s) = s.
Proof.
  induction readings as [|[p t] rest IH]; intros data s Hc; [reflexivity|].
  simpl. unfold stabilization_iteration.
  destruct (push_sample 5 data p) as [data'|e]; [|now apply IH].
  unfold try_except. rewrite attempt_stabilization_closed by assumption.
  cbn [snd]. now apply IH.
Qed.

(** The ten readings at the start of the loop read what the instrument
    shows, write nothing and leave the session closed. *)
Lemma sample_heater_percentage_reads (percentages : list pyfloat) :
  forall (acc : list pyfloat) (s : Instrument),
  exists s',
    sample_heater_percentage percentages acc s = (Ok (acc ++ percentages)%list, s')
    /\ written s' = written s
    /\ cold_head_heater_range s' = cold_head_heater_range s.
Proof.
  induction percentages as [|p rest IH]; intros acc s.
  - exists s. simpl. rewrite app_nil_r. repeat split.
  - cbn [sample_heater_percentage]. unfold bind at 1. cbv beta iota.
    unfold bind at 1. unfold connect at 1. cbv beta iota.
    unfold bind at 1. unfold get_cold_head_heater_percentage, quick_query.
    cbn [connected with_connected with_cold_head_heater_percentage
           cold_head_heater_percentage].
    unfold bind at 1. unfold disconnect at 1. cbv beta iota.
    match goal with
    | |- context [sample_heater_percentage rest ?a ?s1] =>
        destruct (IH a s1) as [s' [E [Hw Hr]]]
    end.
    exists s'. rewrite E. rewrite <- app_assoc. repeat split; assumption.
Qed.

Lemma get_cold_range_connected (s : Instrument) :
  connected s = true ->
  get_cold_head_heater_range s
    = (Ok (title (range_name (cold_head_heater_range s))), s).
Proof.
  intros Hc. unfold get_cold_head_heater_range, bind, quick_query, lift.
  rewrite Hc. now rewrite (proj1 (range_roundtrip _)).
Qed.

Lemma ten_readings (percentages : list pyfloat) :
  List.length percentages = 10%nat ->
  List.map (fun i => nth i percentages NaN) (seq 0 10) = percentages.
Proof.
  intros H.
  do 11 (destruct percentages as [|? percentages]; try discriminate H).
  reflexivity.
Qed.

(** The whole stabilization loop, run alone: with ten heater percentages
    that are numbers at most 100, it writes the baseline twice, each time
    with the range OFF, and every manual output it writes is within the
    ceiling of the range active at the write.  Its iterations run on the
    session the first block has closed and write nothing. *)
Lemma stabilization_loop_within_ceiling (percentages : list pyfloat)
    (first_pressure : pyfloat) (readings : list (pyfloat * pyfloat))
    (s : Instrument) :
  List.length percentages = 10%nat ->
  Forall (number_at_most 100) percentages ->
  let r := cold_head_heater_range s in
  let baseline := round1 (mean percentages) in
  let block := [WroteHeaterRange COLD_HEAD_OUT_CHANNEL r;
                WroteManualOutput COLD_HEAD_OUT_CHANNEL baseline OFF;
                WroteHeaterRange COLD_HEAD_OUT_CHANNEL OFF] in
  fst (stabilization_loop percentages first_pressure readings s) = Ok tt
  /\ written (snd (stabilization_loop percentages first_pressure readings s))
     = (block ++ block ++ written s)%list
  /\ Forall within_ceiling (block ++ block).
Proof.
  intros Hlen Hall. cbv zeta.
  assert (Hb : le (round1 (mean percentages)) (of_Z 100)).
  { destruct (round1_at_most (mean percentages)) as [v [-> Hv]].
    - apply mean_at_most; [|exact Hall].
      destruct percentages; [discriminate Hlen | discriminate].
    - exact Hv. }
  destruct (sample_heater_percentage_reads percentages [] s)
    as [s1 [E [Hw1 Hr1]]].
  eassert (Run : stabilization_loop percentages first_pressure readings s
                 = (Ok tt, _)).
  { unfold stabilization_loop. rewrite (ten_readings _ Hlen).
    unfold bind at 1. rewrite E. cbv beta iota. cbn [app].
    unfold bind at 1. unfold connect at 1. cbv beta iota.
    unfold bind at 1. rewrite get_cold_range_connected by reflexivity.
    cbv beta iota.
    unfold bind at 1. rewrite write_baseline_connected by reflexivity.
    cbv zeta. rewrite (proj2 (range_roundtrip _)). cbv beta iota.
    unfold bind at 1. unfold disconnect at 1. cbv beta iota.
    unfold bind at 1.
    rewrite stabilization_iterations_closed by reflexivity. cbv beta iota.
    unfold bind at 1. unfold connect at 1. cbv beta iota.
    unfold bind at 1. rewrite write_baseline_connected by reflexivity.
    cbv zeta. rewrite (proj2 (range_roundtrip _)). cbv beta iota.
    unfold disconnect. reflexivity. }
  rewrite Run. cbn [fst snd].
  split; [reflexivity|]. split.
  - cbn [written with_connected heater_range cold_head_heater_range
           receive_heater_range receive_manual_output].
    rewrite Hw1, Hr1. reflexivity.
  - repeat constructor; exact Hb.
Qed.

(** C1, as the code has it.  Within one step the ceiling is respected
    when the step starts within it: a warm-up step, and a stabilization
    step, that starts with the manual output at or below the ceiling of
    the active range writes no manual output above the ceiling of the range
    active at the write; the block that sets the baseline at the start and
    at the end of the stabilization loop writes it with the range OFF,
    within the ceiling 100 when the baseline is at most 100, as it is when
    the ten heater percentages read are numbers at most 100. *)
Theorem writes_within_ceiling_in_one_step (s : Instrument)
    (target_temperature : pyfloat) (temperature_data : list pyfloat)
    (target_pressure : pyfloat) (pressure_data : list pyfloat)
    (percentages : list pyfloat) (first_pressure : pyfloat)
    (readings : list (pyfloat * pyfloat)) (name : string) (q1 q2 : Q) :
  sample_space_manual_output s = Fin q2 ->
  (q2 <= inject_Z (HeaterMaxPercent (sample_space_heater_range s)))%Q ->
  cold_head_manual_output s = Fin q1 ->
  (q1 <= inject_Z (HeaterMaxPercent (cold_head_heater_range s)))%Q ->
  List.length percentages = 10%nat ->
  Forall (number_at_most 100) percentages ->
  let within (s' : Instrument) :=
    exists new, written s' = (new ++ written s)%list
                /\ Forall within_ceiling new in
  within (snd (check_warmup_heater_status target_temperature
                 temperature_data s))
  /\ within (snd (attempt_stabilization_by_pressure target_pressure
                    pressure_data s))
  /\ within (snd (write_baseline (round1 (mean percentages)) name s))
  /\ within (snd (stabilization_loop percentages first_pressure readings s)).
Proof.
  intros Hq2 Hle2 Hq1 Hle1 Hlen Hall. cbv zeta.
  split; [exact (check_warmup_within_ceiling s _ _ q2 Hq2 Hle2)|].
  split; [exact (attempt_stabilization_within_ceiling s _ _ q1 Hq1 Hle1)|].
  split.
  - apply write_baseline_within_ceiling.
    destruct (round1_at_most (mean percentages)) as [v [-> Hv]]; [|exact Hv].
    apply mean_at_most; [|exact Hall].
    destruct percentages; [discriminate Hlen | discriminate].
  - destruct (stabilization_loop_within_ceiling percentages first_pressure
                readings s Hlen Hall) as (_ & Hw & Hf).
    eexists. split; [|exact Hf]. rewrite Hw. now rewrite app_assoc.
Qed.

End WarmupFacts.

(** ** Starting and stopping *)

Section StartStop.
Import TemperatureController Threads Calls.

(** No call of [start_pressure_stabilization] or
    [stop_pressure_stabilization] sets [stop_stabilization_event] when it
    is [None]: each raises and changes nothing. *)
Lemma stabilization_call_raises (c : call) (w : World) :
  on_stabilization c = true -> stop_stabilization_event w = None ->
  exists attr, perform c w = (Raise (AttributeError attr), w).
Proof.
  intros Hc Hn. destruct c; try discriminate Hc.
  - exists "is_set". unfold perform, start_pressure_stabilization, bind, gets,
      is_set. now rewrite Hn.
  - exists "set". unfold perform, stop_pressure_stabilization, bind, gets,
      event_set. now rewrite Hn.
Qed.

Lemma stabilization_calls_raise (calls : list call) :
  forall w : World,
    forallb on_stabilization calls = true ->
    stop_stabilization_event w = None ->
    snd (perform_all calls w) = w
    /\ Forall (fun r => is_ok r = false) (fst (perform_all calls w)).
Proof.
  induction calls as [|c rest IH]; intros w Hall Hn.
  - split; [reflexivity | constructor].
  - simpl in Hall. apply andb_true_iff in Hall. destruct Hall as [Hc Hrest].
    destruct (stabilization_call_raises c w Hc Hn) as [attr E].
    cbn [perform_all]. rewrite E.
    destruct (IH w Hrest Hn) as [Hw Hr].
    destruct (perform_all rest w) as [rs w'']. cbn [fst snd] in *.
    split; [exact Hw|]. constructor; [reflexivity | exact Hr].
Qed.

(** After a start of the warm-up, two stops in a row do not raise, and
    on an open session they leave the sample-space heater OFF at 0. *)
Lemma stop_warmup_twice (w : World) (e : nat) :
  stop_warmup_event w = Some e ->
  let w1 := snd (stop_sample_space_warmup w) in
  let w2 := snd (stop_sample_space_warmup w1) in
  fst (stop_sample_space_warmup w) = Ok tt
  /\ fst (stop_sample_space_warmup w1) = Ok tt
  /\ (connected (instrument w) = true ->
      sample_space_heater_range (instrument w2) = OFF
      /\ sample_space_manual_output (instrument w2) = of_Z 0).
Proof.
  intros He.
  assert (Stop : forall w0 : World,
             stop_warmup_event w0 = Some e ->
             exists w0',
               stop_sample_space_warmup w0 = (Ok tt, w0')
               /\ stop_warmup_event w0' = Some e
               /\ connected (instrument w0') = connected (instrument w0)
               /\ (connected (instrument w0) = true ->
                   sample_space_heater_range (instrument w0') = OFF
                   /\ sample_space_manual_output (instrument w0') = of_Z 0)).
  { intros w0 H0.
    unfold stop_sample_space_warmup, bind, gets, event_set, on_instrument.
    rewrite H0. cbn [instrument].
    unfold set_sample_space_manual_output, quick_write_manual_output.
    cbn [instrument].
    destruct (connected (instrument w0)) eqn:Hc.
    - rewrite (set_range_name_connected "off" OFF) by
        (first [now rewrite connected_receive_output | exact item_off]).
      eexists. split; [reflexivity|]. cbn [instrument stop_warmup_event].
      rewrite connected_receive_range, connected_receive_output.
      split; [first [exact H0 | reflexivity]|].
      split; [first [reflexivity | assumption]|]. intros _. split; reflexivity.
    - pose proof (set_heater_range_closed SAMPLE_SPACE_OUT_CHANNEL
                    (RangeName "off") (instrument w0) Hc) as Hs.
      pose proof (set_heater_range_result SAMPLE_SPACE_OUT_CHANNEL "off"
                    (instrument w0)) as Hres.
      rewrite item_off in Hres.
      unfold set_sample_space_heater_range.
      destruct (set_heater_range (RangeName "off") SAMPLE_SPACE_OUT_CHANNEL
                  (instrument w0)) as [res s']. cbn [fst snd] in *. subst.
      eexists. split; [reflexivity|]. cbn [instrument stop_warmup_event].
      split; [first [exact H0 | reflexivity]|].
      split; [first [reflexivity | assumption]|]. intros Habs.
      first [discriminate Habs | rewrite Hc in Habs; discriminate Habs]. }
  cbv zeta.
  destruct (Stop w He) as (w1 & E1 & He1 & Hc1 & Hoff1). rewrite E1.
  cbn [fst snd].
  destruct (Stop w1 He1) as (w2 & E2 & He2 & Hc2 & Hoff2). rewrite E2.
  cbn [fst snd].
  split; [reflexivity|]. split; [reflexivity|].
  intros Hc. apply Hoff2. congruence.
Qed.

(** C4, where the code departs from it: on the objects as constructed
    [stop_stabilization_event] is [None], so [start_pressure_stabilization]
    raises [AttributeError], the first time and every time after, as does
    [stop_pressure_stabilization]; nothing is started.  A stop of the
    warm-up before any start raises in the same way. *)
Theorem start_stop_stabilization_raise (s : Instrument) (calls : list call) :
  start_pressure_stabilization (fresh s)
    = (Raise (AttributeError "is_set"), fresh s)
  /\ start_pressure_stabilization
       (snd (start_pressure_stabilization (fresh s)))
     = (Raise (AttributeError "is_set"), fresh s)
  /\ stop_pressure_stabilization (fresh s) = (Raise (AttributeError "set"), fresh s)
  /\ stop_sample_space_warmup (fresh s) = (Raise (AttributeError "set"), fresh s)
  /\ (let calls' := List.filter on_stabilization calls in
      snd (perform_all calls' (fresh s)) = fresh s
      /\ Forall (fun r => is_ok r = false) (fst (perform_all calls' (fresh s)))).
Proof.
  repeat split.
  - apply (stabilization_calls_raise (List.filter on_stabilization calls));
      [|reflexivity].
    apply forallb_forall. intros c Hc. apply filter_In in Hc. tauto.
  - apply (stabilization_calls_raise (List.filter on_stabilization calls));
      [|reflexivity].
    apply forallb_forall. intros c Hc. apply filter_In in Hc. tauto.
Qed.

(** The warm-up pair alone behaves as C4 says once it has been started. *)
Lemma start_then_stop_warmup_twice (w : World) :
  let w0 := snd (start_sample_space_warmup w) in
  let w1 := snd (stop_sample_space_warmup w0) in
  let w2 := snd (stop_sample_space_warmup w1) in
  fst (start_sample_space_warmup w) = Ok tt
  /\ fst (stop_sample_space_warmup w0) = Ok tt
  /\ fst (stop_sample_space_warmup w1) = Ok tt
  /\ (connected (instrument w) = true ->
      sample_space_heater_range (instrument w2) = OFF
      /\ sample_space_manual_output (instrument w2) = of_Z 0).
Proof.
  cbv zeta. split; [reflexivity|].
  apply (stop_warmup_twice (snd (start_sample_space_warmup w))
           (List.length (events w))).
  reflexivity.
Qed.

End StartStop.

(** ** The theorems at concrete inputs *)

Section Instances.
Import Session TemperatureController Stabilization.

Lemma closed_session_returns_empty_witness :
  let m := Examples.channel "GPIB0::12::INSTR" "LSCI,MODEL335" "MODEL335" in
  is_connected m = false
  /\ safe_write "KRDG? B" None None m = (Ok tt, m)
  /\ safe_read None None true true m = (Ok "", m)
  /\ safe_query "KRDG? B" None true m = (Ok "", m).
Proof.
  split; [reflexivity|].
  exact (closed_session_returns_empty
           (Examples.channel "GPIB0::12::INSTR" "LSCI,MODEL335" "MODEL335")
           "KRDG? B" None None None true true eq_refl).
Defined.



Lemma writes_within_ceiling_in_one_step_witness :
  let s := Examples.controller MEDIUM 40 LOW 80 in
  let percentages := repeat (Fin 36) 10 in
  let within (s' : Instrument) :=
    exists new, written s' = (new ++ written s)%list
                /\ Forall within_ceiling new in
  (sample_space_manual_output s = Fin 80
   /\ (80 <= inject_Z (HeaterMaxPercent (sample_space_heater_range s)))%Q
   /\ cold_head_manual_output s = Fin 40
   /\ (40 <= inject_Z (HeaterMaxPercent (cold_head_heater_range s)))%Q
   /\ List.length percentages = 10%nat
   /\ Forall (number_at_most 100) percentages)
  /\ within (snd (check_warmup_heater_status (of_Z 255)
                    [of_Z 255; of_Z 254] s))
  /\ within (snd (attempt_stabilization_by_pressure (Fin (17 # 10))
                    [of_Z 2] s))
  /\ within (snd (write_baseline (round1 (mean percentages)) "Medium" s))
  /\ within (snd (stabilization_loop percentages (of_Z 2)
                    [(of_Z 2, Fin (17 # 10))] s)).
Proof.
  cbv zeta.
  assert (H80 : (80 <= inject_Z (HeaterMaxPercent LOW))%Q)
    by (unfold Qle; simpl; lia).
  assert (H40 : (40 <= inject_Z (HeaterMaxPercent MEDIUM))%Q)
    by (unfold Qle; simpl; lia).
  assert (Hall : Forall (number_at_most 100) (repeat (Fin 36) 10)).
  { apply Forall_forall. intros p Hp. apply repeat_spec in Hp. subst p.
    exists 36%Q. split; [reflexivity|]. unfold Qle; simpl; lia. }
  split; [repeat split; assumption|].
  exact (writes_within_ceiling_in_one_step
           (Examples.controller MEDIUM 40 LOW 80) (of_Z 255)
           [of_Z 255; of_Z 254] (Fin (17 # 10)) [of_Z 2]
           (repeat (Fin 36) 10) (of_Z 2) [(of_Z 2, Fin (17 # 10))] "Medium"
           40 80 eq_refl H80 eq_refl H40 eq_refl Hall).
Defined.

End Instances.

(** * Further properties of the code *)

(** ** What each controller leaves alone *)

Section Frames.
Import TemperatureController Stabilization.

Lemma sample_space_only_refl (s : Instrument) : sample_space_only s s.
Proof.
  repeat split. exists []. split; [reflexivity | constructor].
Qed.

Lemma sample_space_only_trans (a b c : Instrument) :
  sample_space_only a b -> sample_space_only b c -> sample_space_only a c.
Proof.
  intros (H1 & H2 & H3 & H4 & H5 & n1 & Hw1 & Hf1)
         (K1 & K2 & K3 & K4 & K5 & n2 & Hw2 & Hf2).
  repeat split; try congruence.
  exists (n2 ++ n1)%list. split.
  - rewrite Hw2, Hw1. now rewrite app_assoc.
  - apply Forall_app. split; assumption.
Qed.

Lemma kss_ret {A} (a : A) : keeps_to_sample_space (ret a).
Proof. intros s. apply sample_space_only_refl. Qed.

Lemma kss_lift {A} (r : result A) : keeps_to_sample_space (lift r).
Proof. intros s. apply sample_space_only_refl. Qed.

Lemma kss_bind {A B} (c : M Instrument A) (k : A -> M Instrument B) :
  keeps_to_sample_space c -> (forall a, keeps_to_sample_space (k a)) ->
  keeps_to_sample_space (bind c k).
Proof.
  intros Hc Hk s. unfold bind. specialize (Hc s).
  destruct (c s) as [[a|e] s1]; cbn [snd] in *; [|exact Hc].
  eapply sample_space_only_trans; [exact Hc | apply Hk].
Qed.

Lemma kss_query (reading : Instrument -> pyfloat) :
  keeps_to_sample_space (quick_query reading).
Proof. intros s. apply sample_space_only_refl. Qed.

Lemma kss_get_range : keeps_to_sample_space get_sample_space_heater_range.
Proof.
  apply kss_bind; [apply kss_query|]. intros a.
  apply kss_bind; [apply kss_lift | intros; apply kss_ret].
Qed.

Lemma kss_set_output (v : pyfloat) :
  keeps_to_sample_space (set_sample_space_manual_output v).
Proof.
  intros s. unfold set_sample_space_manual_output, quick_write_manual_output.
  cbn [snd]. destruct (connected s) eqn:Hc; [|apply sample_space_only_refl].
  repeat split; try assumption.
  exists [WroteManualOutput SAMPLE_SPACE_OUT_CHANNEL v
            (sample_space_heater_range s)].
  split; [reflexivity|]. repeat constructor.
Qed.

Lemma kss_write_range (n : Z) :
  keeps_to_sample_space (quick_write_heater_range n SAMPLE_SPACE_OUT_CHANNEL).
Proof.
  intros s. unfold quick_write_heater_range. cbn [snd].
  destruct (connected s) eqn:Hc; [|apply sample_space_only_refl].
  destruct (HeaterRangeValues_call (of_Z n)) as [r|e];
    [|apply sample_space_only_refl].
  repeat split; try assumption.
  exists [WroteHeaterRange SAMPLE_SPACE_OUT_CHANNEL r].
  split; [reflexivity|]. repeat constructor.
Qed.

Lemma kss_set_range (v : range_arg) :
  keeps_to_sample_space (set_sample_space_heater_range v).
Proof.
  unfold set_sample_space_heater_range, set_heater_range.
  apply kss_bind; [|intros; apply kss_write_range].
  destruct v as [name|n|r]; try apply kss_ret.
  apply kss_bind; [apply kss_lift | intros; apply kss_ret].
Qed.

Lemma kss_check (target : pyfloat) (data : list pyfloat) :
  keeps_to_sample_space (check_warmup_heater_status target data).
Proof.
  unfold check_warmup_heater_status.
  apply kss_bind; [apply kss_get_range|]. intros name.
  apply kss_bind; [apply kss_lift|]. intros r.
  apply kss_bind; [apply kss_query|]. intros out.
  apply kss_bind; [apply kss_lift|]. intros latest.
  repeat match goal with
         | |- keeps_to_sample_space (if ?b then _ else _) => destruct b
         | |- keeps_to_sample_space (bind _ _) => apply kss_bind; [|intros]
         | |- keeps_to_sample_space (ret _) => apply kss_ret
         | |- keeps_to_sample_space (lift _) => apply kss_lift
         | |- keeps_to_sample_space (set_sample_space_manual_output _) =>
             apply kss_set_output
         | |- keeps_to_sample_space (set_sample_space_heater_range _) =>
             apply kss_set_range
         end.
Qed.

(** X1. A warm-up step, whatever it decides and whether or not it
    raises, leaves the session, the readings and the cold-head heater as
    they were, and writes to the sample-space output only; so does a whole
    iteration of the warm-up loop. *)
Theorem warmup_step_keeps_to_sample_space (target : pyfloat)
    (data : list pyfloat) (s : Instrument) :
  sample_space_only s (snd (check_warmup_heater_status target data s))
  /\ sample_space_only s (snd (warmup_iteration target data s)).
Proof.
  split; [apply kss_check|].
  unfold warmup_iteration, get_sample_space_temperature, quick_query.
  destruct (push_sample 5 data _); [|apply sample_space_only_refl].
  unfold try_except. cbn [snd]. apply kss_check.
Qed.

Lemma cold_head_output_only_refl (s : Instrument) : cold_head_output_only s s.
Proof.
  repeat split. exists []. split; [reflexivity | constructor].
Qed.

Lemma cold_head_output_only_trans (a b c : Instrument) :
  cold_head_output_only a b -> cold_head_output_only b c ->
  cold_head_output_only a c.
Proof.
  intros (H1 & H2 & H3 & H4 & H5 & H6 & n1 & Hw1 & Hf1)
         (K1 & K2 & K3 & K4 & K5 & K6 & n2 & Hw2 & Hf2).
  repeat split; try congruence.
  exists (n2 ++ n1)%list. split.
  - rewrite Hw2, Hw1. now rewrite app_assoc.
  - apply Forall_app. split; assumption.
Qed.

Lemma attempt_cold_head_output_only (target_pressure : pyfloat)
    (pressure_data : list pyfloat) (s : Instrument) :
  cold_head_output_only s
    (snd (attempt_stabilization_by_pressure target_pressure pressure_data s)).
Proof.
  unfold attempt_stabilization_by_pressure.
  destruct (lt (mean pressure_data) target_pressure);
    unfold bind, get_cold_head_manual_output, quick_query,
      set_cold_head_manual_output, quick_write_manual_output;
    cbn [snd]; (destruct (connected s) eqn:Hc;
                [|apply cold_head_output_only_refl]).
  all: repeat split; try assumption.
  all: eexists [WroteManualOutput COLD_HEAD_OUT_CHANNEL _ _].
  all: split; [reflexivity|]; repeat constructor.
Qed.

Lemma iterations_cold_head_output_only
    (readings : list (pyfloat * pyfloat)) :
  forall (pressure_data : list pyfloat) (s : Instrument),
    cold_head_output_only s
      (snd (stabilization_iterations readings pressure_data s)).
Proof.
  induction readings as [|[p t] rest IH]; intros data s.
  - apply cold_head_output_only_refl.
  - simpl. unfold stabilization_iteration.
    destruct (push_sample 5 data p) as [data'|e]; [|apply IH].
    unfold try_except. cbn [snd].
    eapply cold_head_output_only_trans;
      [apply attempt_cold_head_output_only | apply IH].
Qed.

(** X2. A stabilization step, and any run of iterations of the
    stabilization loop, changes no heater range and nothing of the
    sample-space heater: it leaves the session and the readings as they
    were and makes manual-output writes to the cold-head output only. *)
Theorem stabilization_keeps_to_cold_head_output (target_pressure : pyfloat)
    (pressure_data : list pyfloat) (readings : list (pyfloat * pyfloat))
    (s : Instrument) :
  cold_head_output_only s
    (snd (attempt_stabilization_by_pressure target_pressure pressure_data s))
  /\ cold_head_output_only s
       (snd (stabilization_iterations readings pressure_data s)).
Proof.
  split; [apply attempt_cold_head_output_only
         | apply iterations_cold_head_output_only].
Qed.

End Frames.

(** ** The warm-up controller over its whole range *)

Section WarmupRuns.
Import TemperatureController.

Ltac still_connected :=
  rewrite ?connected_receive_output, ?connected_receive_range; assumption.

Ltac run_writes :=
  repeat first
    [ rewrite set_output_connected by still_connected
    | rewrite (set_range_name_connected "High" HIGH) by
        (first [still_connected | exact item_high])
    | rewrite (set_range_name_connected "Low" LOW) by
        (first [still_connected | exact item_low])
    | rewrite set_range_member_connected by still_connected
    | progress cbv beta iota ];
  cbn [snd fst heater_range];
  repeat first
    [ rewrite written_receive_output | rewrite written_receive_range
    | rewrite range_receive_range | rewrite range_receive_output
    | rewrite output_receive_output | rewrite output_receive_range
    | rewrite connected_receive_output | rewrite connected_receive_range ];
  cbn [heater_range].

Ltac read_phase Hc Hr Hq :=
  unfold check_warmup_heater_status;
  unfold bind at 1; rewrite (get_range_connected _ Hc); cbv beta iota;
  unfold bind at 1; unfold lift at 1; rewrite Hr;
  rewrite (proj2 (range_roundtrip _)); cbv beta iota;
  unfold bind at 1; rewrite (get_output_connected _ Hc), Hq; cbv beta iota;
  unfold bind at 1; unfold lift at 1.

Ltac read_phase_any Hc Hq :=
  unfold check_warmup_heater_status;
  unfold bind at 1; rewrite (get_range_connected _ Hc); cbv beta iota;
  unfold bind at 1; unfold lift at 1;
  rewrite (proj2 (range_roundtrip _)); cbv beta iota;
  unfold bind at 1; rewrite (get_output_connected _ Hc), Hq; cbv beta iota;
  unfold bind at 1; unfold lift at 1.

Ltac compute_ranges :=
  cbn [range_eqb range_value Z.eqb Pos.eqb negb];
  repeat match goal with
         | |- context [HeaterRangeValues_call ?x] =>
             let v := eval vm_compute in (HeaterRangeValues_call x) in
             change (HeaterRangeValues_call x) with v
         end.

Ltac fin_value :=
  unfold max, min, gt, lt, sub, add, neg, of_Z,
    STARTING_HEATER_MIN_PERCENT, HeaterMaxPercent in *;
  repeat match goal with
         | |- context [Qlt_bool ?a ?b] => destruct (Qlt_bool a b) eqn:?
         end;
  eexists; (split; [reflexivity|]); float_arith.

Lemma check_output_between (s : Instrument) (target : pyfloat)
    (data : list pyfloat) (q : Q) :
  sample_space_manual_output s = Fin q -> (0 <= q <= 100)%Q ->
  sample_space_output_between 0 100 s
    (snd (check_warmup_heater_status target data s)).
Proof.
  intros Hq Hle.
  assert (Same : sample_space_output_between 0 100 s s).
  { split; [exists q; split; assumption|]. split; [reflexivity|].
    exists []. split; [reflexivity | constructor]. }
  destruct (connected s) eqn:Hc.
  2:{ unfold check_warmup_heater_status. unfold bind at 1.
      rewrite (get_range_closed _ Hc). exact Same. }
  destruct (sample_space_heater_range s) eqn:Hr.
  all: read_phase Hc Hr Hq.
  all: destruct (last_item data) as [latest|e]; [|exact Same].
  all: cbv beta iota.
  all: generalize (mean_temp_diff_per_minute data) as rate; intros rate.
  all: destruct (gt latest (sub target (of_Z 2)));
    [ destruct (gt rate (Fin (1 # 2)) || gt latest (add target (of_Z 2)));
      [| destruct (lt rate (Fin (- (1 # 2))))]
    | destruct (lt rate (of_Z 1)); [| destruct (gt rate (of_Z 3))] ].
  all: compute_ranges.
  all: repeat match goal with
              | |- context [if lt ?a ?b then _ else _] =>
                  destruct (lt a b) eqn:?
              | |- context [if gt ?a ?b then _ else _] =>
                  destruct (gt a b) eqn:?
              end.
  all: unfold bind, lift, ret; run_writes; try exact Same.
  all: unfold sample_space_output_between; run_writes.
  all: (split; [|split; [first [reflexivity | exact Hc]|]]).
  all: try match goal with
           | |- exists new, (?a :: ?b :: ?w) = (new ++ ?w)%list /\ _ =>
               exists [a; b]; split; [reflexivity|]
           | |- exists new, (?a :: ?w) = (new ++ ?w)%list /\ _ =>
               exists [a]; split; [reflexivity|]
           end.
  all: repeat first [apply Forall_cons | apply Forall_nil];
    try exact I; cbn [manual_output_between].
  all: fin_value.
Qed.

Lemma iterations_output_between (target : pyfloat) (temperatures : list pyfloat) :
  forall (data : list pyfloat) (s : Instrument) (q : Q),
    sample_space_manual_output s = Fin q -> (0 <= q <= 100)%Q ->
    sample_space_output_between 0 100 s
      (snd (warmup_iterations target temperatures data s)).
Proof.
  induction temperatures as [|t rest IH]; intros data s q Hq Hle.
  - split; [exists q; split; assumption|]. split; [reflexivity|].
    exists []. split; [reflexivity | constructor].
  - cbn [warmup_iterations].
    set (s0 := with_sample_space_temperature s t).
    assert (Step : sample_space_output_between 0 100 s
                     (snd (warmup_iteration target data s0))).
    { unfold warmup_iteration, get_sample_space_temperature, quick_query.
      destruct (push_sample 5 data _).
      - unfold try_except. cbn [snd].
        exact (check_output_between s0 target a q Hq Hle).
      - split; [exists q; split; assumption|]. split; [reflexivity|].
        exists []. split; [reflexivity | constructor]. }
    destruct (warmup_iteration target data s0) as [data' s1]. cbn [snd] in Step.
    destruct Step as ((q1 & Hq1 & Hle1) & Hc1 & new1 & Hw1 & Hf1).
    destruct (IH data' s1 q1 Hq1 Hle1) as (Hv & Hc2 & new2 & Hw2 & Hf2).
    split; [exact Hv|]. split; [congruence|].
    exists (new2 ++ new1)%list. split.
    + rewrite Hw2, Hw1. now rewrite app_assoc.
    + apply Forall_app. split; assumption.
Qed.

(** X3. The warm-up controller keeps the manual output a percentage:
    started with the sample-space manual output a number between 0 and
    100, every manual output it writes over any run of the warm-up loop,
    and the output it leaves, is a number between 0 and 100, whatever the
    temperatures read and whether or not the session is open. *)
Theorem warmup_loop_output_is_a_percentage (target first : pyfloat)
    (temperatures : list pyfloat) (s : Instrument) (q : Q) :
  sample_space_manual_output s = Fin q -> (0 <= q <= 100)%Q ->
  sample_space_output_between 0 100 s
    (snd (warmup_loop target first temperatures s)).
Proof.
  intros Hq Hle. unfold warmup_loop, get_sample_space_temperature, quick_query.
  exact (iterations_output_between target temperatures _
           (with_sample_space_temperature s first) q Hq Hle).
Qed.


(** *** The other branches of the warm-up step *)

Lemma gt_sub_false (a b : Q) (z : Z) :
  (a <= b - inject_Z z)%Q -> gt (Fin a) (sub (Fin b) (of_Z z)) = false.
Proof.
  intros H. unfold gt, lt, sub, add, neg, of_Z. apply Qlt_bool_false.
  repeat rewrite Qred_correct. lra.
Qed.

Lemma gt_sub_true (a b : Q) (z : Z) :
  (b - inject_Z z < a)%Q -> gt (Fin a) (sub (Fin b) (of_Z z)) = true.
Proof.
  intros H. unfold gt, lt, sub, add, neg, of_Z. apply Qlt_bool_true.
  repeat rewrite Qred_correct. lra.
Qed.

Lemma gt_add_iff (a b : Q) (z : Z) :
  gt (Fin a) (add (Fin b) (of_Z z)) = true <-> (b + inject_Z z < a)%Q.
Proof.
  unfold gt, lt, add, of_Z. rewrite Qlt_bool_true, Qred_correct. reflexivity.
Qed.

Lemma lt_fin_iff (a b : Q) : lt (Fin a) (Fin b) = true <-> (a < b)%Q.
Proof. apply Qlt_bool_true. Qed.

Lemma lt_fin_false_iff (a b : Q) : lt (Fin a) (Fin b) = false <-> (b <= a)%Q.
Proof. apply Qlt_bool_false. Qed.

Lemma lt_of_Z_false (a : Q) (z : Z) :
  (inject_Z z <= a)%Q -> lt (Fin a) (of_Z z) = false.
Proof. intros H. unfold lt, of_Z. now apply Qlt_bool_false. Qed.



Section FarBelowNotSlow.

Variable s : Instrument.
Variable data : list pyfloat.
Variables t T m q : Q.
Hypothesis Hc : connected s = true.
Hypothesis Hlast : last_item data = Ok (Fin t).
Hypothesis Hfar : (t <= T - 2)%Q.
Hypothesis Hrate : mean_temp_diff_per_minute data = Fin m.
Hypothesis Hnotslow : (1 <= m)%Q.
Hypothesis Hq : sample_space_manual_output s = Fin q.

Ltac this_branch Hr :=
  read_phase Hc Hr Hq; rewrite Hlast; cbv beta iota;
  rewrite (gt_sub_false t T 2 Hfar), Hrate;
  rewrite (lt_of_Z_false m 1 Hnotslow).





End FarBelowNotSlow.


Section NearTarget.

Variable s : Instrument.
Variable data : list pyfloat.
Variables t T m q : Q.
Hypothesis Hc : connected s = true.
Hypothesis Hlast : last_item data = Ok (Fin t).
Hypothesis Hnear : (T - 2 < t)%Q.
Hypothesis Hrate : mean_temp_diff_per_minute data = Fin m.
Hypothesis Hq : sample_space_manual_output s = Fin q.

Ltac this_branch Hr :=
  read_phase Hc Hr Hq; rewrite Hlast; cbv beta iota;
  rewrite (gt_sub_true t T 2 Hnear), Hrate.

Lemma near_target_reduce :
  ((1 # 2) < m \/ T + 2 < t)%Q ->
  check_warmup_heater_status (Fin T) data s
    = let s1 := receive_manual_output SAMPLE_SPACE_OUT_CHANNEL
                  (max (sub (Fin q) (of_Z 10)) (of_Z 0)) s in
      (Ok tt,
       if range_eqb (sample_space_heater_range s) HIGH then s1
       else receive_heater_range SAMPLE_SPACE_OUT_CHANNEL HIGH s1).
Proof.
  intros H.
  assert (G : gt (Fin m) (Fin (1 # 2)) || gt (Fin t) (add (Fin T) (of_Z 2))
              = true).
  { apply orb_true_iff. destruct H as [H|H].
    - left. now apply (proj2 (lt_fin_iff (1 # 2) m)).
    - right. now apply gt_add_iff. }
  destruct (sample_space_heater_range s) eqn:Hr.
  all: this_branch Hr; rewrite G; compute_ranges; unfold bind, ret;
    run_writes; reflexivity.
Qed.

Lemma near_target_raise :
  (m <= 1 # 2)%Q -> (t <= T + 2)%Q -> (m < - (1 # 2))%Q ->
  check_warmup_heater_status (Fin T) data s
    = let s1 := receive_manual_output SAMPLE_SPACE_OUT_CHANNEL
                  (min (add (Fin q) (of_Z 2)) (of_Z 50)) s in
      (Ok tt,
       if range_eqb (sample_space_heater_range s) HIGH then s1
       else receive_heater_range SAMPLE_SPACE_OUT_CHANNEL HIGH s1).
Proof.
  intros H1 H2 H3.
  assert (G : gt (Fin m) (Fin (1 # 2)) || gt (Fin t) (add (Fin T) (of_Z 2))
              = false).
  { apply orb_false_iff. split.
    - now apply (proj2 (lt_fin_false_iff (1 # 2) m)).
    - destruct (gt (Fin t) (add (Fin T) (of_Z 2))) eqn:E; [|reflexivity].
      apply gt_add_iff in E. change (inject_Z 2) with 2%Q in E. lra. }
  assert (G' : lt (Fin m) (Fin (- (1 # 2))) = true)
    by (now apply lt_fin_iff).
  destruct (sample_space_heater_range s) eqn:Hr.
  all: this_branch Hr; rewrite G, G'; compute_ranges; unfold bind, ret;
    run_writes; reflexivity.
Qed.

Lemma near_target_hold :
  (- (1 # 2) <= m <= 1 # 2)%Q -> (t <= T + 2)%Q ->
  check_warmup_heater_status (Fin T) data s = (Ok tt, s).
Proof.
  intros [H1 H1'] H2.
  assert (G : gt (Fin m) (Fin (1 # 2)) || gt (Fin t) (add (Fin T) (of_Z 2))
              = false).
  { apply orb_false_iff. split.
    - now apply (proj2 (lt_fin_false_iff (1 # 2) m)).
    - destruct (gt (Fin t) (add (Fin T) (of_Z 2))) eqn:E; [|reflexivity].
      apply gt_add_iff in E. change (inject_Z 2) with 2%Q in E. lra. }
  assert (G' : lt (Fin m) (Fin (- (1 # 2))) = false)
    by (now apply lt_fin_false_iff).
  read_phase_any Hc Hq; rewrite Hlast; cbv beta iota;
    rewrite (gt_sub_true t T 2 Hnear), Hrate.
  now rewrite G, G'.
Qed.

End NearTarget.

(** X6. A warm-up step on an open session with the latest temperature
    above the target less 2 K never raises.  With the rate above 0.5
    K/min, or the temperature more than 2 K above the target, it lowers
    the output by 10, not below 0, and leaves the range at HIGH; otherwise
    with the rate below -0.5 it raises the output by 2, not above 50, and
    leaves the range at HIGH; otherwise it changes nothing.  The range is
    written only when it was not HIGH already, and after the output. *)
Theorem warmup_near_target (s : Instrument) (data : list pyfloat)
    (t T m q : Q) :
  connected s = true ->
  last_item data = Ok (Fin t) -> (T - 2 < t)%Q ->
  mean_temp_diff_per_minute data = Fin m ->
  sample_space_manual_output s = Fin q ->
  let res := fst (check_warmup_heater_status (Fin T) data s) in
  let s' := snd (check_warmup_heater_status (Fin T) data s) in
  let range_written :=
    if range_eqb (sample_space_heater_range s) HIGH then []
    else [WroteHeaterRange SAMPLE_SPACE_OUT_CHANNEL HIGH] in
  res = Ok tt
  /\ (((1 # 2) < m \/ T + 2 < t)%Q ->
      sample_space_heater_range s' = HIGH
      /\ (exists v, sample_space_manual_output s' = Fin v
                    /\ ((v == q - 10 /\ 0 <= q - 10)%Q
                        \/ (v == 0 /\ q - 10 < 0)%Q))
      /\ written s'
         = (range_written
              ++ WroteManualOutput SAMPLE_SPACE_OUT_CHANNEL
                   (sample_space_manual_output s')
                   (sample_space_heater_range s) :: written s)%list)
  /\ ((m <= 1 # 2)%Q -> (t <= T + 2)%Q -> (m < - (1 # 2))%Q ->
      sample_space_heater_range s' = HIGH
      /\ (exists v, sample_space_manual_output s' = Fin v
                    /\ ((v == q + 2 /\ q + 2 <= 50)%Q
                        \/ (v == 50 /\ 50 < q + 2)%Q))
      /\ written s'
         = (range_written
              ++ WroteManualOutput SAMPLE_SPACE_OUT_CHANNEL
                   (sample_space_manual_output s')
                   (sample_space_heater_range s) :: written s)%list)
  /\ ((- (1 # 2) <= m <= 1 # 2)%Q -> (t <= T + 2)%Q -> s' = s).
Proof.
  intros Hc Hlast Hnear Hrate Hq. cbv zeta.
  pose proof (near_target_reduce s data t T m q Hc Hlast Hnear Hrate Hq) as R.
  pose proof (near_target_raise s data t T m q Hc Hlast Hnear Hrate Hq) as U.
  pose proof (near_target_hold s data t T m q Hc Hlast Hnear Hrate Hq) as H.
  split.
  { destruct (Qlt_le_dec (1 # 2) m) as [H1|H1]; [now rewrite R by (left; exact H1)|].
    destruct (Qlt_le_dec (T + 2) t) as [H2|H2]; [now rewrite R by (right; exact H2)|].
    destruct (Qlt_le_dec m (- (1 # 2))) as [H3|H3]; [now rewrite U|].
    rewrite H; [reflexivity | split; assumption | assumption]. }
  split; [|split].
  - intros Hor. rewrite (R Hor). cbv zeta. cbn [snd].
    destruct (sample_space_heater_range s) eqn:Hr; cbn [range_eqb range_value Z.eqb Pos.eqb];
      rewrite ?range_receive_range, ?output_receive_range,
        ?written_receive_range, ?range_receive_output, ?output_receive_output,
        ?written_receive_output; cbn [heater_range app]; rewrite ?Hr.
    all: split; [reflexivity|]; split; [|reflexivity].
    all: unfold max, gt, lt, sub, add, neg, of_Z;
      destruct (Qlt_bool _ _) eqn:E; eexists; (split; [reflexivity|]).
    all: first [right; split; [reflexivity|]; float_arith
               | left; split; float_arith].
  - intros H1 H2 H3. rewrite (U H1 H2 H3). cbv zeta. cbn [snd].
    destruct (sample_space_heater_range s) eqn:Hr; cbn [range_eqb range_value Z.eqb Pos.eqb];
      rewrite ?range_receive_range, ?output_receive_range,
        ?written_receive_range, ?range_receive_output, ?output_receive_output,
        ?written_receive_output; cbn [heater_range app]; rewrite ?Hr.
    all: split; [reflexivity|]; split; [|reflexivity].
    all: unfold min, lt, add, of_Z;
      destruct (Qlt_bool _ _) eqn:E; eexists; (split; [reflexivity|]).
    all: first [right; split; [reflexivity|]; float_arith
               | left; split; float_arith].
  - intros H1 H2. now rewrite H.
Qed.

(** *** A window with a reading that is not a number *)

Lemma add_nan_r (a : pyfloat) : add a NaN = NaN.
Proof. now destruct a. Qed.

Lemma sub_nan_l (a : pyfloat) : sub NaN a = NaN.
Proof. reflexivity. Qed.

Lemma sub_nan_r (a : pyfloat) : sub a NaN = NaN.
Proof. unfold sub. cbn [neg]. apply add_nan_r. Qed.

Lemma fold_add_nan (l : list pyfloat) : fold_left add l NaN = NaN.
Proof. induction l as [|a l IH]; [reflexivity | exact IH]. Qed.

Lemma fold_add_in_nan (l : list pyfloat) :
  forall acc, In NaN l -> fold_left add l acc = NaN.
Proof.
  induction l as [|a l IH]; intros acc H; [contradiction|].
  cbn [fold_left]. destruct H as [->|H].
  - rewrite add_nan_r. apply fold_add_nan.
  - now apply IH.
Qed.

Lemma mean_in_nan (l : list pyfloat) : In NaN l -> mean l = NaN.
Proof.
  intros H. destruct l as [|a l]; [contradiction|].
  unfold mean, sum. now rewrite fold_add_in_nan.
Qed.

Lemma diff_in_nan (l : list pyfloat) :
  In NaN l -> (2 <= List.length l)%nat -> In NaN (diff l).
Proof.
  induction l as [|a l IH]; intros H Hlen; [contradiction|].
  destruct l as [|b l]; [simpl in Hlen; lia|].
  cbn [diff]. destruct H as [->|[->|H]].
  - left. apply sub_nan_r.
  - left. apply sub_nan_l.
  - right. apply IH; [right; exact H|].
    destruct l; [contradiction | simpl; lia].
Qed.

Lemma rate_in_nan (data : list pyfloat) :
  In NaN data -> mean_temp_diff_per_minute data = NaN.
Proof.
  intros H. unfold mean_temp_diff_per_minute.
  destruct data as [|a [|b l]]; [contradiction|reflexivity|].
  rewrite mean_in_nan; [reflexivity|].
  apply (in_map neg _ NaN). apply diff_in_nan; [exact H | simpl; lia].
Qed.

(** X7. A reading that is not a number makes the controller hold: when
    any temperature in the window is NaN, as one read on a closed session
    is, the rate is NaN and the step writes nothing and leaves the
    instrument as it was, unless the latest temperature is a number more
    than 2 K above the target. *)
Theorem warmup_holds_on_nan (s : Instrument) (target : pyfloat)
    (data : list pyfloat) :
  In NaN data ->
  (forall latest, last_item data = Ok latest ->
                  gt latest (add target (of_Z 2)) = false) ->
  mean_temp_diff_per_minute data = NaN
  /\ snd (check_warmup_heater_status target data s) = s
  /\ (connected s = true ->
      fst (check_warmup_heater_status target data s) = Ok tt).
Proof.
  intros Hin Hlatest.
  pose proof (rate_in_nan data Hin) as Hrate.
  assert (E : connected s = true ->
              check_warmup_heater_status target data s = (Ok tt, s)).
  { intros Hc. unfold check_warmup_heater_status.
    unfold bind at 1; rewrite (get_range_connected _ Hc); cbv beta iota.
    unfold bind at 1; unfold lift at 1.
    rewrite (proj2 (range_roundtrip _)); cbv beta iota.
    unfold bind at 1; rewrite (get_output_connected _ Hc); cbv beta iota.
    unfold bind at 1; unfold lift at 1.
    destruct (last_item data) as [latest|e] eqn:El.
    - cbv beta iota. rewrite Hrate, (Hlatest latest eq_refl).
      unfold gt at 2 3 4. unfold of_Z at 2 3. cbn [lt orb].
      destruct (gt latest (sub target (of_Z 2))); reflexivity.
    - exfalso. unfold last_item in El.
      destruct (rev data) eqn:Er; [|discriminate El].
      apply (f_equal (@rev pyfloat)) in Er. rewrite rev_involutive in Er.
      subst data. contradiction. }
  split; [exact Hrate|]. split.
  - destruct (connected s) eqn:Hc; [now rewrite E|].
    unfold check_warmup_heater_status. unfold bind at 1.
    now rewrite (get_range_closed _ Hc).
  - intros Hc. now rewrite E.
Qed.

End WarmupRuns.

(** ** The rolling window of the two loops *)

Section RollingWindow.
Import TemperatureController Stabilization.

Lemma last_n_short {A} (n : nat) (l : list A) :
  (List.length l <= n)%nat -> last_n n l = l.
Proof.
  intros H. unfold last_n.
  replace (List.length l - n)%nat with 0%nat by lia. reflexivity.
Qed.

Lemma last_n_length {A} (n : nat) (l : list A) :
  (List.length (last_n n l) <= n)%nat.
Proof. unfold last_n. rewrite length_skipn. lia. Qed.

Lemma last_n_app {A} (n : nat) (l r : list A) :
  last_n n (last_n n l ++ r) = last_n n (l ++ r).
Proof.
  destruct (Nat.le_gt_cases (List.length l) n) as [H|H].
  - now rewrite (last_n_short n l H).
  - unfold last_n. rewrite !length_app, length_skipn, !skipn_app, skipn_skipn,
      length_skipn.
    f_equal; f_equal; lia.
Qed.

(** A push into a window of at most five samples keeps the last five. *)
Lemma push_sample_last_five (data : list pyfloat) (x : pyfloat) :
  (List.length data <= 5)%nat ->
  push_sample 5 data x = Ok (last_n 5 (data ++ [x])).
Proof.
  intros H. unfold push_sample.
  destruct (Nat.ltb_spec (List.length data) 5) as [Hlt|Hge].
  - rewrite last_n_short; [reflexivity|]. rewrite length_app. simpl. lia.
  - do 6 (destruct data as [|? data]; try (simpl in *; lia)).
    reflexivity.
Qed.

Lemma warmup_window (target : pyfloat) (temperatures : list pyfloat) :
  forall (data : list pyfloat) (s : Instrument),
    (List.length data <= 5)%nat ->
    fst (warmup_iterations target temperatures data s)
      = last_n 5 (data ++ List.map (as_read s) temperatures).
Proof.
  induction temperatures as [|t rest IH]; intros data s Hlen.
  - simpl. rewrite app_nil_r. symmetry. now apply last_n_short.
  - cbn [warmup_iterations List.map].
    set (s0 := with_sample_space_temperature s t).
    unfold warmup_iteration, get_sample_space_temperature, quick_query.
    cbn [connected with_sample_space_temperature sample_space_temperature s0].
    subst s0.
    cbn [connected with_sample_space_temperature sample_space_temperature].
    rewrite (push_sample_last_five data _ Hlen).
    match goal with
    | |- context [try_except ?c ?s0] =>
        pose proof (kss_check target
                      (last_n 5 (data ++ [if connected s then t else NaN])) s0)
          as Hf;
        set (s1 := snd (try_except c s0)) in *
    end.
    rewrite (IH _ s1 (last_n_length 5 _)).
    rewrite last_n_app, <- app_assoc.
    assert (Hc : connected s1 = connected s).
    { subst s1. unfold try_except. cbn [snd]. destruct Hf as (Hc & _).
      exact Hc. }
    unfold as_read. now rewrite Hc.
Qed.

Lemma stabilization_window (readings : list (pyfloat * pyfloat)) :
  forall (pressure_data : list pyfloat) (s : Instrument),
    (List.length pressure_data <= 5)%nat ->
    fst (stabilization_iterations readings pressure_data s)
      = last_n 5 (pressure_data ++ List.map fst readings).
Proof.
  induction readings as [|[p t] rest IH]; intros data s Hlen.
  - simpl. rewrite app_nil_r. symmetry. now apply last_n_short.
  - cbn [stabilization_iterations List.map fst].
    unfold stabilization_iteration.
    rewrite (push_sample_last_five data p Hlen).
    rewrite (IH _ _ (last_n_length 5 _)).
    now rewrite last_n_app, <- app_assoc.
Qed.

(** X4. The window of the warm-up loop is always the last five
    temperatures read, oldest first, fewer while fewer have been read: a
    step that raises does not lose the sample, and a reading on a closed
    session enters the window as NaN.  The window of the stabilization
    loop is in the same way the last five pressures. *)
Theorem window_is_last_five_readings (target first : pyfloat)
    (temperatures : list pyfloat) (first_pressure : pyfloat)
    (readings : list (pyfloat * pyfloat)) (s : Instrument) :
  fst (warmup_loop target first temperatures s)
    = last_n 5 (List.map (as_read s) (first :: temperatures))
  /\ (List.length (fst (warmup_loop target first temperatures s)) <= 5)%nat
  /\ fst (stabilization_iterations readings [first_pressure] s)
     = last_n 5 (first_pressure :: List.map fst readings).
Proof.
  assert (W : fst (warmup_loop target first temperatures s)
              = last_n 5 (List.map (as_read s) (first :: temperatures))).
  { unfold warmup_loop, get_sample_space_temperature, quick_query.
    cbn [connected with_sample_space_temperature sample_space_temperature].
    rewrite warmup_window by (simpl; lia). reflexivity. }
  split; [exact W|]. split; [rewrite W; apply last_n_length|].
  rewrite stabilization_window by (simpl; lia). reflexivity.
Qed.

End RollingWindow.

(** ** Heater ranges by name *)

Section HeaterRangeNames.
Import TemperatureController TemperatureControllerMore Stabilization.

Lemma to_upper_to_lower (c : ascii) : to_upper (to_lower c) = to_upper c.
Proof.
  destruct c as [[] [] [] [] [] [] [] []]; vm_compute; reflexivity.
Qed.

Lemma to_upper_idem (c : ascii) : to_upper (to_upper c) = to_upper c.
Proof.
  destruct c as [[] [] [] [] [] [] [] []]; vm_compute; reflexivity.
Qed.

Lemma upper_lower (n : string) : upper (lower n) = upper n.
Proof.
  induction n as [|c n IH]; [reflexivity|].
  cbn [lower upper map_chars]. rewrite to_upper_to_lower.
  f_equal. exact IH.
Qed.

Lemma upper_upper (n : string) : upper (upper n) = upper n.
Proof.
  induction n as [|c n IH]; [reflexivity|].
  cbn [upper map_chars]. rewrite to_upper_idem. f_equal. exact IH.
Qed.

Lemma get_cold_range_closed (s : Instrument) :
  connected s = false ->
  get_cold_head_heater_range s
    = (Raise (ValueError "not a valid HeaterRangeValues"), s).
Proof.
  intros Hc. unfold get_cold_head_heater_range, bind, quick_query, lift.
  now rewrite Hc.
Qed.

(** X8. Heater ranges are set by name in any letter case and read back
    title-styled.  On an open session, setting the cold-head range by a
    name whose upper-case form is a member's name makes the instrument
    hold that member, and reading the range then gives the member's name
    title-styled, which set again gives the same member; the lower-case and
    upper-case forms of the name do the same.  A name that is no member's
    raises [KeyError] and writes nothing.  On a closed session reading the
    range raises [ValueError], the empty reply not being a number. *)
Theorem heater_range_by_name (s : Instrument) (name : string) :
  connected s = true ->
  let set n := set_cold_head_heater_range (RangeName n) in
  match HeaterRangeValues_item (upper name) with
  | Ok r =>
      set name s = (Ok tt, receive_heater_range COLD_HEAD_OUT_CHANNEL r s)
      /\ set (lower name) s = set name s
      /\ set (upper name) s = set name s
      /\ get_cold_head_heater_range (snd (set name s))
         = (Ok (title (range_name r)), snd (set name s))
      /\ set (title (range_name r)) s = set name s
  | Raise e =>
      e = KeyError (upper name) /\ set name s = (Raise e, s)
  end
  /\ get_cold_head_heater_range (with_connected s false)
     = (Raise (ValueError "not a valid HeaterRangeValues"),
        with_connected s false).
Proof.
  intros Hc. cbv zeta. split; [|now apply get_cold_range_closed].
  unfold set_cold_head_heater_range.
  destruct (HeaterRangeValues_item (upper name)) as [r|e] eqn:E.
  - rewrite (set_heater_range_name_connected _ name r s Hc E).
    split; [reflexivity|]. split.
    { apply set_heater_range_name_connected; [exact Hc|].
      now rewrite upper_lower. }
    split.
    { apply set_heater_range_name_connected; [exact Hc|].
      now rewrite upper_upper. }
    split.
    { cbn [snd]. rewrite get_cold_range_connected
        by (now rewrite connected_receive_range).
      reflexivity. }
    apply set_heater_range_name_connected; [exact Hc|].
    apply (proj2 (range_roundtrip r)).
  - split.
    + unfold HeaterRangeValues_item in E.
      repeat match type of E with
             | (if ?b then _ else _) = _ => destruct b; try discriminate E
             end.
      now injection E as <-.
    + unfold set_heater_range, bind, lift. now rewrite E.
Qed.

(** X9. [reset_cold_head_heater_output], called without a set point on
    an open session, never raises and leaves the cold-head heater at MEDIUM
    with the manual output 0, whatever they were; the output is written
    while the range is OFF.  Nothing of the sample-space heater changes.
    On a closed session it does nothing. *)
Theorem reset_cold_head_heater_output_spec (s : Instrument) :
  let s' := snd (reset_cold_head_heater_output s) in
  fst (reset_cold_head_heater_output s) = Ok tt
  /\ sample_space_manual_output s' = sample_space_manual_output s
  /\ sample_space_heater_range s' = sample_space_heater_range s
  /\ connected s' = connected s
  /\ if connected s
     then cold_head_heater_range s' = MEDIUM
          /\ cold_head_manual_output s' = Fin 0
          /\ written s'
             = WroteHeaterRange COLD_HEAD_OUT_CHANNEL MEDIUM
               :: WroteManualOutput COLD_HEAD_OUT_CHANNEL (Fin 0) OFF
               :: WroteHeaterRange COLD_HEAD_OUT_CHANNEL OFF :: written s
     else s' = s.
Proof.
  cbv zeta. destruct (connected s) eqn:Hc.
  - assert (E : reset_cold_head_heater_output s
                = (Ok tt,
                   receive_heater_range COLD_HEAD_OUT_CHANNEL MEDIUM
                     (receive_manual_output COLD_HEAD_OUT_CHANNEL (Fin 0)
                        (receive_heater_range COLD_HEAD_OUT_CHANNEL OFF s)))).
    { unfold reset_cold_head_heater_output, set_cold_head_heater_range,
        set_cold_head_manual_output.
      unfold bind at 1.
      rewrite (set_heater_range_name_connected _ "off" OFF s Hc item_off).
      cbv beta iota. unfold bind, quick_write_manual_output.
      rewrite connected_receive_range, Hc. cbv beta iota.
      apply set_heater_range_name_connected;
        [now rewrite connected_receive_output, connected_receive_range
        | vm_compute; reflexivity]. }
    rewrite E. cbn [fst snd].
    rewrite connected_receive_range, connected_receive_output,
      connected_receive_range, written_receive_range, written_receive_output,
      written_receive_range.
    repeat split; assumption.
  - assert (E : reset_cold_head_heater_output s = (Ok tt, s)).
    { unfold reset_cold_head_heater_output, set_cold_head_heater_range,
        set_cold_head_manual_output, bind.
      pose proof (set_heater_range_closed COLD_HEAD_OUT_CHANNEL
                    (RangeName "off") s Hc) as H1.
      pose proof (set_heater_range_result COLD_HEAD_OUT_CHANNEL "off" s) as R1.
      rewrite item_off in R1.
      destruct (set_heater_range (RangeName "off") COLD_HEAD_OUT_CHANNEL s)
        as [r1 s1]. cbn [fst snd] in *. subst.
      unfold quick_write_manual_output. rewrite Hc.
      pose proof (set_heater_range_closed COLD_HEAD_OUT_CHANNEL
                    (RangeName "medium") s Hc) as H2.
      pose proof (set_heater_range_result COLD_HEAD_OUT_CHANNEL "medium" s)
        as R2.
      change (HeaterRangeValues_item (upper "medium")) with (Ok MEDIUM) in R2.
      destruct (set_heater_range (RangeName "medium") COLD_HEAD_OUT_CHANNEL s)
        as [r2 s2]. cbn [fst snd] in *. now subst. }
    rewrite E. cbn [fst snd]. repeat split; assumption.
Qed.

End HeaterRangeNames.

(** ** The stabilization loop from start to end *)

Section StabilizationLoop.
Import TemperatureController Stabilization.



End StabilizationLoop.

(** ** Threads and events *)

Section ThreadsFacts.
Import TemperatureController Threads ThreadsMore Calls.

Lemma nth_set_nth_same (n : nat) (l : list bool) :
  (n < List.length l)%nat -> nth n (set_nth n l) false = true.
Proof.
  revert n. induction l as [|b l IH]; intros n H; [simpl in H; lia|].
  destruct n; [reflexivity|]. simpl. apply IH. simpl in H. lia.
Qed.

Lemma nth_set_nth_other (n k : nat) (l : list bool) :
  n <> k -> nth k (set_nth n l) false = nth k l false.
Proof.
  revert n k. induction l as [|b l IH]; intros n k H.
  - now destruct n, k.
  - destruct n, k; try reflexivity; try congruence.
    simpl. apply IH. congruence.
Qed.

Lemma set_nth_length (n : nat) (l : list bool) :
  List.length (set_nth n l) = List.length l.
Proof.
  revert n. induction l as [|b l IH]; intros n; [now destruct n|].
  destruct n; simpl; [reflexivity | now rewrite IH].
Qed.

(** A stop of the warm-up sets the event the controller holds and no
    other, and starts nothing. *)
Lemma stop_warmup_events (w : World) (e : nat) :
  stop_warmup_event w = Some e ->
  let w' := snd (stop_sample_space_warmup w) in
  fst (stop_sample_space_warmup w) = Ok tt
  /\ events w' = set_nth e (events w)
  /\ stop_warmup_event w' = Some e
  /\ started w' = started w.
Proof.
  intros He. cbv zeta.
  unfold stop_sample_space_warmup, bind, gets, event_set, on_instrument.
  rewrite He. cbn [instrument].
  destruct (set_sample_space_manual_output (of_Z 0) (instrument w))
    as [[u|x] s1] eqn:E1.
  2:{ unfold set_sample_space_manual_output, quick_write_manual_output in E1.
      discriminate E1. }
  cbn [instrument].
  pose proof (set_heater_range_result SAMPLE_SPACE_OUT_CHANNEL "off" s1) as R.
  rewrite item_off in R. unfold set_sample_space_heater_range.
  destruct (set_heater_range (RangeName "off") SAMPLE_SPACE_OUT_CHANNEL s1)
    as [r2 s2]. cbn [fst snd] in *. subst r2. repeat split.
Qed.

Lemma stops_keep_other_events (k : nat) :
  forall (w : World) (e other : nat),
    stop_warmup_event w = Some e -> other <> e ->
    let w' := snd (perform_all (repeat StopWarmup k) w) in
    nth other (events w') false = nth other (events w) false
    /\ started w' = started w
    /\ Forall (fun r => r = Ok tt) (fst (perform_all (repeat StopWarmup k) w)).
Proof.
  induction k as [|k IH]; intros w e other He Hne; cbv zeta.
  - simpl. repeat split. constructor.
  - cbn [repeat perform_all perform].
    destruct (stop_warmup_events w e He) as (Hres & Hev & He' & Hst).
    destruct (stop_sample_space_warmup w) as [r w1]. cbn [fst snd] in *.
    destruct (IH w1 e other He' Hne) as (Hn & Hs & Hf).
    destruct (perform_all (repeat StopWarmup k) w1) as [rs w2].
    cbn [fst snd] in *. split; [|split].
    + rewrite Hn, Hev. apply nth_set_nth_other. congruence.
    + congruence.
    + constructor; assumption.
Qed.

(** X11. A second [start_sample_space_warmup] does not stop the first
    loop: each start makes a new event and starts one more thread, and the
    controller keeps only the last event.  After two starts, however many
    times [stop_sample_space_warmup] is then called, no call raises, the
    event of the first thread is never set, the event of the second is set
    by the first stop, and no thread is started or removed. *)
Theorem second_warmup_start_orphans_first (w : World) (k : nat) :
  let first := List.length (events w) in
  let second := S first in
  let w2 := snd (start_sample_space_warmup
                   (snd (start_sample_space_warmup w))) in
  let w' := snd (perform_all (repeat StopWarmup (S k)) w2) in
  started w2 = WarmupThread second :: WarmupThread first :: started w
  /\ stop_warmup_event w2 = Some second
  /\ started w' = started w2
  /\ Forall (fun r => r = Ok tt)
            (fst (perform_all (repeat StopWarmup (S k)) w2))
  /\ nth first (events w') false = false
  /\ nth second (events w') false = true.
Proof.
  cbv zeta.
  set (w2 := snd (start_sample_space_warmup
                    (snd (start_sample_space_warmup w)))).
  assert (Hst : started w2
                = WarmupThread (S (List.length (events w)))
                  :: WarmupThread (List.length (events w)) :: started w).
  { subst w2. cbn. rewrite length_app. cbn.
    now rewrite Nat.add_1_r. }
  assert (He : stop_warmup_event w2 = Some (S (List.length (events w)))).
  { subst w2. cbn. rewrite length_app. cbn. now rewrite Nat.add_1_r. }
  assert (Hev : events w2 = (events w ++ [false; false])%list).
  { subst w2. cbn. now rewrite <- app_assoc. }
  split; [exact Hst|]. split; [exact He|].
  destruct (stops_keep_other_events (S k) w2 _ (List.length (events w)) He)
    as (Hn & Hs & Hf); [lia|].
  split; [exact Hs|]. split; [exact Hf|]. split.
  - rewrite Hn, Hev. rewrite app_nth2 by lia.
    now rewrite Nat.sub_diag.
  - cbn [repeat perform_all perform].
    destruct (stop_warmup_events w2 _ He) as (_ & Hev1 & He1 & _).
    destruct (stop_sample_space_warmup w2) as [r w3]. cbn [fst snd] in *.
    destruct k as [|k].
    + cbn [repeat perform_all snd]. rewrite Hev1.
      apply nth_set_nth_same. rewrite Hev, length_app. simpl. lia.
    + (* further stops set the same event again *)
      assert (Again : forall j (w0 : World),
                 stop_warmup_event w0 = Some (S (List.length (events w))) ->
                 nth (S (List.length (events w))) (events w0) false = true ->
                 nth (S (List.length (events w)))
                     (events (snd (perform_all (repeat StopWarmup j) w0)))
                     false = true).
      { induction j as [|j IHj]; intros w0 H0 Hset; [exact Hset|].
        cbn [repeat perform_all perform].
        destruct (stop_warmup_events w0 _ H0) as (_ & Hev0 & He0 & _).
        destruct (stop_sample_space_warmup w0) as [r0 w4].
        cbn [fst snd] in *.
        specialize (IHj w4 He0).
        destruct (perform_all (repeat StopWarmup j) w4) as [rs w5].
        cbn [snd] in *. apply IHj. rewrite Hev0.
        apply nth_set_nth_same.
        destruct (Nat.lt_ge_cases (S (List.length (events w)))
                    (List.length (events w0))) as [H|H]; [exact H|].
        rewrite nth_overflow in Hset by exact H. discriminate Hset. }
      specialize (Again (S k) w3 He1).
      destruct (perform_all (repeat StopWarmup (S k)) w3) as [rs w5].
      cbn [snd] in *. apply Again. rewrite Hev1.
      apply nth_set_nth_same. rewrite Hev, length_app. simpl. lia.
Qed.

(** X12. Deleting a temperature controller whose warm-up was never
    started raises [AttributeError] before it disconnects, so the session
    stays as it was.  After a start, deleting it never raises, sets the
    stop event and leaves the session closed. *)
Theorem del_temperature_controller_spec (w : World) :
  match stop_warmup_event w with
  | None =>
      del_temperature_controller w = (Raise (AttributeError "is_set"), w)
  | Some e =>
      fst (del_temperature_controller w) = Ok tt
      /\ connected (instrument (snd (del_temperature_controller w))) = false
      /\ events (snd (del_temperature_controller w))
         = (if nth e (events w) false then events w
            else set_nth e (events w))
  end.
Proof.
  destruct (stop_warmup_event w) as [e|] eqn:He.
  - destruct (stop_warmup_events w e He) as (Hres & Hev & _ & _).
    destruct (nth e (events w) false) eqn:Hn.
    + assert (E : exists w', del_temperature_controller w = (Ok tt, w')
                             /\ connected (instrument w') = false
                             /\ events w' = events w).
      { unfold del_temperature_controller, bind, gets, is_set, ret,
          on_instrument, disconnect.
        rewrite He, Hn. cbn [negb]. eexists. split; [reflexivity|].
        split; reflexivity. }
      destruct E as (w' & -> & H1 & H2). repeat split; assumption.
    + assert (E : exists w', del_temperature_controller w = (Ok tt, w')
                             /\ connected (instrument w') = false
                             /\ events w' = set_nth e (events w)).
      { unfold del_temperature_controller, bind, gets, is_set, ret,
          on_instrument, disconnect.
        rewrite He, Hn. cbn [negb].
        destruct (stop_sample_space_warmup w) as [r w1]. cbn [fst snd] in *.
        subst r. eexists. split; [reflexivity|].
        split; [reflexivity | exact Hev]. }
      destruct E as (w' & -> & H1 & H2). repeat split; assumption.
  - unfold del_temperature_controller, bind, gets, is_set. now rewrite He.
Qed.

End ThreadsFacts.

(** ** The session and the buffer *)

Section SessionFacts.
Import Session Discovery SessionMore.






Lemma read_all_empties (pending : list string) :
  forall m : Mediator,
    inbox m = pending ->
    exists m',
      read_all pending m = (Ok tt, m')
      /\ inbox m' = [] /\ _session m' = _session m /\ respond m' = respond m.
Proof.
  induction pending as [|p rest IH]; intros m Hin.
  - exists m. repeat split; assumption.
  - cbn [read_all]. unfold bind, mediator_read. rewrite Hin.
    destruct (IH (logged (ReadReply p) (with_inbox m rest)) eq_refl)
      as (m' & E & Hi & Hs & Hr).
    exists m'. rewrite E. repeat split; assumption.
Qed.

Lemma clear_forced_empties (m : Mediator) (CLEAR : string) :
  is_connected m = true ->
  exists m',
    clear_with true CLEAR m = (Ok tt, m')
    /\ inbox m' = [] /\ _session m' = _session m /\ respond m' = respond m.
Proof.
  intros Hc. unfold clear_with. rewrite Hc. cbn [negb].
  unfold bind at 1. cbv beta iota.
  set (m1 := snd (mediator_clear m)).
  assert (H1 : _session m1 = _session m /\ respond m1 = respond m).
  { subst m1. unfold mediator_clear. destruct (native_clear m); split; reflexivity. }
  destruct H1 as [Hs1 Hr1].
  assert (Hc1 : is_connected m1 = true).
  { unfold is_connected in *. now rewrite Hs1. }
  unfold bind, safe_write. rewrite Hc1. cbn [negb]. unfold mediator_write.
  unfold force_clear_message_based_resource.
  set (m2 := logged (Wrote CLEAR) _).
  destruct (read_all_empties (inbox m2) m2 eq_refl) as (m' & E & Hi & Hs & Hr).
  exists m'. rewrite E. split; [reflexivity|]. split; [exact Hi|].
  split; [rewrite Hs | rewrite Hr]; assumption.
Qed.

(** X14. A forced clear empties the buffer, so the query after it is
    answered by the instrument: on an open session, whatever replies were
    pending and whether or not the instrument supports the native clear,
    [clear(force=True)] never raises and leaves no pending reply, and a
    [safe_query] made next returns the first reply to its own message (or
    raises [VisaIOError] when the instrument sends none).  On a closed
    session the clear does nothing. *)
Theorem forced_clear_then_query_is_fresh (m : Mediator)
    (CLEAR message : string) (delay : option Q) :
  (is_connected m = false -> clear_with true CLEAR m = (Ok tt, m))
  /\ (is_connected m = true ->
      fst (clear_with true CLEAR m) = Ok tt
      /\ inbox (snd (clear_with true CLEAR m)) = []
      /\ is_connected (snd (clear_with true CLEAR m)) = true
      /\ fst ((clear_with true CLEAR ;; safe_query message delay false) m)
         = match respond m message with
           | reply :: _ => Ok reply
           | [] => Raise VisaIOError
           end).
Proof.
  split.
  - intros Hc. unfold clear_with. now rewrite Hc.
  - intros Hc.
    destruct (clear_forced_empties m CLEAR Hc) as (m' & E & Hi & Hs & Hr).
    assert (Hc' : is_connected m' = true).
    { unfold is_connected in *. now rewrite Hs. }
    unfold bind. rewrite E. cbn [fst snd].
    split; [reflexivity|]. split; [exact Hi|]. split; [exact Hc'|].
    unfold safe_query. rewrite Hc'. cbn [negb].
    unfold bind, mediator_query, bind, mediator_write, mediator_read.
    cbn [inbox logged with_inbox]. rewrite Hi, Hr. cbn [app].
    destruct (respond m message); reflexivity.
Qed.

End SessionFacts.

(** ** Connecting, disconnecting and the single-action wrapper *)

Section Lifecycle.
Import Session Discovery SessionMore DiscoveryMore.

Lemma clear_keeps_session (m : Mediator) :
  fst (clear m) = Ok tt /\ _session (snd (clear m)) = _session m
  /\ opens (snd (clear m)) = opens m.
Proof.
  unfold clear. destruct (negb (is_connected m)); cbn [fst snd];
    [repeat split|].
  unfold mediator_clear. destruct (native_clear m); repeat split.
Qed.

Lemma disconnect_closes (m : Mediator) :
  fst (disconnect m) = Ok tt /\ is_connected (snd (disconnect m)) = false.
Proof.
  unfold disconnect. destruct (is_connected m) eqn:Hc; cbn [negb fst snd].
  - unfold bind. destruct (clear_keeps_session m) as (H1 & _).
    destruct (clear m) as [[u|e] m1]; cbn [fst] in H1; [|discriminate].
    split; reflexivity.
  - split; [reflexivity | exact Hc].
Qed.

Lemma connect_opens (m : Mediator) :
  is_connected m = false -> opens m = true ->
  fst (connect m) = Ok tt /\ is_connected (snd (connect m)) = true.
Proof.
  intros Hc Ho. unfold connect. rewrite Hc.
  unfold bind, mediator_open. rewrite Ho.
  set (m1 := logged Opened _).
  destruct (clear_keeps_session m1) as (H1 & H2 & _).
  destruct (clear m1) as [[u|e] m2]; cbn [fst snd] in *; [|discriminate].
  split; [now destruct u|]. unfold is_connected. now rewrite H2.
Qed.

(** X15. The life of a session.  [connect] does nothing on an open
    session; on a closed one it opens it and leaves it open, or, when the
    resource cannot be opened, raises [VisaIOError] and leaves the device
    as it was.  [disconnect] never raises and always leaves the session
    closed, so a second [disconnect] does nothing, and so does a second
    [connect] after one that succeeded. *)
Theorem connect_disconnect_lifecycle (m : Mediator) :
  (is_connected m = true -> connect m = (Ok tt, m))
  /\ (is_connected m = false -> opens m = false ->
      connect m = (Raise VisaIOError, m))
  /\ (is_connected m = false -> opens m = true ->
      fst (connect m) = Ok tt
      /\ is_connected (snd (connect m)) = true
      /\ (connect ;; connect) m = connect m)
  /\ fst (disconnect m) = Ok tt
  /\ is_connected (snd (disconnect m)) = false
  /\ (disconnect ;; disconnect) m = disconnect m.
Proof.
  split; [intros Hc; unfold connect; now rewrite Hc|].
  split.
  { intros Hc Ho. unfold connect. rewrite Hc.
    unfold bind, mediator_open. now rewrite Ho. }
  split.
  { intros Hc Ho. destruct (connect_opens m Hc Ho) as [H1 H2].
    split; [exact H1|]. split; [exact H2|].
    unfold bind at 1. destruct (connect m) as [[u|e] m1];
      cbn [fst snd] in *; [|discriminate].
    unfold connect at 1. rewrite H2. now destruct u. }
  destruct (disconnect_closes m) as [H1 H2].
  split; [exact H1|]. split; [exact H2|].
  unfold bind at 1. destruct (disconnect m) as [[u|e] m1];
    cbn [fst snd] in *; [|discriminate].
  unfold disconnect at 1. rewrite H2. now destruct u.
Qed.

Lemma wrap_single_action_runs {A} (method : M Mediator A) (m : Mediator) :
  wrap_single_action method m
  = match connect m with
    | (Raise e, m1) => (Raise e, m1)
    | (Ok _, m1) =>
        match method m1 with
        | (Raise e, m2) => (Raise e, m2)
        | (Ok a, m2) =>
            match disconnect m2 with
            | (Raise e, m3) => (Raise e, m3)
            | (Ok _, m3) => (Ok a, m3)
            end
        end
    end.
Proof.
  unfold wrap_single_action, bind, ret.
  destruct (connect m) as [[u|e] m1]; [|reflexivity].
  destruct (method m1) as [[a|e] m2]; [|reflexivity].
  destruct (disconnect m2) as [[u'|e] m3]; reflexivity.
Qed.

(** X16. The wrapper of [wrap_single_action] connects, runs the method
    and disconnects.  When the device cannot be connected the method is
    not run.  When the method returns, its result is returned and the
    session is closed afterwards, also when it was open before the call.
    When the method raises, the exception passes through and no
    disconnection is made: the device is left exactly as the method left
    it. *)
Theorem wrap_single_action_outcome {A} (method : M Mediator A) (m : Mediator) :
  match connect m with
  | (Raise e, m1) => wrap_single_action method m = (Raise e, m1)
  | (Ok _, m1) =>
      match method m1 with
      | (Ok a, m2) =>
          fst (wrap_single_action method m) = Ok a
          /\ snd (wrap_single_action method m) = snd (disconnect m2)
          /\ is_connected (snd (wrap_single_action method m)) = false
      | (Raise e, m2) => wrap_single_action method m = (Raise e, m2)
      end
  end.
Proof.
  rewrite !wrap_single_action_runs.
  destruct (connect m) as [[u|e] m1]; [|reflexivity].
  destruct (method m1) as [[a|e] m2]; [|reflexivity].
  destruct (disconnect_closes m2) as [H1 H2].
  destruct (disconnect m2) as [[u'|e] m3]; cbn [fst snd] in *;
    [|discriminate].
  repeat split. exact H2.
Qed.

(** X17. [from_resource_port]: a port that cannot be opened raises
    [VisaIOError]; a message-based resource gives a device named after
    the instrument and the port, with the read termination of the class
    and its session closed again; a resource that is not message based
    raises [ValueError] and is left open. *)
Theorem from_resource_port_outcome (cls : DeviceClass)
    (resource_port : string) (resource : Mediator) :
  let outcome := from_resource_port cls resource_port resource in
  (opens resource = false -> fst outcome = Raise VisaIOError)
  /\ (opens resource = true -> message_based resource = false ->
      (exists text, fst outcome = Raise (ValueError text))
      /\ is_connected (snd outcome) = true)
  /\ (opens resource = true -> message_based resource = true ->
      exists d,
        fst outcome = Ok d
        /\ is_connected (mediator d) = false
        /\ read_termination (mediator d) = READ_TERMINATION cls
        /\ instrument_repr_name d
           = INSTRUMENT_NAME cls ++ " (" ++ resource_name resource ++ ")").
Proof.
  cbv zeta. unfold from_resource_port, open_resource, mediator_open.
  cbn [opens with_read_termination].
  split; [intros Ho; now rewrite Ho|]. split.
  - intros Ho Hm. rewrite Ho.
    cbn [message_based logged with_session with_read_termination].
    rewrite Hm. cbn [negb fst snd]. split; [eexists; reflexivity|].
    reflexivity.
  - intros Ho Hm. rewrite Ho.
    cbn [message_based logged with_session with_read_termination].
    rewrite Hm. cbn [negb].
    set (m0 := logged Opened _).
    assert (Hc0 : is_connected m0 = true) by reflexivity.
    unfold bind at 1. unfold connect at 1. rewrite Hc0.
    unfold disconnect. rewrite Hc0. cbn [negb]. unfold bind.
    unfold clear. rewrite Hc0. cbn [negb].
    unfold mediator_clear. destruct (native_clear m0); cbn [snd];
      eexists; repeat split.
Qed.

End Lifecycle.

(** ** The cryogen level sensor *)

Section LevelSensor.
Import Session Discovery SessionMore.




(** X18. A level reading on a closed session raises: the query returns
    the empty text, which has no second line, so [read_helium_level] and
    [read_nitrogen_level] raise [IndexError] instead of returning NaN, and
    leave the device untouched. *)
Theorem level_reading_on_closed_session (m : Mediator) :
  is_connected m = false ->
  CryogenLevelSensor.read_helium_level m = (Raise IndexError, m)
  /\ CryogenLevelSensor.read_nitrogen_level m = (Raise IndexError, m).
Proof.
  intros Hc.
  assert (H : forall channel,
             CryogenLevelSensor.read_level channel m = (Raise IndexError, m)).
  { intros channel. unfold CryogenLevelSensor.read_level.
    unfold bind at 1. unfold clear_with at 1. rewrite Hc. cbn [negb].
    unfold bind at 1. unfold CryogenLevelSensor.quick_level_query.
    unfold bind at 1. unfold CryogenLevelSensor.get_processed_response at 1.
    unfold bind at 1. unfold CryogenLevelSensor.quick_query, safe_query.
    rewrite Hc. reflexivity. }
  split; apply H.
Qed.



End LevelSensor.

(** ** Discovery: terminations and scans *)

Section DiscoveryFacts.
Import Session Discovery.



Lemma prefix_refl (s : string) : String.prefix s s = true.
Proof.
  induction s as [|c s IH]; [reflexivity|].
  cbn. destruct (ascii_dec c c); [exact IH | contradiction].
Qed.

Lemma contains_refl (s : string) : contains s s = true.
Proof. destruct s; cbn [contains]; now rewrite prefix_refl. Qed.

Lemma match_condition_partial (desired actual : string) :
  match_condition false desired actual = true ->
  match_condition true desired actual = true.
Proof.
  unfold match_condition. intros H. apply String.eqb_eq in H. subst.
  apply contains_refl.
Qed.

Lemma idn_candidate_partial (desired : string) (correct : bool)
    (term : string) (r0 r : Mediator) :
  idn_candidate desired false correct term r0 = Some r ->
  idn_candidate desired true correct term r0 = Some r.
Proof.
  unfold idn_candidate.
  destruct (open_resource term r0) as [[u|e] m0]; cbv beta iota; [|discriminate].
  destruct (message_based m0); cbv beta iota; [|discriminate].
  unfold bind.
  destruct (match mediator_clear m0 with
            | (Ok _, m') => (Ok tt, m')
            | (Raise _, m') => force_clear_message_based_resource m'
            end) as [[u1|e1] m1]; cbv beta iota; [|discriminate].
  destruct (query_idn m1) as [[idn'|e3] m3]; cbv beta iota; [|discriminate].
  destruct correct.
  - destruct (detect_termination (read_termination m3) idn') as [t v].
    unfold mediator_close, ret.
    destruct (match_condition false desired v) eqn:E; cbv beta iota; [|discriminate].
    now rewrite (match_condition_partial _ _ E).
  - unfold mediator_close, ret.
    destruct (match_condition false desired idn') eqn:E; cbv beta iota; [|discriminate].
    now rewrite (match_condition_partial _ _ E).
Qed.

Lemma attribute_candidate_partial (visa_attribute desired : string)
    (correct : bool) (term : string) (r0 r : Mediator) :
  attribute_candidate visa_attribute desired false correct term r0 = Some r ->
  attribute_candidate visa_attribute desired true correct term r0 = Some r.
Proof.
  unfold attribute_candidate, bind.
  destruct (open_resource term r0) as [[u|e] m0]; cbv beta iota; [|discriminate].
  set (m1 := snd (mediator_clear m0)).
  destruct (if message_based m1 && correct
            then match auto_detect_read_termination m1 with
                 | (Ok t, m') => (Ok tt, with_read_termination m' t)
                 | (Raise e, m') => (Raise e, m')
                 end
            else (Ok tt, m1)) as [[u2|e2] m2]; cbv beta iota; [|discriminate].
  destruct (visa_attribute_value m2 visa_attribute) as [v|]; cbv beta iota; [|discriminate].
  unfold mediator_close, ret.
  destruct (match_condition false desired v) eqn:E; cbv beta iota; [|discriminate].
  now rewrite (match_condition_partial _ _ E).
Qed.

Lemma matching_resources_incl (c1 c2 : Mediator -> option Mediator)
    (rm : list Mediator) :
  (forall r0 r, c1 r0 = Some r -> c2 r0 = Some r) ->
  incl (matching_resources c1 rm) (matching_resources c2 rm).
Proof.
  intros H r Hin. unfold matching_resources in *.
  apply in_flat_map in Hin. destruct Hin as (r0 & Hr0 & Hin).
  apply in_flat_map. exists r0. split; [exact Hr0|].
  destruct (c1 r0) as [r'|] eqn:E; [|contradiction].
  now rewrite (H _ _ E).
Qed.

(** X22. An exact match is a partial match: every resource a scan finds
    when it looks for the identity, or the attribute value, itself is
    also found, in the same state, when it looks for texts containing it.
    So a partial search that finds nothing means the exact search finds
    nothing. *)
Theorem exact_matches_are_partial_matches (rm : list Mediator)
    (visa_attribute desired : string) (correct : bool) (term : string) :
  incl (find_available_resources_by_idn rm desired false correct term)
       (find_available_resources_by_idn rm desired true correct term)
  /\ incl (find_available_resources_by_visa_attribute rm visa_attribute
             desired false correct term)
          (find_available_resources_by_visa_attribute rm visa_attribute
             desired true correct term)
  /\ (find_available_resources_by_idn rm desired true correct term = [] ->
      find_available_resources_by_idn rm desired false correct term = [])
  /\ (find_available_resources_by_visa_attribute rm visa_attribute
        desired true correct term = [] ->
      find_available_resources_by_visa_attribute rm visa_attribute
        desired false correct term = []).
Proof.
  unfold find_available_resources_by_idn,
    find_available_resources_by_visa_attribute.
  rewrite !collect_matching. cbn [app].
  assert (H1 := matching_resources_incl _ _ rm
                  (idn_candidate_partial desired correct term)).
  assert (H2 := matching_resources_incl _ _ rm
                  (attribute_candidate_partial visa_attribute desired
                     correct term)).
  split; [exact H1|]. split; [exact H2|].
  split; intros E; [rewrite E in H1 | rewrite E in H2];
    now apply incl_l_nil.
Qed.

Lemma matching_resources_sound (candidate : Mediator -> option Mediator)
    (P : Mediator -> Mediator -> Prop) (rm : list Mediator) :
  (forall r0 r, candidate r0 = Some r -> P r0 r) ->
  Forall (fun r => exists r0, In r0 rm /\ P r0 r)
         (matching_resources candidate rm)
  /\ (List.length (matching_resources candidate rm) <= List.length rm)%nat.
Proof.
  intros H. unfold matching_resources.
  induction rm as [|r0 rm [IH1 IH2]]; cbn [flat_map List.length].
  - split; [constructor | lia].
  - destruct (candidate r0) as [r|] eqn:E; cbn [app List.length].
    + split; [|lia]. constructor.
      * exists r0. split; [now left | now apply H].
      * eapply Forall_impl; [|exact IH1].
        intros a (x & Hx & Px). exists x. split; [now right | exact Px].
    + split; [|lia]. eapply Forall_impl; [|exact IH1].
      intros a (x & Hx & Px). exists x. split; [now right | exact Px].
Qed.

(** X23. What a scan returns.  Every resource returned by
    [find_available_resources_by_idn] or
    [find_available_resources_by_visa_attribute] is one of the resources
    scanned (same name, class and capabilities), could be opened, and has
    been closed again; one returned by the identity scan is message
    based.  A scan returns at most one entry for each resource listed. *)
Theorem scan_returns_closed_resources (rm : list Mediator)
    (visa_attribute desired : string) (is_partial correct : bool)
    (term : string) :
  let by_idn :=
    find_available_resources_by_idn rm desired is_partial correct term in
  let by_attribute :=
    find_available_resources_by_visa_attribute rm visa_attribute desired
      is_partial correct term in
  Forall (fun r => exists r0, In r0 rm /\ same_resource r0 r
                              /\ opens r0 = true /\ message_based r0 = true
                              /\ is_connected r = false) by_idn
  /\ Forall (fun r => exists r0, In r0 rm /\ same_resource r0 r
                                 /\ opens r0 = true
                                 /\ is_connected r = false) by_attribute
  /\ (List.length by_idn <= List.length rm)%nat
  /\ (List.length by_attribute <= List.length rm)%nat.
Proof.
  cbv zeta. unfold find_available_resources_by_idn,
    find_available_resources_by_visa_attribute.
  rewrite !collect_matching. cbn [app].
  destruct (matching_resources_sound
              (idn_candidate desired is_partial correct term)
              (fun r0 r => same_resource r0 r /\ opens r0 = true
                           /\ message_based r0 = true
                           /\ is_connected r = false) rm) as [A1 A2].
  { intros r0 r E. destruct (idn_candidate_sound _ _ _ _ _ _ E)
      as (S & O & Mb & Cl).
    repeat split; try assumption; try apply S.
    unfold is_connected. now rewrite Cl. }
  destruct (matching_resources_sound
              (attribute_candidate visa_attribute desired is_partial
                 correct term)
              (fun r0 r => same_resource r0 r /\ opens r0 = true
                           /\ is_connected r = false) rm) as [B1 B2].
  { intros r0 r E. destruct (attribute_candidate_sound _ _ _ _ _ _ _ E)
      as (S & O & Cl).
    repeat split; try assumption; try apply S.
    unfold is_connected. now rewrite Cl. }
  repeat split; assumption.
Qed.

End DiscoveryFacts.

(** ** Replies as text *)

Section ReplyText.
Import Discovery SessionMore.

Lemma lstrip_spaces (l s : string) :
  all_chars is_space l = true -> lstrip (l ++ s) = lstrip s.
Proof.
  induction l as [|c l IH]; cbn [all_chars append lstrip]; [reflexivity|].
  intros H. apply andb_prop in H. destruct H as [Hc Hl].
  rewrite Hc. now apply IH.
Qed.

Lemma rstrip_all_spaces (r : string) :
  all_chars is_space r = true -> rstrip r = EmptyString.
Proof.
  induction r as [|c r IH]; cbn [all_chars rstrip]; [reflexivity|].
  intros H. apply andb_prop in H. destruct H as [Hc Hr].
  now rewrite (IH Hr), Hc.
Qed.

Lemma rstrip_spaces (s r : string) :
  all_chars is_space r = true -> rstrip (s ++ r) = rstrip s.
Proof.
  intros Hr. induction s as [|c s IH]; cbn [append rstrip].
  - now apply rstrip_all_spaces.
  - now rewrite IH.
Qed.

Lemma lstrip_all_spaces (r : string) :
  all_chars is_space r = true -> lstrip r = EmptyString.
Proof.
  induction r as [|c r IH]; cbn [all_chars lstrip]; [reflexivity|].
  intros H. apply andb_prop in H. destruct H as [Hc Hr].
  now rewrite Hc, (IH Hr).
Qed.

Lemma strip_spaces (l s r : string) :
  all_chars is_space l = true -> all_chars is_space r = true ->
  strip (l ++ s ++ r) = strip s.
Proof.
  intros Hl Hr. unfold strip. rewrite (lstrip_spaces l _ Hl).
  induction s as [|c s IH]; cbn [append lstrip].
  - now rewrite (lstrip_all_spaces r Hr).
  - destruct (is_space c); [exact IH|].
    exact (rstrip_spaces (String c s) r Hr).
Qed.

(** X24. White space around a reply does not matter: [parse_response]
    gives the same values for a reply and for the reply with white space
    (blanks, tabs, line ends) before and after it. *)
Theorem parse_response_ignores_outer_whitespace (before response after : string) :
  all_chars is_space before = true -> all_chars is_space after = true ->
  parse_response (before ++ response ++ after) = parse_response response.
Proof.
  intros Hb Ha. unfold parse_response. now rewrite (strip_spaces _ _ _ Hb Ha).
Qed.

Lemma split2_line (a s : string) :
  mem_char CR a = false ->
  split2 CR LF (a ++ String CR (String LF s)) = a :: split2 CR LF s.
Proof.
  induction a as [|c a IH]; intros H.
  - reflexivity.
  - cbn [mem_char] in H. apply orb_false_elim in H. destruct H as [Hc Ha].
    rewrite Ascii.eqb_sym in Hc.
    specialize (IH Ha).
    destruct a as [|d a].
    + cbn [append] in *. cbn [split2]. rewrite Hc. cbn [andb].
      change (split2 CR LF (String CR (String LF s)))
        with (EmptyString :: split2 CR LF s).
      reflexivity.
    + change ((String c (String d a) ++ String CR (String LF s))%string)
        with (String c (String d (a ++ String CR (String LF s)))).
      change ((String d a ++ String CR (String LF s))%string)
        with (String d (a ++ String CR (String LF s))) in IH.
      set (tail := String d (a ++ String CR (String LF s))) in *.
      assert (E : split2 CR LF (String c tail)
                  = match split2 CR LF tail with
                    | t :: ts => String c t :: ts
                    | [] => [String c EmptyString]
                    end).
      { subst tail. cbn [split2]. rewrite Hc. reflexivity. }
      rewrite E, IH. reflexivity.
Qed.

Lemma split2_no_line (a : string) :
  mem_char CR a = false -> split2 CR LF a = [a].
Proof.
  induction a as [|c a IH]; intros H; [reflexivity|].
  cbn [mem_char] in H. apply orb_false_elim in H. destruct H as [Hc Ha].
  rewrite Ascii.eqb_sym in Hc. specialize (IH Ha).
  destruct a as [|d a]; [reflexivity|].
  set (tail := String d a) in *.
  assert (E : split2 CR LF (String c tail)
              = match split2 CR LF tail with
                | t :: ts => String c t :: ts
                | [] => [String c EmptyString]
                end).
  { subst tail. cbn [split2]. rewrite Hc. reflexivity. }
  rewrite E, IH. reflexivity.
Qed.

(** X25. The level sensor parses the second line of a reply.  For a reply
    made of the echoed message, a line end, a second line, and possibly a
    line end and more, [CryogenLevelSensor.parse_response] gives what
    [MessageBasedDevice.parse_response] gives for the second line alone,
    whatever the echo and what follows are; for a reply of one line it
    raises [IndexError]. *)
Theorem level_parse_reads_second_line (echo second rest : string) :
  mem_char CR echo = false -> mem_char CR second = false ->
  CryogenLevelSensor.parse_response
    (echo ++ String CR (String LF second)) = parse_response second
  /\ CryogenLevelSensor.parse_response
       (echo ++ String CR (String LF (second ++ String CR (String LF rest))))
     = parse_response second
  /\ CryogenLevelSensor.parse_response echo = Raise IndexError.
Proof.
  intros He Hs. unfold CryogenLevelSensor.parse_response.
  rewrite !(split2_line echo _ He), (split2_line second _ Hs),
    (split2_no_line second Hs), (split2_no_line echo He).
  destruct (split2 CR LF rest); repeat split.
Qed.








End ReplyText.

(** ** Callers of the devices *)

Section Callers.
Import TemperatureController CryostatWindow.


End Callers.

Section ArduinoMeasurement.
Import Session SessionMore Measurement.

Lemma safe_query_oldest (m : Mediator) (message oldest : string)
    (rest : list string) (delay : option Q) :
  is_connected m = true ->
  (inbox m ++ respond m message)%list = oldest :: rest ->
  exists m',
    safe_query message delay false m = (Ok oldest, m')
    /\ inbox m' = rest /\ _session m' = _session m
    /\ respond m' = respond m.
Proof.
  intros Hc E. unfold safe_query. rewrite Hc. cbn [negb].
  unfold bind, mediator_query, bind, mediator_write, mediator_read.
  cbn [inbox logged with_inbox]. rewrite E.
  eexists. split; [reflexivity|]. repeat split.
Qed.

Lemma connect_keeps_buffer (m : Mediator) :
  is_connected m = false -> opens m = true ->
  exists m',
    connect m = (Ok tt, m') /\ is_connected m' = true
    /\ inbox m' = inbox m /\ respond m' = respond m.
Proof.
  intros Hc Ho. unfold connect. rewrite Hc.
  unfold bind, mediator_open. rewrite Ho.
  unfold clear. cbn [is_connected _session logged with_session negb].
  unfold mediator_clear. cbn [native_clear logged with_session].
  destruct (native_clear m); eexists; repeat split.
Qed.

(** X28. The Arduino is read in the order of its replies.  When the
    buffer is empty and the board answers the pressure query with one
    line and the refill query with one line, the measurement holds the
    pressure line and the refill line, each as a float or NaN.  When the
    board answers the pressure query with more than one line, the refill
    status is read from the second line of the pressure answer: the
    queries read the oldest pending line and never empty the buffer. *)
Theorem arduino_measurement_reads_in_order (m : Mediator)
    (pressure_line refill_line : string) (extra : list string) :
  is_connected m = false -> opens m = true -> inbox m = [] ->
  respond m "PRESSURE?" = pressure_line :: extra ->
  respond m "REFILL?" = [refill_line] ->
  fst (single_acquisition_arduino m)
  = Ok (float_or_nan pressure_line,
        float_or_nan match extra with
                     | [] => refill_line
                     | stale :: _ => stale
                     end)
  /\ is_connected (snd (single_acquisition_arduino m)) = false.
Proof.
  intros Hc Ho Hi Hp Hr.
  destruct (connect_keeps_buffer m Hc Ho) as (m1 & E1 & Hc1 & Hi1 & Hr1).
  rewrite Hi in Hi1.
  assert (P1 : (inbox m1 ++ respond m1 "PRESSURE?")%list
               = pressure_line :: extra)
    by (now rewrite Hi1, Hr1, Hp).
  destruct (safe_query_oldest m1 _ _ _ None Hc1 P1)
    as (m2 & E2 & Hi2 & Hs2 & Hr2).
  assert (Hc2 : is_connected m2 = true)
    by (unfold is_connected in *; now rewrite Hs2).
  set (second := match extra with [] => refill_line | stale :: _ => stale end).
  assert (P2 : exists rest, (inbox m2 ++ respond m2 "REFILL?")%list
                            = second :: rest).
  { rewrite Hi2, Hr2, Hr1, Hr. subst second.
    destruct extra as [|x xs]; cbn [app]; eexists; reflexivity. }
  destruct P2 as (rest & P2).
  destruct (safe_query_oldest m2 _ _ _ None Hc2 P2)
    as (m3 & E3 & Hi3 & Hs3 & Hr3).
  assert (Run : single_acquisition_arduino m
                = (Ok (float_or_nan pressure_line, float_or_nan second),
                   snd (disconnect m3))).
  { unfold single_acquisition_arduino.
    unfold bind at 1. rewrite E1. cbv beta iota.
    unfold bind at 1. unfold read_pressure at 1.
    change (form_message "PRESSURE" true None) with "PRESSURE?"%string.
    cbv zeta. unfold bind at 1. rewrite E2. cbv beta iota.
    assert (F1 : forall (r : string) (x : Mediator),
               match float_of_string r with
               | Some f => ret f
               | None => ret NaN
               end x = (Ok (float_or_nan r), x)).
    { intros r x. unfold float_or_nan.
      destruct (float_of_string r); reflexivity. }
    rewrite F1. cbv beta iota.
    unfold bind at 1. unfold read_refill_status at 1.
    change (form_message "REFILL" true None) with "REFILL?"%string.
    cbv zeta. unfold bind at 1. rewrite E3. cbv beta iota.
    rewrite F1. cbv beta iota.
    unfold bind. destruct (disconnect_closes m3) as [D _].
    destruct (disconnect m3) as [[u|e] m4]; cbn [fst] in D; [|discriminate].
    reflexivity. }
  rewrite Run. cbn [fst snd]. split; [reflexivity|].
  apply disconnect_closes.
Qed.

End ArduinoMeasurement.

(** ** The further theorems at concrete inputs *)

Section MoreInstances.
Import Session Discovery SessionMore TemperatureController Measurement.

Lemma warmup_loop_output_is_a_percentage_witness :
  let s := Examples.controller MEDIUM 40 LOW 10 in
  (sample_space_manual_output s = Fin 10 /\ (0 <= 10 <= 100)%Q)
  /\ sample_space_output_between 0 100 s
       (snd (warmup_loop (of_Z 255) (of_Z 240) [of_Z 241; of_Z 242] s)).
Proof.
  cbv zeta.
  assert (H : (0 <= 10 <= 100)%Q) by (split; unfold Qle; simpl; lia).
  split; [split; [reflexivity | exact H]|].
  exact (warmup_loop_output_is_a_percentage (of_Z 255) (of_Z 240)
           [of_Z 241; of_Z 242] (Examples.controller MEDIUM 40 LOW 10) 10
           eq_refl H).
Defined.


Lemma warmup_near_target_witness :
  let s := Examples.controller MEDIUM 40 HIGH 10 in
  let data := [of_Z 254; of_Z 254] in
  (connected s = true /\ last_item data = Ok (Fin 254) /\ (255 - 2 < 254)%Q
   /\ mean_temp_diff_per_minute data = Fin 0
   /\ sample_space_manual_output s = Fin 10)
  /\ fst (check_warmup_heater_status (Fin 255) data s) = Ok tt
  /\ snd (check_warmup_heater_status (Fin 255) data s) = s.
Proof.
  cbv zeta.
  assert (Hnear : (255 - 2 < 254)%Q) by (vm_compute; reflexivity).
  assert (Hrate : mean_temp_diff_per_minute [of_Z 254; of_Z 254] = Fin 0)
    by (vm_compute; reflexivity).
  split; [repeat split; assumption|].
  destruct (warmup_near_target (Examples.controller MEDIUM 40 HIGH 10)
              [of_Z 254; of_Z 254] 254 255 0 10
              eq_refl eq_refl Hnear Hrate eq_refl) as (H1 & _ & _ & H4).
  split; [exact H1|]. apply H4.
  - split; vm_compute; discriminate.
  - vm_compute; discriminate.
Defined.

Lemma warmup_holds_on_nan_witness :
  let s := Examples.controller MEDIUM 40 LOW 10 in
  let data := [NaN; of_Z 240] in
  (In NaN data
   /\ forall latest, last_item data = Ok latest ->
                     gt latest (add (of_Z 255) (of_Z 2)) = false)
  /\ mean_temp_diff_per_minute data = NaN
  /\ check_warmup_heater_status (of_Z 255) data s = (Ok tt, s).
Proof.
  cbv zeta.
  assert (Hin : In NaN [NaN; of_Z 240]) by (now left).
  assert (Hlatest : forall latest, last_item [NaN; of_Z 240] = Ok latest ->
                      gt latest (add (of_Z 255) (of_Z 2)) = false).
  { intros latest E. vm_compute in E. injection E as <-. reflexivity. }
  split; [split; assumption|].
  destruct (warmup_holds_on_nan (Examples.controller MEDIUM 40 LOW 10)
              (of_Z 255) [NaN; of_Z 240] Hin Hlatest) as (H1 & H2 & H3).
  split; [exact H1|].
  specialize (H3 eq_refl).
  destruct (check_warmup_heater_status (of_Z 255) [NaN; of_Z 240]
              (Examples.controller MEDIUM 40 LOW 10)) as [res s'].
  cbn [fst snd] in H2, H3. now rewrite H2, H3.
Defined.

Lemma heater_range_by_name_witness :
  let s := Examples.controller LOW 40 LOW 10 in
  connected s = true
  /\ set_cold_head_heater_range (RangeName "medium") s
     = (Ok tt, receive_heater_range COLD_HEAD_OUT_CHANNEL MEDIUM s)
  /\ set_cold_head_heater_range (RangeName "MEDIUM") s
     = set_cold_head_heater_range (RangeName "medium") s.
Proof.
  cbv zeta. split; [reflexivity|].
  pose proof (heater_range_by_name (Examples.controller LOW 40 LOW 10)
                "medium" eq_refl) as H.
  cbv zeta in H. destruct H as [H _].
  assert (E : HeaterRangeValues_item (upper "medium") = Ok MEDIUM)
    by (vm_compute; reflexivity).
  rewrite E in H. destruct H as (H1 & _ & H3 & _).
  split; [exact H1 | exact H3].
Defined.


Lemma level_reading_on_closed_session_witness :
  let m := ExamplesMore.level_sensor None [] "72.5 in" in
  is_connected m = false
  /\ CryogenLevelSensor.read_helium_level m = (Raise IndexError, m)
  /\ CryogenLevelSensor.read_nitrogen_level m = (Raise IndexError, m).
Proof.
  cbv zeta. split; [reflexivity|].
  exact (level_reading_on_closed_session
           (ExamplesMore.level_sensor None [] "72.5 in") eq_refl).
Defined.



Lemma parse_response_ignores_outer_whitespace_witness :
  (all_chars is_space " " = true
   /\ all_chars is_space ExamplesMore.CRLF = true)
  /\ parse_response (" " ++ "4.5,OFF,12" ++ ExamplesMore.CRLF)
     = parse_response "4.5,OFF,12".
Proof.
  split; [split; vm_compute; reflexivity|].
  apply (parse_response_ignores_outer_whitespace " " "4.5,OFF,12"
           ExamplesMore.CRLF); vm_compute; reflexivity.
Defined.

Lemma level_parse_reads_second_line_witness :
  (mem_char CR "MEAS? 1" = false /\ mem_char CR "72.5 in" = false)
  /\ CryogenLevelSensor.parse_response
       ("MEAS? 1" ++ String CR (String LF ("72.5 in" ++ ExamplesMore.CRLF)))
     = parse_response "72.5 in"
  /\ CryogenLevelSensor.parse_response "MEAS? 1" = Raise IndexError.
Proof.
  split; [split; vm_compute; reflexivity|].
  destruct (level_parse_reads_second_line "MEAS? 1" "72.5 in" ""
              eq_refl eq_refl) as (_ & H2 & H3).
  split; [exact H2 | exact H3].
Defined.


Lemma arduino_measurement_reads_in_order_witness :
  let m := ExamplesMore.arduino ["1.72"; "1.80"] in
  (is_connected m = false /\ opens m = true /\ inbox m = []
   /\ respond m "PRESSURE?" = ["1.72"; "1.80"]
   /\ respond m "REFILL?" = ["0"])
  /\ fst (single_acquisition_arduino m)
     = Ok (float_or_nan "1.72", float_or_nan "1.80")
  /\ is_connected (snd (single_acquisition_arduino m)) = false.
Proof.
  cbv zeta. split; [repeat split|].
  exact (arduino_measurement_reads_in_order
           (ExamplesMore.arduino ["1.72"; "1.80"]) "1.72" "0" ["1.80"]
           eq_refl eq_refl eq_refl eq_refl eq_refl).
Defined.

End MoreInstances.
